(** * ICC Rankings API: a shallow embedding of [backend/main.py]

    The program is a FastAPI service that keeps one pandas DataFrame in the
    module-level variable [df] and answers every request by filtering,
    grouping and sorting that table.  This file embeds the table, the
    load/refresh life cycle and every endpoint as Rocq functions, and states
    the properties of the specification about them.

    What belongs to pandas, numpy and [re] rather than to the repository is
    a parameter of the sections [DatasetStore] and [Endpoints]:
    - [re_compile]: [re.compile(pat, re.IGNORECASE)] as used by
      [Series.str.contains(name, case=False, na=False)] (whose [regex]
      argument defaults to [True]);
    - [argsort]: numpy's [argsort(kind="quicksort")], the default of
      [DataFrame.sort_values] on a single column;
    - [to_datetime] and [to_datetime_in]: [pd.to_datetime(_, errors="coerce")]
      on a scalar and on the cells of a column.
    The module [Reference] gives executable instances of the three.

    The data is as the dataset has it: Player is text or missing; Format,
    Category are text; Rank is an integer column and Rating a numeric one
    (integers or floats, here rational numbers), both without missing cells;
    Date is text or missing before [to_datetime] and a timestamp or [NaT]
    after it.  A frame carries the labels of its columns, and looking
    up a label it does not have raises [KeyError].  [read_csv] numbers the
    rows 0, 1, ... and masks keep these labels, so [data.loc[label]] on the
    label [idxmax] returns is the row at the position of the first maximum.
    Strings are byte strings.  [str.lower()] and [str.strip()] are embedded
    on ASCII text, where they fold the letters A-Z and remove the ten ASCII
    blanks; the properties that depend on them are stated for ASCII
    input. *)

From Stdlib Require Import List ZArith Lia Bool Ascii String Permutation Sorted.
From Stdlib Require Import DecimalString QArith Lqa.
Import ListNotations.

Local Open Scope string_scope.
Local Open Scope list_scope.
Local Open Scope Z_scope.

Set Implicit Arguments.

(** ** Python strings *)

Module PyStr.

(** [str.lower()] on ASCII letters. *)
Definition lower_ascii (c : ascii) : ascii :=
  let n := nat_of_ascii c in
  if (65 <=? n)%nat && (n <=? 90)%nat then ascii_of_nat (n + 32) else c.

Fixpoint lower (s : string) : string :=
  match s with
  | EmptyString => EmptyString
  | String c t => String (lower_ascii c) (lower t)
  end.

(** [a in b] for strings: [a] occurs in [b] as a contiguous block. *)
Fixpoint contains (a b : string) : bool :=
  String.prefix a b
  || match b with
     | EmptyString => false
     | String _ t => contains a t
     end.

(** The characters [str.strip()] removes (the ASCII ones). *)
Definition is_space (c : ascii) : bool :=
  let n := nat_of_ascii c in
  ((9 <=? n)%nat && (n <=? 13)%nat) || ((28 <=? n)%nat && (n <=? 32)%nat).

Fixpoint lstrip (s : string) : string :=
  match s with
  | EmptyString => EmptyString
  | String c t => if is_space c then lstrip t else s
  end.

(** [rstrip]: a trailing character goes when it is a space and everything
    after it has gone too. *)
Fixpoint rstrip (s : string) : string :=
  match s with
  | EmptyString => EmptyString
  | String c t =>
      match rstrip t with
      | EmptyString => if is_space c then EmptyString else String c EmptyString
      | t' => String c t'
      end
  end.

Definition strip (s : string) : string := rstrip (lstrip s).

(** [s.split(",")]: always at least one piece. *)
Fixpoint split_comma (s : string) : list string :=
  match s with
  | EmptyString => [EmptyString]
  | String c t =>
      if Ascii.eqb c ","%char then EmptyString :: split_comma t
      else match split_comma t with
           | [] => [String c EmptyString]
           | p :: ps => String c p :: ps
           end
  end.

(** [f"{n}"] for an integer. *)
Definition str_int (n : Z) : string := NilZero.string_of_int (Z.to_int n).

(** [f"{n:0wd}"] for a non-negative integer: zero padding on the left. *)
Fixpoint zeros (k : nat) : string :=
  match k with O => EmptyString | S k' => String "0"%char (zeros k') end.

Definition zfill (w : nat) (n : Z) : string :=
  let s := str_int n in (zeros (w - String.length s) ++ s)%string.

End PyStr.

(** ** Exceptions and results *)

Inductive exn : Type :=
| KeyError (column : string)   (* a column the frame does not have *)
| ReError (pattern : string)   (* [re.error]: the pattern does not compile *)
| ValueError.                  (* [idxmax] of an empty series *)

Inductive result (A : Type) : Type :=
| Ok (a : A)
| Raise (e : exn).

Arguments Ok {A} a.
Arguments Raise {A} e.

Definition bind {A B : Type} (m : result A) (k : A -> result B) : result B :=
  match m with
  | Ok a => k a
  | Raise e => Raise e
  end.

Notation "x <- m ;; k" := (bind m (fun x => k))
  (at level 61, m at next level, right associativity).
Notation "m ;;; k" := (bind m (fun _ => k))
  (at level 61, right associativity).

(** ** The table *)

(** A [pd.Timestamp]; compared chronologically, that is lexicographically on
    (year, month, day, time of day). *)
Record Timestamp : Type := mkTimestamp {
  ts_year : Z;
  ts_month : Z;
  ts_day : Z;
  ts_nanos : Z
}.

(** A ranking record.  [D] is the type of the [Date] cell: [option string]
    as [read_csv] delivers it ([None] for a missing cell), and
    [option Timestamp] once [to_datetime] has run ([None] is [NaT]).
    [Player] is [None] for a missing cell (NaN).  [Rating] is the score as
    a rational number: an integer column gives whole numbers, a float
    column the values of its (finite) floats. *)
Record Row (D : Type) : Type := mkRow {
  Player : option string;
  Format : string;
  Category : string;
  Date : D;
  Rank : Z;
  Rating : Q
}.

(** A DataFrame: the labels of its columns and its rows.  [pd.DataFrame()]
    has neither. *)
Record DataFrame (D : Type) : Type := mkDataFrame {
  columns : list string;
  rows : list (Row D)
}.

Abbreviation RawFrame := (DataFrame (option string)).
Abbreviation Frame := (DataFrame (option Timestamp)).
Abbreviation Record_ := (Row (option Timestamp)).

Definition pd_DataFrame {D : Type} : DataFrame D := mkDataFrame [] [].

(** [data.empty] *)
Definition empty {D : Type} (rs : list (Row D)) : bool :=
  match rs with [] => true | _ => false end.

(** ** Timestamps *)

Definition ts_compare (a b : Timestamp) : comparison :=
  match ts_year a ?= ts_year b with
  | Eq => match ts_month a ?= ts_month b with
          | Eq => match ts_day a ?= ts_day b with
                  | Eq => ts_nanos a ?= ts_nanos b
                  | c => c
                  end
          | c => c
          end
  | c => c
  end.

Definition ts_eqb (a b : Timestamp) : bool :=
  match ts_compare a b with Eq => true | _ => false end.

Definition ts_leb (a b : Timestamp) : bool :=
  match ts_compare a b with Gt => false | _ => true end.

(** [str(ts.date())]; [NaT.date()] is [NaT], printed as "NaT". *)
Definition date_str (t : option Timestamp) : string :=
  match t with
  | None => "NaT"
  | Some t =>
      (PyStr.zfill 4 (ts_year t) ++ "-" ++ PyStr.zfill 2 (ts_month t)
         ++ "-" ++ PyStr.zfill 2 (ts_day t))%string
  end.

(** ** Series and boolean masks *)

(** [df[c]]: the column, or [KeyError] when the frame has no such label. *)
Definition has_column {D : Type} (df : DataFrame D) (c : string) : bool :=
  existsb (String.eqb c) (columns df).

Definition getitem {D A : Type} (df : DataFrame D) (c : string)
    (cell : Row D -> A) : result (list A) :=
  if has_column df c then Ok (map cell (rows df)) else Raise (KeyError c).

(** [m1 & m2] *)
Fixpoint mask_and (m1 m2 : list bool) : list bool :=
  match m1, m2 with
  | b1 :: t1, b2 :: t2 => (b1 && b2) :: mask_and t1 t2
  | _, _ => []
  end.

(** [df[mask]]: the rows whose mask entry is [True]; labels are kept. *)
Fixpoint select {A : Type} (mask : list bool) (l : list A) : list A :=
  match mask, l with
  | b :: m, x :: t => if b then x :: select m t else select m t
  | _, _ => []
  end.

Definition loc_mask {D : Type} (df : DataFrame D) (mask : list bool)
    : DataFrame D :=
  mkDataFrame (columns df) (select mask (rows df)).

(** [mask.sum()] *)
Fixpoint mask_sum (m : list bool) : Z :=
  match m with
  | [] => 0
  | b :: t => (if b then 1 else 0) + mask_sum t
  end.

(** [series == v] on a text column. *)
Definition series_eq (s : list string) (v : string) : list bool :=
  map (fun x => String.eqb x v) s.

(** [series == d] on the Date column: [NaT] equals nothing, itself
    included. *)
Definition date_eq (x d : option Timestamp) : bool :=
  match x, d with
  | Some a, Some b => ts_eqb a b
  | _, _ => false
  end.

Definition dates_eq (s : list (option Timestamp)) (d : option Timestamp)
    : list bool :=
  map (fun x => date_eq x d) s.

(** [series.dt.year]: NaN for [NaT], and every comparison with NaN is
    [False]. *)
Definition dt_year (s : list (option Timestamp)) : list (option Z) :=
  map (option_map ts_year) s.

Definition years_cmp (test : Z -> bool) (s : list (option Z)) : list bool :=
  map (fun y => match y with Some y => test y | None => false end) s.

(** [series.min()] and [series.max()] on the Date column skip [NaT]; the
    answer is [NaT] when nothing is left. *)
Fixpoint series_min (s : list (option Timestamp)) : option Timestamp :=
  match s with
  | [] => None
  | None :: t => series_min t
  | Some x :: t =>
      match series_min t with
      | None => Some x
      | Some m => if ts_leb x m then Some x else Some m
      end
  end.

Fixpoint series_max (s : list (option Timestamp)) : option Timestamp :=
  match s with
  | [] => None
  | None :: t => series_max t
  | Some x :: t =>
      match series_max t with
      | None => Some x
      | Some m => if ts_leb m x then Some x else Some m
      end
  end.

(** [series.idxmax()] on a numeric column: position and value of the
    first occurrence of the maximum ([None] on an empty series, where pandas
    raises; every caller tests [data.empty] first). *)
Fixpoint idxmax (s : list Q) : option (nat * Q) :=
  match s with
  | [] => None
  | x :: t =>
      match idxmax t with
      | Some (i, m) => if Qle_bool m x then Some (O, x) else Some (S i, m)
      | None => Some (O, x)
      end
  end.

(** [int(x)] on a number: the fractional part is dropped, towards zero. *)
Definition int (x : Q) : Z := Z.quot (Qnum x) (Z.pos (Qden x)).

(** [df.head(n)]: the first [n] rows, all but the last [-n] for a negative
    [n]. *)
Definition head {A : Type} (n : Z) (l : list A) : list A :=
  if 0 <=? n then firstn (Z.to_nat n) l
  else firstn (List.length l - Z.to_nat (- n)) l.

(** [df.take(indexer)]: the rows at the given positions, in that order. *)
Definition take {A : Type} (indexer : list nat) (l : list A) : list A :=
  flat_map (fun i => match nth_error l i with Some x => [x] | None => [] end)
           indexer.

(** [series.dropna().unique()]: the values in order of first appearance. *)
Fixpoint unique (l : list string) : list string :=
  match l with
  | [] => []
  | x :: t => x :: filter (fun y => negb (String.eqb y x)) (unique t)
  end.

Fixpoint dropna {A : Type} (l : list (option A)) : list A :=
  match l with
  | [] => []
  | Some x :: t => x :: dropna t
  | None :: t => dropna t
  end.

(** A Python dict with string keys, in insertion order; [d[k] = v] keeps
    the place of a key that is already there. *)
Fixpoint dict_set {V : Type} (k : string) (v : V) (d : list (string * V))
    : list (string * V) :=
  match d with
  | [] => [(k, v)]
  | (k', v') :: t =>
      if String.eqb k' k then (k, v) :: t else (k', v') :: dict_set k v t
  end.

(** [if format:]: an optional argument counts when it is given and is not
    the empty string. *)
Definition truthy (o : option string) : bool :=
  match o with
  | Some s => negb (String.eqb s "")
  | None => false
  end.

Definition or_all (o : option string) : string :=
  match o with
  | Some s => if String.eqb s "" then "all" else s
  | None => "all"
  end.

(** ** Sorting and grouping *)

(** Insertion sort that keeps the input order of elements neither of which
    has to go before the other when [before] is a non-strict order: the
    result of any stable sort. *)
Fixpoint insert_by {A : Type} (before : A -> A -> bool) (x : A) (l : list A)
    : list A :=
  match l with
  | [] => [x]
  | y :: t => if before x y then x :: l else y :: insert_by before x t
  end.

Definition sort_by {A : Type} (before : A -> A -> bool) (l : list A) : list A :=
  fold_right (insert_by before) [] l.

(** A row of a leaderboard, after [reset_index()]. *)
Record Leader : Type := mkLeader {
  leader : string;
  DaysAtRank1 : Z;
  DaysInTop5 : Z;
  DaysInTop10 : Z
}.

(** [(x == 1).sum()], [(x <= 5).sum()], [(x <= 10).sum()] on a Rank
    column. *)
Definition days_rank1 (ranks : list Z) : Z := mask_sum (map (fun x => x =? 1) ranks).
Definition days_top5 (ranks : list Z) : Z := mask_sum (map (fun x => x <=? 5) ranks).
Definition days_top10 (ranks : list Z) : Z := mask_sum (map (fun x => x <=? 10) ranks).

(** The tuple (DaysAtRank1, DaysInTop5, DaysInTop10) of [a] is at least
    that of [b], lexicographically. *)
Definition days_geb (a b : Leader) : bool :=
  (DaysAtRank1 b <? DaysAtRank1 a)
  || ((DaysAtRank1 a =? DaysAtRank1 b)
      && ((DaysInTop5 b <? DaysInTop5 a)
          || ((DaysInTop5 a =? DaysInTop5 b)
              && (DaysInTop10 b <=? DaysInTop10 a)))).

(** [sort_values(["DaysAtRank1", "DaysInTop5", "DaysInTop10"],
    ascending=[False, False, False])]: on several columns pandas sorts with
    a lexsort, which is stable. *)
Definition sort_values_days (board : list Leader) : list Leader :=
  sort_by days_geb board.

(** The group keys of [groupby("Player")]: the distinct non-null players in
    ascending order ([sort=True], [dropna=True] are the defaults). *)
Definition group_keys (players : list (option string)) : list string :=
  sort_by String.leb (unique (dropna players)).

Definition in_group {D : Type} (k : string) (r : Row D) : bool :=
  match Player r with
  | Some p => String.eqb p k
  | None => false
  end.

(** [groupby("Player").agg(DaysAtRank1=..., DaysInTop5=...,
    DaysInTop10=...).reset_index()] *)
Definition groupby_agg_days {D : Type} (data : list (Row D)) : list Leader :=
  map (fun k =>
         let x := map (@Rank D) (filter (in_group k) data) in
         mkLeader k (days_rank1 x) (days_top5 x) (days_top10 x))
      (group_keys (map (@Player D) data)).

(** ** The Dataset Store *)

(** What a name can be bound to: a frame as [read_csv] returns it, or a
    frame whose Date column holds timestamps. *)
Inductive Object : Type :=
| Unparsed (f : RawFrame)
| Parsed (f : Frame).

(** The interpreter state the program touches: the objects it allocated, by
    address, and the binding of the global [df] ([None] is Python's [None],
    the value at import time). *)
Record Store : Type := mkStore {
  heap : list Object;
  df : option nat
}.

Definition initial : Store := mkStore [] None.

(** [df = <new object>] *)
Definition rebind (s : Store) (o : Object) : Store :=
  mkStore (heap s ++ [o]) (Some (List.length (heap s))).

Fixpoint update {A : Type} (a : nat) (x : A) (l : list A) : list A :=
  match l, a with
  | [], _ => []
  | _ :: t, O => x :: t
  | y :: t, S a' => y :: update a' x t
  end.

(** The object [df] is bound to. *)
Definition current (s : Store) : option Object :=
  match df s with
  | Some a => nth_error (heap s) a
  | None => None
  end.

(** The outcome of [pd.read_csv(DATA_URL, compression="gzip")]. *)
Inductive Fetch : Type :=
| FetchFails
| Fetched (csv : RawFrame).

Definition with_Date {D E : Type} (d : E) (r : Row D) : Row E :=
  mkRow (Player r) (Format r) (Category r) d (Rank r) (Rating r).

Section DatasetStore.

(** [pd.to_datetime(column, errors="coerce")] on one text cell of a
    column (pandas may read the format off the column); [None] is
    [NaT]. *)
Variable to_datetime_in : list (option string) -> string -> option Timestamp.

Definition to_datetime_cell (col : list (option string)) (c : option string)
    : option Timestamp :=
  match c with
  | Some x => to_datetime_in col x
  | None => None
  end.

Definition parse_dates (f : RawFrame) : Frame :=
  let col := map (@Date _) (rows f) in
  mkDataFrame (columns f)
              (map (fun r => with_Date (to_datetime_cell col (Date r)) r)
                   (rows f)).

(** [df["Date"] = pd.to_datetime(df["Date"], errors="coerce")]: the object
    [df] is bound to is changed in place. *)
Definition setitem_Date (s : Store) : Store :=
  match df s, current s with
  | Some a, Some (Unparsed f) =>
      mkStore (update a (Parsed (parse_dates f)) (heap s)) (df s)
  | _, _ => s
  end.

(** [load_data()], statement by statement: the store after each
    statement that writes it. *)
Definition load_data_trace (s : Store) (r : Fetch) : list Store :=
  match r with
  | FetchFails => [rebind s (Parsed pd_DataFrame)]
  | Fetched csv =>
      let s1 := rebind s (Unparsed csv) in
      if has_column csv "Date" then [s1; setitem_Date s1]
      else [s1; rebind s1 (Parsed pd_DataFrame)]
  end.

Definition load_data (s : Store) (r : Fetch) : Store :=
  last (load_data_trace s r) s.

(** [refresh()] *)
Definition refresh (s : Store) (r : Fetch) : Store * string :=
  (load_data s r, "Data refreshed").

End DatasetStore.

(** [root()] *)
Definition root : string := "ICC Rankings API is running".

(** ** The responses *)

Record PlayerSummary : Type := mkPlayerSummary {
  summary_Player : string;
  summary_Format : string;
  summary_Category : string;
  PeakRating : Z;
  PeakRank : Z;
  WeeksAtRank1 : Z;
  FirstAppearance : string;
  LastAppearance : string
}.

Record Dominance : Type := mkDominance {
  dominance_Player : string;
  dominance_Format : string;
  dominance_Category : string;
  dominance_DaysAtRank1 : Z;
  dominance_DaysInTop5 : Z;
  dominance_DaysInTop10 : Z
}.

(** A response that is either [{"Player": name, "message": ...}] or the
    statistics. *)
Inductive or_message (A : Type) : Type :=
| Message (player : string) (message : string)
| Stats (a : A).

Arguments Message {A} player message.
Arguments Stats {A} a.

Inductive decade_response : Type :=
| DecadeEmpty                                   (* [[]] *)
| DecadeLeaders (decade : string) (format category : string)
                (leaders : list Leader).

Record Snapshot : Type := mkSnapshot {
  snapshot_Format : string;
  snapshot_Category : string;
  snapshot_Date : string;
  TopPlayers : list Record_
}.

Record SegmentLeaders : Type := mkSegmentLeaders {
  segment_Format : string;
  segment_Category : string;
  segment_Leaders : list (string * Z)   (* Player, DaysAtRank1 *)
}.

(** The loops [for format in ["odi", "test"]: for category in ["batting",
    "bowling"]]. *)
Definition segments : list (string * string) :=
  list_prod ["odi"; "test"] ["batting"; "bowling"].

(** ** The endpoints

    Every endpoint reads the global [df]; here it takes the frame [df] is
    bound to when the request runs.  [to_dict(orient="records")] is the list
    of rows. *)

Section Endpoints.

(** [re.compile(pat, flags=re.IGNORECASE)]: [None] when the pattern does
    not compile, else the test [pat.search(x) is not None]. *)
Variable re_compile : string -> option (string -> bool).

(** numpy's [argsort(kind="quicksort")] on an integer array. *)
Variable argsort : list Z -> list nat.

(** [pd.to_datetime(s, errors="coerce")] on a scalar; [None] is [NaT]. *)
Variable to_datetime : string -> option Timestamp.

(** [series.str.contains(pat, case=False, na=False)]; [regex=True] is the
    default, so [pat] is a regular expression.  A missing cell gives
    [na]. *)
Definition str_contains (s : list (option string)) (pat : string)
    : result (list bool) :=
  match re_compile pat with
  | None => Raise (ReError pat)
  | Some search =>
      Ok (map (fun x => match x with
                        | Some x => search x
                        | None => false
                        end) s)
  end.

(** [df[df["Player"].str.contains(name, case=False, na=False)]] *)
Definition filter_by_name (df : Frame) (name : string) : result Frame :=
  players <- getitem df "Player" (@Player _) ;;
  mask <- str_contains players name ;;
  Ok (loc_mask df mask).

(** [data[data["Format"] == format]] *)
Definition filter_by_format (data : Frame) (format : string) : result Frame :=
  col <- getitem data "Format" (@Format _) ;;
  Ok (loc_mask data (series_eq col format)).

(** [data[data["Category"] == category]] *)
Definition filter_by_category (data : Frame) (category : string)
    : result Frame :=
  col <- getitem data "Category" (@Category _) ;;
  Ok (loc_mask data (series_eq col category)).

Definition value (o : option string) : string :=
  match o with Some s => s | None => "" end.

(** The opening lines shared by [get_player], [player_summary] and
    [dominance]. *)
Definition player_data (df : Frame) (name : string)
    (format category : option string) : result Frame :=
  data <- filter_by_name df name ;;
  data <- (if truthy format then filter_by_format data (value format)
           else Ok data) ;;
  data <- (if truthy category then filter_by_category data (value category)
           else Ok data) ;;
  Ok data.

(** [get_player(name, format, category)] *)
Definition get_player (df : Frame) (name : string)
    (format category : option string) : result (list Record_) :=
  data <- player_data df name format category ;;
  Ok (rows data).

(** [df[(df["Format"] == format) & (df["Category"] == category)]] *)
Definition segment (df : Frame) (format category : string) : result Frame :=
  f <- getitem df "Format" (@Format _) ;;
  c <- getitem df "Category" (@Category _) ;;
  Ok (loc_mask df (mask_and (series_eq f format) (series_eq c category))).

(** [data.sort_values("Rank")] *)
Definition sort_values_Rank (data : Frame) : result Frame :=
  ranks <- getitem data "Rank" (@Rank _) ;;
  Ok (mkDataFrame (columns data) (take (argsort ranks) (rows data))).

(** [data.sort_values("Rank").head(n)] *)
Definition top_n_by_rank (data : Frame) (n : Z) : result Frame :=
  sorted <- sort_values_Rank data ;;
  Ok (mkDataFrame (columns sorted) (head n (rows sorted))).

(** [get_top(date, format, category)] *)
Definition get_top (df : Frame) (date format category : string)
    : result (list Record_) :=
  let d := to_datetime date in
  f <- getitem df "Format" (@Format _) ;;
  c <- getitem df "Category" (@Category _) ;;
  dt <- getitem df "Date" (@Date _) ;;
  let data :=
    loc_mask df (mask_and (mask_and (series_eq f format)
                                    (series_eq c category))
                          (dates_eq dt d)) in
  top <- top_n_by_rank data 10 ;;
  Ok (rows top).

(** [compare(players, format, category)] *)
Fixpoint compare_loop (df : Frame) (format category : string)
    (names : list string) (res : list (string * list Record_))
    : result (list (string * list Record_)) :=
  match names with
  | [] => Ok res
  | name :: names' =>
      f <- getitem df "Format" (@Format _) ;;
      c <- getitem df "Category" (@Category _) ;;
      p <- getitem df "Player" (@Player _) ;;
      m <- str_contains p name ;;
      let pdata :=
        loc_mask df (mask_and (mask_and (series_eq f format)
                                        (series_eq c category)) m) in
      compare_loop df format category names'
                   (dict_set name (rows pdata) res)
  end.

Definition compare (df : Frame) (players format category : string)
    : result (list (string * list Record_)) :=
  let names := map PyStr.strip (PyStr.split_comma players) in
  compare_loop df format category names [].

(** [player_summary(name, format, category)] *)
Definition player_summary (df : Frame) (name : string)
    (format category : option string)
    : result (or_message PlayerSummary) :=
  data <- player_data df name format category ;;
  if empty (rows data) then Ok (Message name "No data found")
  else
    rating <- getitem data "Rating" (@Rating _) ;;
    match idxmax rating with
    | None => Raise ValueError
    | Some (i, _) =>
        match nth_error (rows data) i with
        | None => Raise ValueError
        | Some peak_row =>
            let peak_rating := int (Rating peak_row) in
            rank <- getitem data "Rank" (@Rank _) ;;
            let peak_rank := Rank peak_row in
            let weeks_rank1 := days_rank1 rank in
            dates <- getitem data "Date" (@Date _) ;;
            let first_date := date_str (series_min dates) in
            let last_date := date_str (series_max dates) in
            Ok (Stats (mkPlayerSummary name (or_all format) (or_all category)
                                       peak_rating peak_rank weeks_rank1
                                       first_date last_date))
        end
    end.

(** [dominance(name, format, category)] *)
Definition dominance (df : Frame) (name : string)
    (format category : option string) : result (or_message Dominance) :=
  data <- player_data df name format category ;;
  if empty (rows data) then Ok (Message name "No data found")
  else
    rank <- getitem data "Rank" (@Rank _) ;;
    let days_rank1 := days_rank1 rank in
    let days_top5 := days_top5 rank in
    let days_top10 := days_top10 rank in
    Ok (Stats (mkDominance name (or_all format) (or_all category)
                           days_rank1 days_top5 days_top10)).

(** The leaderboard of [leaders], [year_leaders] and [decade_leaders]:
    group, aggregate, sort, [head(top_n)]. *)
Definition leaderboard (data : Frame) (top_n : Z) : result (list Leader) :=
  getitem data "Player" (@Player _) ;;;
  getitem data "Rank" (@Rank _) ;;;
  Ok (head top_n (sort_values_days (groupby_agg_days (rows data)))).

(** [leaders(format, category, top_n)] *)
Definition leaders (df : Frame) (format category : string) (top_n : Z)
    : result (list Leader) :=
  data <- segment df format category ;;
  if empty (rows data) then Ok [] else leaderboard data top_n.

(** [df[... & (df["Date"].dt.year == year)]] *)
Definition segment_years (df : Frame) (format category : string)
    (in_years : Z -> bool) : result Frame :=
  f <- getitem df "Format" (@Format _) ;;
  c <- getitem df "Category" (@Category _) ;;
  dt <- getitem df "Date" (@Date _) ;;
  Ok (loc_mask df (mask_and (mask_and (series_eq f format)
                                      (series_eq c category))
                            (years_cmp in_years (dt_year dt)))).

(** [data[data["Date"] == last_date].sort_values("Rank").head(10)] *)
Definition snapshot_at (data : Frame) (last_date : option Timestamp)
    : result (list Record_) :=
  dt <- getitem data "Date" (@Date _) ;;
  snapshot <- top_n_by_rank (loc_mask data (dates_eq dt last_date)) 10 ;;
  Ok (rows snapshot).

(** [yearly_top(year, format, category)] *)
Definition yearly_top (df : Frame) (year : Z) (format category : string)
    : result (list Record_) :=
  data <- segment_years df format category (fun y => y =? year) ;;
  if empty (rows data) then Ok []
  else
    dt <- getitem data "Date" (@Date _) ;;
    let last_date := series_max dt in
    snapshot_at data last_date.

(** [year_leaders(year, format, category, top_n)] *)
Definition year_leaders (df : Frame) (year : Z) (format category : string)
    (top_n : Z) : result (list Leader) :=
  data <- segment_years df format category (fun y => y =? year) ;;
  if empty (rows data) then Ok [] else leaderboard data top_n.

(** [decade_leaders(format, category, decade, top_n)] *)
Definition decade_leaders (df : Frame) (format category : string)
    (decade : Z) (top_n : Z) : result decade_response :=
  let start_year := decade in
  let end_year := decade + 9 in
  f <- getitem df "Format" (@Format _) ;;
  c <- getitem df "Category" (@Category _) ;;
  dt1 <- getitem df "Date" (@Date _) ;;
  dt2 <- getitem df "Date" (@Date _) ;;
  let data :=
    loc_mask df
      (mask_and
         (mask_and (mask_and (series_eq f format) (series_eq c category))
                   (years_cmp (fun y => start_year <=? y) (dt_year dt1)))
         (years_cmp (fun y => y <=? end_year) (dt_year dt2))) in
  if empty (rows data) then Ok DecadeEmpty
  else
    board <- leaderboard data top_n ;;
    Ok (DecadeLeaders (PyStr.str_int start_year ++ "s")%string
                      format category board).

(** [search(query)] *)
Definition search (df : Frame) (query : string) : result (list string) :=
  col <- getitem df "Player" (@Player _) ;;
  let players := unique (dropna col) in
  let matches :=
    filter (fun p => PyStr.contains (PyStr.lower query) (PyStr.lower p))
           players in
  Ok (firstn 20 matches).

(** [latest()] *)
Fixpoint latest_loop (df : Frame) (segs : list (string * string))
    (results : list Snapshot) : result (list Snapshot) :=
  match segs with
  | [] => Ok results
  | (format, category) :: segs' =>
      subset <- segment df format category ;;
      if empty (rows subset) then latest_loop df segs' results
      else
        dt <- getitem subset "Date" (@Date _) ;;
        let latest_date := series_max dt in
        latest_data <- snapshot_at subset latest_date ;;
        latest_loop df segs'
          (results ++ [mkSnapshot format category (date_str latest_date)
                                  latest_data])
  end.

Definition latest (df : Frame) : result (list Snapshot) :=
  latest_loop df segments [].

(** [sort_values("DaysAtRank1", ascending=False)]: on one column pandas
    argsorts the reversed column and reverses the outcome. *)
Definition sort_values_DaysAtRank1 (board : list (string * Z))
    : list (string * Z) :=
  let items := map snd board in
  let idx := seq 0 (List.length items) in
  let indexer := rev (take (argsort (rev items)) (rev idx)) in
  take indexer board.

(** [groupby("Player").agg(DaysAtRank1=...).reset_index()] *)
Definition groupby_agg_rank1 (data : list Record_) : list (string * Z) :=
  map (fun k => (k, days_rank1 (map (@Rank _) (filter (in_group k) data))))
      (group_keys (map (@Player _) data)).

(** [leaders_summary(top_n)] *)
Fixpoint leaders_summary_loop (df : Frame) (top_n : Z)
    (segs : list (string * string)) (summary : list SegmentLeaders)
    : result (list SegmentLeaders) :=
  match segs with
  | [] => Ok summary
  | (format, category) :: segs' =>
      subset <- segment df format category ;;
      if empty (rows subset) then leaders_summary_loop df top_n segs' summary
      else
        getitem subset "Player" (@Player _) ;;;
        getitem subset "Rank" (@Rank _) ;;;
        let board :=
          head top_n (sort_values_DaysAtRank1
                        (groupby_agg_rank1 (rows subset))) in
        leaders_summary_loop df top_n segs'
          (summary ++ [mkSegmentLeaders format category board])
  end.

Definition leaders_summary (df : Frame) (top_n : Z)
    : result (list SegmentLeaders) :=
  leaders_summary_loop df top_n segments [].

End Endpoints.

(** ** Reference instances of the library functions

    Small executable stand-ins for [re], numpy and [to_datetime], used to
    run the endpoints on concrete tables; no general statement depends on
    them.  Each is the library on a part of its inputs, and is used there
    only: [re_compile] on ASCII patterns of ordinary characters and dots,
    and on patterns with an open parenthesis that is never closed, which
    [re] refuses as well; [to_datetime] on dates written [YYYY-MM-DD] and
    on text that is no date; the argsorts on the arrays named where they
    are used. *)

Module Reference.

(** Characters with a special meaning in a regular expression. *)
Definition is_meta (c : ascii) : bool :=
  existsb (Ascii.eqb c)
          (list_ascii_of_string ".^$*+?{}[]\|()").

(** Patterns made of ordinary characters and dots. *)
Fixpoint in_fragment (pat : string) : bool :=
  match pat with
  | EmptyString => true
  | String c t => (Ascii.eqb c "."%char || negb (is_meta c)) && in_fragment t
  end.

(** One pattern character against one text character, ignoring case; the
    dot matches everything but a newline. *)
Definition match_char (p c : ascii) : bool :=
  if Ascii.eqb p "."%char then negb (Ascii.eqb c "010"%char)
  else Ascii.eqb (PyStr.lower_ascii p) (PyStr.lower_ascii c).

Fixpoint match_here (pat text : string) : bool :=
  match pat, text with
  | EmptyString, _ => true
  | String _ _, EmptyString => false
  | String p pat', String c text' => match_char p c && match_here pat' text'
  end.

Fixpoint search (pat text : string) : bool :=
  match_here pat text
  || match text with
     | EmptyString => false
     | String _ t => search pat t
     end.

(** [re.compile(pat, re.IGNORECASE)] on the fragment.  Outside it the
    answer is [None]; that is [re]'s answer for an unbalanced parenthesis,
    and no more is claimed of it. *)
Definition re_compile (pat : string) : option (string -> bool) :=
  if in_fragment pat then Some (search pat) else None.

(** An argsort by insertion; [before] decides what happens to equal
    keys. *)
Definition argsort_by (before : Z -> Z -> bool) (a : list Z) : list nat :=
  map fst (sort_by (fun x y => before (snd x) (snd y))
                   (combine (seq 0 (List.length a)) a)).

(** A stable argsort: equal keys keep their order. *)
Definition argsort_stable : list Z -> list nat := argsort_by Z.leb.

(** An argsort that puts equal keys in reverse order, as an unstable
    sort may: the keys 3, 3, 2, 2 give the positions 3, 2, 1, 0. *)
Definition argsort_reversing : list Z -> list nat := argsort_by Z.ltb.

(** [to_datetime] on dates written [YYYY-MM-DD]; any other text is taken
    for no date. *)
Definition digit (c : ascii) : option Z :=
  let n := nat_of_ascii c in
  if (48 <=? n)%nat && (n <=? 57)%nat then Some (Z.of_nat (n - 48)) else None.

Fixpoint number (acc : Z) (cs : list ascii) : option Z :=
  match cs with
  | [] => Some acc
  | c :: t => match digit c with
              | Some d => number (10 * acc + d) t
              | None => None
              end
  end.

Definition is_leap (y : Z) : bool :=
  ((y mod 4 =? 0) && negb (y mod 100 =? 0)) || (y mod 400 =? 0).

Definition days_in_month (y m : Z) : Z :=
  if m =? 2 then (if is_leap y then 29 else 28)
  else if existsb (Z.eqb m) [4; 6; 9; 11] then 30 else 31.

Definition to_datetime (s : string) : option Timestamp :=
  match list_ascii_of_string s with
  | [y1; y2; y3; y4; d1; m1; m2; d2; a; b] =>
      if Ascii.eqb d1 "-"%char && Ascii.eqb d2 "-"%char then
        match number 0 [y1; y2; y3; y4], number 0 [m1; m2], number 0 [a; b] with
        | Some y, Some m, Some d =>
            if (1 <=? m) && (m <=? 12) && (1 <=? d) && (d <=? days_in_month y m)
            then Some (mkTimestamp y m d 0) else None
        | _, _, _ => None
        end
      else None
  | _ => None
  end.

Definition to_datetime_in (_ : list (option string)) (s : string)
    : option Timestamp :=
  to_datetime s.

(** The six columns of the dataset. *)
Definition schema : list string :=
  ["Player"; "Format"; "Category"; "Date"; "Rank"; "Rating"].

(** A small dataset as [read_csv] would return it; the last Date is text
    that is no date. *)
Definition csv : RawFrame :=
  mkDataFrame schema
    [ mkRow (Some "Virat Kohli") "odi" "batting" (Some "2020-01-01") 1 900;
      mkRow (Some "Rohit Sharma") "odi" "batting" (Some "2020-01-01") 2 880;
      mkRow (Some "Virat Kohli") "odi" "batting" (Some "2020-06-01") 3 850;
      mkRow (Some "Rohit Sharma") "odi" "batting" (Some "2020-06-01") 1 900;
      mkRow None "odi" "batting" (Some "2020-06-01") 4 700;
      mkRow (Some "Alastair Cook") "test" "batting" (Some "unknown") 1 910 ].

Definition table : Frame := parse_dates to_datetime_in csv.

(** A row of the one-row table of the regex scenario. *)
Definition kohli : Record_ :=
  mkRow (Some "Virat Kohli") "odi" "batting"
        (Some (mkTimestamp 2021 3 1 0)) 1 900.

(** One segment on one day, four players A, B, C, D with the Ranks 3, 3,
    2, 2 in table order. *)
Definition ranked_row (player : string) (rank : Z) : Record_ :=
  mkRow (Some player) "odi" "batting" (Some (mkTimestamp 2021 3 1 0))
        rank 800.

Definition ranked : Frame :=
  mkDataFrame schema
    [ ranked_row "A" 3; ranked_row "B" 3; ranked_row "C" 2;
      ranked_row "D" 2 ].

(** A table with float ratings and one player in two formats. *)
Definition scores : Frame :=
  mkDataFrame schema
    [ mkRow (Some "Virat Kohli") "test" "batting"
            (Some (mkTimestamp 2019 3 1 0)) 1 937.9;
      mkRow (Some "Virat Kohli") "odi" "batting"
            (Some (mkTimestamp 2020 1 1 0)) 1 900.5;
      mkRow (Some "Virat Kohli") "odi" "batting"
            (Some (mkTimestamp 2020 6 1 0)) 3 850;
      mkRow (Some "Rohit Sharma") "odi" "batting"
            (Some (mkTimestamp 2020 6 1 0)) 1 900.5 ].

End Reference.

(** ** Predicates of the specification *)

(** [s] occurs in [p] when case is ignored: the test [search] makes,
    [query.lower() in p.lower()]. *)
Definition contains_ci (s p : string) : bool :=
  PyStr.contains (PyStr.lower s) (PyStr.lower p).

(** ASCII text: every byte is below 128.  On such text Python's
    [str.lower()] and [str.strip()] are the functions of [PyStr]. *)
Fixpoint ascii_only (s : string) : bool :=
  match s with
  | EmptyString => true
  | String c t => (nat_of_ascii c <? 128)%nat && ascii_only t
  end.

(** Every Player of the rows is ASCII text. *)
Definition ascii_players {D : Type} (rs : list (Row D)) : bool :=
  forallb (fun r => match Player r with
                    | Some p => ascii_only p
                    | None => true
                    end) rs.

(** Two characters are the same letter when case is ignored: they are
    equal, or one is a capital of the alphabet and the other its small
    letter. *)
Definition alphabet : list (ascii * ascii) :=
  combine (list_ascii_of_string "ABCDEFGHIJKLMNOPQRSTUVWXYZ")
          (list_ascii_of_string "abcdefghijklmnopqrstuvwxyz").

Definition same_letter (a b : ascii) : bool :=
  Ascii.eqb a b
  || existsb (fun ul => (Ascii.eqb a (fst ul) && Ascii.eqb b (snd ul))
                        || (Ascii.eqb a (snd ul) && Ascii.eqb b (fst ul)))
             alphabet.

(** Two texts of the same length with the same letters, place by place. *)
Fixpoint same_text (s1 s2 : string) : bool :=
  match s1, s2 with
  | EmptyString, EmptyString => true
  | String a t1, String b t2 => same_letter a b && same_text t1 t2
  | _, _ => false
  end.

(** [q] occurs in [p] when case is ignored: some block of [p] is the text
    [q] up to case. *)
Definition occurs_ci (q p : string) : Prop :=
  exists pre mid post,
    p = (pre ++ mid ++ post)%string /\ same_text q mid = true.

(** The 256 characters. *)
Definition all_ascii : list ascii := map ascii_of_nat (seq 0 256).

(** The ten ASCII characters Python counts as whitespace: tab, line feed,
    vertical tab, form feed, carriage return, the four separators and the
    space. *)
Definition blank (c : ascii) : bool :=
  existsb (Ascii.eqb c)
          ["009"; "010"; "011"; "012"; "013"; "028"; "029"; "030"; "031";
           " "]%char.

(** The frame has every column of the dataset. *)
Definition well_formed {D : Type} (df : DataFrame D) : Prop :=
  forallb (has_column df) Reference.schema = true.

(** The tuple of [a] is at least the tuple of [b] in lexicographic order. *)
Definition tuple_ge (a b : Leader) : Prop :=
  DaysAtRank1 a > DaysAtRank1 b
  \/ (DaysAtRank1 a = DaysAtRank1 b
      /\ (DaysInTop5 a > DaysInTop5 b
          \/ (DaysInTop5 a = DaysInTop5 b /\ DaysInTop10 a >= DaysInTop10 b))).

(** Every adjacent pair of [l] is related by [R]. *)
Definition adjacent {A : Type} (R : A -> A -> Prop) (l : list A) : Prop :=
  forall i a b, nth_error l i = Some a -> nth_error l (S i) = Some b -> R a b.

(** [count_where]: the number of rows that satisfy a predicate. *)
Definition count_where {A : Type} (p : A -> bool) (l : list A) : Z :=
  Z.of_nat (List.length (filter p l)).

(** What numpy promises of an argsort: the positions of the array, each
    once, in an order that makes the keys ascend. *)
Definition argsort_spec (argsort : list Z -> list nat) : Prop :=
  forall a,
    Permutation (argsort a) (seq 0 (List.length a))
    /\ Sorted Z.le (map (fun i => nth i a 0) (argsort a)).

(** The argsort leaves in place every array of at most [n] keys that
    already ascends.  Every stable argsort does; the contract above does
    not ask for it. *)
Definition keeps_ascending (argsort : list Z -> list nat) (n : nat) : Prop :=
  forall a, (List.length a <= n)%nat -> Sorted Z.le a ->
            argsort a = seq 0 (List.length a).

(** The Player cell is not null and the compiled pattern finds it. *)
Definition name_found (search : string -> bool) (r : Record_) : bool :=
  match Player r with
  | Some p => search p
  | None => false
  end.

(** An optional filter lets a cell through: no value was given, or the
    empty string was, or the cell is the value. *)
Definition lets_through (o : option string) (cell : string) : bool :=
  match o with
  | None => true
  | Some EmptyString => true
  | Some v => String.eqb cell v
  end.

(** The filtered set of a player query: the rows of the table, in table
    order, whose Player the pattern finds and whose Format and Category the
    optional filters let through. *)
Definition player_rows (search : string -> bool)
    (format category : option string) (rs : list Record_) : list Record_ :=
  filter (fun r => name_found search r
                   && lets_through format (Format r)
                   && lets_through category (Category r)) rs.

(** [z] is [x] without its fractional part: the whole number next to [x]
    on the side of zero. *)
Definition truncated (x : Q) (z : Z) : Prop :=
  ((0 <= x)%Q -> (inject_Z z <= x)%Q /\ (x < inject_Z (z + 1))%Q)
  /\ ((x <= 0)%Q -> (inject_Z (z - 1) < x)%Q /\ (x <= inject_Z z)%Q).

(** [peak] is the row at position [i], no row has a higher Rating, and
    every row before it has a lower one. *)
Definition first_argmax (data : list Record_) (i : nat) (peak : Record_)
    : Prop :=
  nth_error data i = Some peak
  /\ (forall r, In r data -> (Rating r <= Rating peak)%Q)
  /\ (forall j r, (j < i)%nat -> nth_error data j = Some r ->
                  (Rating r < Rating peak)%Q).

(** [e] is the earliest (latest) parsed date of a Date column, [NaT] when
    no date of the column parsed. *)
Definition earliest (dates : list (option Timestamp)) (e : option Timestamp)
    : Prop :=
  match e with
  | Some t => In (Some t) dates
              /\ forall t', In (Some t') dates -> ts_leb t t' = true
  | None => forall d, In d dates -> d = None
  end.

Definition latest_of (dates : list (option Timestamp)) (e : option Timestamp)
    : Prop :=
  match e with
  | Some t => In (Some t) dates
              /\ forall t', In (Some t') dates -> ts_leb t' t = true
  | None => forall d, In d dates -> d = None
  end.

(** Chronological order of timestamps, as a proposition. *)
Definition ts_le (a b : Timestamp) : Prop :=
  ts_year a < ts_year b
  \/ (ts_year a = ts_year b
      /\ (ts_month a < ts_month b
          \/ (ts_month a = ts_month b
              /\ (ts_day a < ts_day b
                  \/ (ts_day a = ts_day b /\ ts_nanos a <= ts_nanos b))))).

(** The rows of a segment whose Date parsed and lies in the given years. *)
Definition in_segment_years (format category : string) (in_years : Z -> bool)
    (r : Record_) : bool :=
  String.eqb (Format r) format && String.eqb (Category r) category
  && match Date r with
     | Some t => in_years (ts_year t)
     | None => false
     end.

(** [d[k]] as the reader of a response looks a key up. *)
Fixpoint dict_get {V : Type} (k : string) (d : list (string * V)) : option V :=
  match d with
  | [] => None
  | (k', v) :: t => if String.eqb k' k then Some v else dict_get k t
  end.

(** The Player cell is not null. *)
Definition has_player {D : Type} (r : Row D) : bool :=
  match Player r with Some _ => true | None => false end.

(** The rows [compare] returns under one name. *)
Definition compared (re_compile : string -> option (string -> bool))
    (format category name : string) (rs : list Record_) : list Record_ :=
  filter (fun r => String.eqb (Format r) format
                   && String.eqb (Category r) category
                   && match re_compile name with
                      | Some search => name_found search r
                      | None => false
                      end) rs.

(** What a reader of the global [df] sees when it runs while the store is
    [s]. *)
Definition observes (s : Store) (o : Object) : Prop := current s = Some o.

(** The Date is a timestamp, not [NaT]. *)
Definition is_parsed (d : option Timestamp) : bool :=
  match d with Some _ => true | None => false end.

(** Ascending Rank. *)
Definition rank_le (a b : Record_) : Prop := Rank a <= Rank b.

(** The sort the specification asks of [top_n_by_rank]: ascending by Rank
    and stable, rows of equal Rank in input order. *)
Definition sort_stable_Rank (rs : list Record_) : list Record_ :=
  sort_by (fun a b => Rank a <=? Rank b) rs.

(** The distinct non-null players of some rows, in order of first
    appearance. *)
Definition distinct_players {D : Type} (rs : list (Row D)) : list string :=
  unique (dropna (map (@Player D) rs)).

(** The row belongs to the segment. *)
Definition in_segment {D : Type} (format category : string) (r : Row D)
    : bool :=
  String.eqb (Format r) format && String.eqb (Category r) category.

(** The two leaders have the same three day counts. *)
Definition same_days (a b : Leader) : Prop :=
  DaysAtRank1 a = DaysAtRank1 b
  /\ DaysInTop5 a = DaysInTop5 b
  /\ DaysInTop10 a = DaysInTop10 b.

(** The order a stable sort by [before] gives to a list that was in [S]
    order: [a] goes before [b] by [before], and where [before] holds both
    ways the [S] order is kept. *)
Definition stable_rel {A : Type} (before : A -> A -> bool)
    (S : A -> A -> Prop) (a b : A) : Prop :=
  before a b = true /\ (before b a = true -> S a b).

(** Ascending player name. *)
Definition name_le (a b : Leader) : Prop :=
  String.leb (leader a) (leader b) = true.

(** The leaderboard row of player [k] over the rows [data]. *)
Definition leader_of {D : Type} (data : list (Row D)) (k : string) : Leader :=
  mkLeader k
    (count_where (fun r => in_group k r && (Rank r =? 1)) data)
    (count_where (fun r => in_group k r && (Rank r <=? 5)) data)
    (count_where (fun r => in_group k r && (Rank r <=? 10)) data).

(** The segment has a row in the table. *)
Definition has_rows (rs : list Record_) (seg : string * string) : bool :=
  negb (empty (filter (in_segment (fst seg) (snd seg)) rs)).

(** One round of the loop of [latest] over the rows [rs]: what it appends
    to [results]. *)
Definition latest_round (argsort : list Z -> list nat) (rs : list Record_)
    (seg : string * string) : list Snapshot :=
  let subset := filter (in_segment (fst seg) (snd seg)) rs in
  if empty subset then []
  else
    let latest_date := series_max (map (@Date _) subset) in
    let snap := filter (fun r => date_eq (Date r) latest_date) subset in
    [mkSnapshot (fst seg) (snd seg) (date_str latest_date)
                (head 10 (take (argsort (map (@Rank _) snap)) snap))].

(** One round of the loop of [leaders_summary] over the rows [rs]. *)
Definition leaders_summary_round (argsort : list Z -> list nat) (top_n : Z)
    (rs : list Record_) (seg : string * string) : list SegmentLeaders :=
  let subset := filter (in_segment (fst seg) (snd seg)) rs in
  if empty subset then []
  else
    [mkSegmentLeaders (fst seg) (snd seg)
       (head top_n (sort_values_DaysAtRank1 argsort
                      (groupby_agg_rank1 subset)))].

(** Descending DaysAtRank1 in a board of [leaders_summary]. *)
Definition rank1_ge (a b : string * Z) : Prop := snd a >= snd b.

(** The string begins, or ends, with whitespace. *)
Definition starts_with_space (s : string) : bool :=
  match s with
  | EmptyString => false
  | String c _ => blank c
  end.

Fixpoint ends_with_space (s : string) : bool :=
  match s with
  | EmptyString => false
  | String c EmptyString => blank c
  | String _ t => ends_with_space t
  end.

(** The number of commas of a string. *)
Fixpoint commas (s : string) : nat :=
  match s with
  | EmptyString => O
  | String c t => ((if Ascii.eqb c ","%char then 1 else 0) + commas t)%nat
  end.

(** The sum of a column of counts. *)
Definition total (l : list Z) : Z := fold_right Z.add 0 l.

(** * Properties *)

Unset Implicit Arguments.

(** ** Masks and columns *)

Lemma select_map {A : Type} (f : A -> bool) (l : list A) :
  select (map f l) l = filter f l.
Proof.
  induction l as [|x l IH]; simpl; [reflexivity|].
  rewrite IH. reflexivity.
Qed.

Lemma mask_and_map {A : Type} (f g : A -> bool) (l : list A) :
  mask_and (map f l) (map g l) = map (fun x => f x && g x) l.
Proof.
  induction l as [|x l IH]; simpl; [reflexivity|].
  now rewrite IH.
Qed.

Lemma mask_sum_count {A : Type} (p : A -> bool) (l : list A) :
  mask_sum (map p l) = count_where p l.
Proof.
  unfold count_where.
  induction l as [|x l IH]; simpl; [reflexivity|].
  rewrite IH. destruct (p x); simpl List.length; lia.
Qed.

Lemma mask_sum_le (p q : Z -> bool) (l : list Z) :
  (forall x, p x = true -> q x = true) ->
  mask_sum (map p l) <= mask_sum (map q l).
Proof.
  intros Hpq. induction l as [|x l IH]; simpl; [lia|].
  specialize (Hpq x). destruct (p x), (q x); lia.
Qed.

Lemma series_eq_map {D : Type} (cell : Row D -> string) (v : string)
    (l : list (Row D)) :
  series_eq (map cell l) v = map (fun r => String.eqb (cell r) v) l.
Proof. unfold series_eq. now rewrite map_map. Qed.

Lemma well_formed_column {D : Type} (df : DataFrame D) (c : string) :
  well_formed df -> In c Reference.schema -> has_column df c = true.
Proof.
  unfold well_formed. intros H Hc.
  rewrite forallb_forall in H. now apply H.
Qed.

Lemma getitem_ok {D A : Type} (df : DataFrame D) (c : string)
    (cell : Row D -> A) :
  has_column df c = true -> getitem df c cell = Ok (map cell (rows df)).
Proof. unfold getitem. now intros ->. Qed.

Lemma getitem_missing {D A : Type} (df : DataFrame D) (c : string)
    (cell : Row D -> A) :
  has_column df c = false -> getitem df c cell = Raise (KeyError c).
Proof. unfold getitem. now intros ->. Qed.

(** Resolve every column lookup of a well-formed frame. *)
Ltac columns_ok H :=
  repeat match goal with
         | |- context [getitem ?df ?c ?cell] =>
             rewrite (@getitem_ok _ _ df c cell)
               by (apply well_formed_column;
                   [exact H | simpl; tauto])
         end.

Lemma well_formed_same_columns {D : Type} (df : DataFrame D)
    (rs : list (Row D)) :
  well_formed df -> well_formed (mkDataFrame (columns df) rs).
Proof. intros H; exact H. Qed.

Section FilterFacts.

Variable re_compile : string -> option (string -> bool).

Lemma filter_by_name_rows (df : Frame) (name : string)
    (search : string -> bool) :
  has_column df "Player" = true ->
  re_compile name = Some search ->
  filter_by_name re_compile df name
  = Ok (mkDataFrame (columns df) (filter (name_found search) (rows df))).
Proof.
  intros Hc Hre. unfold filter_by_name, str_contains.
  rewrite getitem_ok by assumption. simpl. rewrite Hre. simpl.
  unfold loc_mask. f_equal. f_equal.
  rewrite map_map. apply (select_map (name_found search)).
Qed.

Lemma filter_by_format_rows (data : Frame) (format : string) :
  has_column data "Format" = true ->
  filter_by_format data format
  = Ok (mkDataFrame (columns data)
          (filter (fun r => String.eqb (Format r) format) (rows data))).
Proof.
  intros Hc. unfold filter_by_format.
  rewrite getitem_ok by assumption. simpl.
  unfold loc_mask. rewrite series_eq_map, select_map. reflexivity.
Qed.

Lemma filter_by_category_rows (data : Frame) (category : string) :
  has_column data "Category" = true ->
  filter_by_category data category
  = Ok (mkDataFrame (columns data)
          (filter (fun r => String.eqb (Category r) category) (rows data))).
Proof.
  intros Hc. unfold filter_by_category.
  rewrite getitem_ok by assumption. simpl.
  unfold loc_mask. rewrite series_eq_map, select_map. reflexivity.
Qed.

Lemma filter_filter {A : Type} (f g : A -> bool) (l : list A) :
  filter g (filter f l) = filter (fun x => f x && g x) l.
Proof.
  induction l as [|x l IH]; simpl; [reflexivity|].
  destruct (f x); simpl; [destruct (g x)|]; now rewrite IH.
Qed.

Lemma filter_all {A : Type} (l : list A) : filter (fun _ => true) l = l.
Proof. induction l as [|x l IH]; simpl; [reflexivity | now rewrite IH]. Qed.

(** [if value: data = data[data[column] == value]]: the guard lets an
    absent and an empty value change nothing. *)
Lemma optional_filter_rows (cell : Record_ -> string)
    (by_value : Frame -> string -> result Frame) (o : option string)
    (data : Frame) :
  (forall v, by_value data v
             = Ok (mkDataFrame (columns data)
                     (filter (fun r => String.eqb (cell r) v) (rows data)))) ->
  (if truthy o then by_value data (value o) else Ok data)
  = Ok (mkDataFrame (columns data)
          (filter (fun r => lets_through o (cell r)) (rows data))).
Proof.
  intros H. destruct data as [cs rs].
  destruct o as [[|c s]|]; cbn [truthy value lets_through String.eqb negb].
  - now rewrite filter_all.
  - apply H.
  - now rewrite filter_all.
Qed.

(** On a well-formed frame and a pattern that compiles, [player_data]
    returns the rows [player_rows] describes, under the same columns. *)
Lemma player_data_rows (df : Frame) (name : string)
    (format category : option string) (search : string -> bool) :
  well_formed df ->
  re_compile name = Some search ->
  player_data re_compile df name format category
  = Ok (mkDataFrame (columns df)
          (player_rows search format category (rows df))).
Proof.
  intros Hwf Hre. unfold player_data, player_rows.
  rewrite (filter_by_name_rows df name search)
    by (first [exact Hre
              | apply well_formed_column; [exact Hwf | simpl; tauto]]).
  cbn [bind].
  rewrite (optional_filter_rows (@Format _) filter_by_format format)
    by (intros v; apply filter_by_format_rows;
        apply well_formed_column; [exact Hwf | simpl; tauto]).
  cbn [bind columns rows].
  rewrite (optional_filter_rows (@Category _) filter_by_category category)
    by (intros v; apply filter_by_category_rows;
        apply well_formed_column; [exact Hwf | simpl; tauto]).
  cbn [bind columns rows]. rewrite !filter_filter. do 2 f_equal.
  apply filter_ext. intros r. now rewrite andb_assoc.
Qed.

End FilterFacts.

(** ** Dominance *)

Lemma days_ordered (ranks : list Z) :
  days_rank1 ranks <= days_top5 ranks <= days_top10 ranks.
Proof.
  unfold days_rank1, days_top5, days_top10. split.
  - apply mask_sum_le. intros x H.
    apply Z.eqb_eq in H. apply Z.leb_le. lia.
  - apply mask_sum_le. intros x H.
    apply Z.leb_le in H. apply Z.leb_le. lia.
Qed.

(** C7.  On a well-formed table, for a name whose pattern compiles and a
    non-empty filtered set, [dominance] returns the three counts of the
    filtered rows (Rank = 1, Rank <= 5, Rank <= 10), and they satisfy
    DaysAtRank1 <= DaysInTop5 <= DaysInTop10. *)
Theorem dominance_days_ordered
    (re_compile : string -> option (string -> bool)) (df : Frame)
    (name : string) (format category : option string)
    (search : string -> bool) :
  well_formed df ->
  re_compile name = Some search ->
  player_rows search format category (rows df) <> [] ->
  exists d,
    dominance re_compile df name format category = Ok (Stats d)
    /\ dominance_DaysAtRank1 d
       = count_where (fun r => Rank r =? 1)
                     (player_rows search format category (rows df))
    /\ dominance_DaysInTop5 d
       = count_where (fun r => Rank r <=? 5)
                     (player_rows search format category (rows df))
    /\ dominance_DaysInTop10 d
       = count_where (fun r => Rank r <=? 10)
                     (player_rows search format category (rows df))
    /\ dominance_DaysAtRank1 d <= dominance_DaysInTop5 d
       <= dominance_DaysInTop10 d.
Proof.
  intros Hwf Hre Hne. unfold dominance.
  rewrite (player_data_rows re_compile df name format category search Hwf Hre).
  simpl.
  destruct (player_rows search format category (rows df)) as [|r rs] eqn:E;
    [contradiction|].
  cbn [empty].
  rewrite getitem_ok
    by (apply well_formed_column; [exact Hwf | simpl; tauto]).
  cbn [bind rows].
  eexists. split; [reflexivity|].
  cbn [dominance_DaysAtRank1 dominance_DaysInTop5 dominance_DaysInTop10].
  pose proof (days_ordered (map (@Rank _) (r :: rs))) as Hord.
  unfold days_rank1, days_top5, days_top10 in *.
  rewrite !map_map in *.
  rewrite (mask_sum_count (fun r => Rank r =? 1)),
          (mask_sum_count (fun r => Rank r <=? 5)),
          (mask_sum_count (fun r => Rank r <=? 10)) in *.
  repeat (split; [reflexivity|]). exact Hord.
Qed.

Lemma dominance_days_ordered_witness :
  exists d,
    dominance Reference.re_compile Reference.table "kohli" (Some "odi") None
    = Ok (Stats d)
    /\ dominance_DaysAtRank1 d <= dominance_DaysInTop5 d
       <= dominance_DaysInTop10 d.
Proof.
  destruct (dominance_days_ordered Reference.re_compile Reference.table
              "kohli" (Some "odi") None (Reference.search "kohli"))
    as [d [H1 [_ [_ [_ H2]]]]].
  - reflexivity.
  - reflexivity.
  - vm_compute. discriminate.
  - exists d. split; [exact H1 | exact H2].
Defined.

(** ** Player summary *)

Lemma ts_leb_le (a b : Timestamp) : ts_leb a b = true <-> ts_le a b.
Proof.
  unfold ts_leb, ts_compare, ts_le.
  destruct (Z.compare_spec (ts_year a) (ts_year b));
    destruct (Z.compare_spec (ts_month a) (ts_month b));
    destruct (Z.compare_spec (ts_day a) (ts_day b));
    destruct (Z.compare_spec (ts_nanos a) (ts_nanos b));
    split; intros; try discriminate; try reflexivity; lia.
Qed.

Lemma ts_leb_refl (a : Timestamp) : ts_leb a a = true.
Proof. apply ts_leb_le. unfold ts_le. lia. Qed.

Lemma ts_leb_total (a b : Timestamp) : ts_leb a b = false -> ts_leb b a = true.
Proof.
  intros H. apply ts_leb_le.
  assert (~ ts_le a b) as N by (rewrite <- ts_leb_le, H; discriminate).
  unfold ts_le in *. lia.
Qed.

Lemma ts_leb_trans (a b c : Timestamp) :
  ts_leb a b = true -> ts_leb b c = true -> ts_leb a c = true.
Proof. rewrite !ts_leb_le. unfold ts_le. lia. Qed.

Lemma series_min_earliest (dates : list (option Timestamp)) :
  earliest dates (series_min dates).
Proof.
  induction dates as [|[x|] t IH]; simpl.
  - intros d [].
  - destruct (series_min t) as [m|]; simpl in IH.
    + destruct IH as [Hin Hmin].
      destruct (ts_leb x m) eqn:E; simpl.
      * split; [now left|]. intros t' [H|H].
        -- injection H as <-. apply ts_leb_refl.
        -- apply ts_leb_trans with m; [exact E | now apply Hmin].
      * split; [now right|]. intros t' [H|H].
        -- injection H as <-. now apply ts_leb_total.
        -- now apply Hmin.
    + simpl. split; [now left|]. intros t' [H|H].
      * injection H as <-. apply ts_leb_refl.
      * discriminate (IH _ H).
  - destruct (series_min t) as [m|]; simpl in *.
    + destruct IH as [Hin Hmin]. split; [now right|].
      intros t' [H|H]; [discriminate | now apply Hmin].
    + intros d [H|H]; [now subst | now apply IH].
Qed.

Lemma series_max_latest (dates : list (option Timestamp)) :
  latest_of dates (series_max dates).
Proof.
  induction dates as [|[x|] t IH]; simpl.
  - intros d [].
  - destruct (series_max t) as [m|]; simpl in IH.
    + destruct IH as [Hin Hmax].
      destruct (ts_leb m x) eqn:E; simpl.
      * split; [now left|]. intros t' [H|H].
        -- injection H as <-. apply ts_leb_refl.
        -- apply ts_leb_trans with m; [now apply Hmax | exact E].
      * split; [now right|]. intros t' [H|H].
        -- injection H as <-. now apply ts_leb_total.
        -- now apply Hmax.
    + simpl. split; [now left|]. intros t' [H|H].
      * injection H as <-. apply ts_leb_refl.
      * discriminate (IH _ H).
  - destruct (series_max t) as [m|]; simpl in *.
    + destruct IH as [Hin Hmax]. split; [now right|].
      intros t' [H|H]; [discriminate | now apply Hmax].
    + intros d [H|H]; [now subst | now apply IH].
Qed.

Lemma idxmax_some (s : list Q) : s <> [] -> exists i m, idxmax s = Some (i, m).
Proof.
  destruct s as [|x t]; [contradiction|]. intros _. simpl.
  destruct (idxmax t) as [[i m]|]; [destruct (Qle_bool m x)|]; eauto.
Qed.

Lemma idxmax_first (s : list Q) (i : nat) (m : Q) :
  idxmax s = Some (i, m) ->
  nth_error s i = Some m
  /\ (forall x, In x s -> (x <= m)%Q)
  /\ (forall j x, (j < i)%nat -> nth_error s j = Some x -> (x < m)%Q).
Proof.
  revert i m. induction s as [|x t IH]; intros i m; simpl; [discriminate|].
  destruct (idxmax t) as [[i' m']|] eqn:E.
  - destruct (IH i' m' eq_refl) as [Hn [Hle Hlt]].
    destruct (Qle_bool m' x) eqn:L; intros H; injection H as <- <-.
    + apply Qle_bool_iff in L.
      split; [reflexivity|]. split.
      * intros y [<-|Hy]; [apply Qle_refl|].
        apply Qle_trans with m'; [now apply Hle | exact L].
      * intros j y Hj. lia.
    + assert (x < m')%Q as L'.
      { apply Qnot_le_lt. intros C. apply Qle_bool_iff in C. congruence. }
      split; [exact Hn|]. split.
      * intros y [<-|Hy]; [now apply Qlt_le_weak | now apply Hle].
      * intros [|j] y Hj Hy; simpl in Hy.
        -- injection Hy as <-. exact L'.
        -- apply (Hlt j); [lia | exact Hy].
  - intros H; injection H as <- <-.
    destruct t as [|y t];
      [|destruct (idxmax_some (y :: t)) as [? [? E']];
        [discriminate | rewrite E' in E; discriminate]].
    split; [reflexivity|]. split.
    + intros y [<-|[]]. apply Qle_refl.
    + intros j y Hj. lia.
Qed.

(** [int] drops the fractional part. *)
Lemma int_truncated (x : Q) : truncated x (int x).
Proof.
  destruct x as [n d]. unfold truncated, int, Qle, Qlt. cbn [Qnum Qden inject_Z].
  rewrite !Z.mul_1_r.
  pose proof (Z.quot_rem' n (Z.pos d)) as E.
  set (q := Z.quot n (Z.pos d)) in *. set (r := Z.rem n (Z.pos d)) in *.
  split; intros Hs.
  - assert (0 <= r < Z.pos d) as B by (apply Z.rem_bound_pos; lia).
    clearbody q r. nia.
  - assert (- Z.pos d < r <= 0) as B by (apply Z.rem_bound_pos_neg; lia).
    clearbody q r. nia.
Qed.

Lemma first_argmax_of_idxmax (data : list Record_) (i : nat) (m : Q) :
  idxmax (map (@Rating _) data) = Some (i, m) ->
  exists peak, first_argmax data i peak /\ Rating peak = m.
Proof.
  intros H. destruct (idxmax_first _ _ _ H) as [Hn [Hle Hlt]].
  rewrite nth_error_map in Hn.
  destruct (nth_error data i) as [peak|] eqn:E; simpl in Hn; [|discriminate].
  injection Hn as Hm. subst m.
  exists peak. split; [|reflexivity]. split; [exact E|]. split.
  - intros r Hr. apply Hle. now apply in_map.
  - intros j r Hj Hr. apply (Hlt j); [exact Hj|].
    rewrite nth_error_map, Hr. reflexivity.
Qed.

(** C4.  A name that does not compile as a regular expression gets
    neither the no-data message nor the statistics of the claim:
    [player_summary] raises [re.error], whatever the table holds and
    whatever the optional filters are. *)
Theorem player_summary_bad_name
    (re_compile : string -> option (string -> bool)) (df : Frame)
    (name : string) (format category : option string) :
  has_column df "Player" = true ->
  re_compile name = None ->
  player_summary re_compile df name format category = Raise (ReError name)
  /\ forall answer,
       player_summary re_compile df name format category <> Ok answer.
Proof.
  intros Hc Hre.
  assert (player_summary re_compile df name format category
          = Raise (ReError name)) as E.
  { unfold player_summary, player_data, filter_by_name, str_contains.
    rewrite getitem_ok by exact Hc. cbn [bind]. rewrite Hre. reflexivity. }
  split; [exact E|]. intros answer. rewrite E. discriminate.
Qed.

Lemma player_summary_bad_name_witness :
  player_summary Reference.re_compile Reference.table "(" (Some "odi") None
  = Raise (ReError "(")
  /\ forall answer,
       player_summary Reference.re_compile Reference.table "("
                      (Some "odi") None <> Ok answer.
Proof.
  apply (player_summary_bad_name Reference.re_compile Reference.table "("
           (Some "odi") None).
  - reflexivity.
  - reflexivity.
Defined.

(** X23.  On a well-formed table and a name whose pattern compiles,
    [player_summary] answers the no-data message when the filtered set is
    empty; otherwise it reports, for the first row of maximal Rating, the
    Rating without its fractional part and the Rank, then the number of
    filtered rows with Rank = 1, and the earliest and latest parsed Date of
    the filtered rows.  The filtered set is [player_rows]: an absent or
    empty Format or Category filters nothing. *)
Theorem player_summary_correct
    (re_compile : string -> option (string -> bool)) (df : Frame)
    (name : string) (format category : option string)
    (search : string -> bool) :
  well_formed df ->
  re_compile name = Some search ->
  let data := player_rows search format category (rows df) in
  (data = [] ->
   player_summary re_compile df name format category
   = Ok (Message name "No data found"))
  /\ (data <> [] ->
      exists i peak rating first last,
        first_argmax data i peak
        /\ truncated (Rating peak) rating
        /\ earliest (map (@Date _) data) first
        /\ latest_of (map (@Date _) data) last
        /\ player_summary re_compile df name format category
           = Ok (Stats (mkPlayerSummary
                          name (or_all format) (or_all category)
                          rating (Rank peak)
                          (count_where (fun r => Rank r =? 1) data)
                          (date_str first) (date_str last)))).
Proof.
  intros Hwf Hre data. unfold player_summary.
  rewrite (player_data_rows re_compile df name format category search Hwf Hre).
  fold data. cbn [bind rows]. split.
  - intros ->. reflexivity.
  - intros Hne.
    destruct data as [|r rs] eqn:E; [contradiction|]. cbn [empty].
    rewrite <- E in *. clear Hne.
    assert (well_formed (mkDataFrame (columns df) data)) as Hwf' by exact Hwf.
    columns_ok Hwf'. cbn [bind rows].
    destruct (idxmax_some (map (@Rating _) data)) as [i [m Hi]];
      [rewrite E; discriminate|].
    rewrite Hi.
    destruct (first_argmax_of_idxmax data i m Hi) as [peak [Hpeak Hm]].
    pose proof Hpeak as [Hn _]. rewrite Hn.
    exists i, peak, (int (Rating peak)),
           (series_min (map (@Date _) data)),
           (series_max (map (@Date _) data)).
    split; [exact Hpeak|].
    split; [apply int_truncated|].
    split; [apply series_min_earliest|].
    split; [apply series_max_latest|].
    unfold days_rank1. rewrite map_map.
    rewrite (mask_sum_count (fun r => Rank r =? 1)). reflexivity.
Qed.

(** Kohli in ODIs, with an empty Category: the Test row, whose Rating is
    the highest of all, is filtered out, the peak is 900.5 and is reported
    as 900. *)
Lemma player_summary_correct_witness :
  player_summary Reference.re_compile Reference.scores "Kohli"
                 (Some "odi") (Some "")
  = Ok (Stats (mkPlayerSummary "Kohli" "odi" "all" 900 1 1
                               "2020-01-01" "2020-06-01")).
Proof.
  destruct (player_summary_correct Reference.re_compile Reference.scores
              "Kohli" (Some "odi") (Some "") (Reference.search "Kohli")
              eq_refl eq_refl) as [_ H].
  destruct H as (i & peak & rating & first & last
                 & Harg & Htr & He & Hl & ->);
    [vm_compute; discriminate|].
  change (player_rows (Reference.search "Kohli") (Some "odi") (Some "")
                      (rows Reference.scores))
    with [ mkRow (Some "Virat Kohli") "odi" "batting"
                 (Some (mkTimestamp 2020 1 1 0)) 1 900.5;
           mkRow (Some "Virat Kohli") "odi" "batting"
                 (Some (mkTimestamp 2020 6 1 0)) 3 850 ] in *.
  destruct Harg as (Hn & _ & Hlt).
  assert (i = O) as ->.
  { destruct i as [|[|i]]; [reflexivity| |destruct i; discriminate Hn].
    specialize (Hlt O _ (Nat.lt_0_succ 0) eq_refl).
    injection Hn as <-. vm_compute in Hlt. discriminate Hlt. }
  injection Hn as <-.
  assert (rating = 900) as ->.
  { destruct Htr as [Hp _]. cbn [Rating] in Hp.
    unfold Qle, Qlt in Hp. cbn [Qnum Qden inject_Z] in Hp.
    cbn in Hp. lia. }
  assert (first = Some (mkTimestamp 2020 1 1 0)) as ->.
  { destruct first as [t|]; cbn [earliest map Date] in He.
    - destruct He as [[E|[E|[]]] Hmin]; [now symmetry|].
      specialize (Hmin _ (or_introl eq_refl)).
      injection E as <-. vm_compute in Hmin. discriminate Hmin.
    - discriminate (He _ (or_introl eq_refl)). }
  assert (last = Some (mkTimestamp 2020 6 1 0)) as ->.
  { destruct last as [t|]; cbn [latest_of map Date] in Hl.
    - destruct Hl as [[E|[E|[]]] Hmax]; [|now symmetry].
      specialize (Hmax _ (or_intror (or_introl eq_refl))).
      injection E as <-. vm_compute in Hmax. discriminate Hmax.
    - discriminate (Hl _ (or_introl eq_refl)). }
  reflexivity.
Defined.

(** ** Sorting *)

Lemma insert_by_perm {A : Type} (before : A -> A -> bool) (x : A) (l : list A) :
  Permutation (insert_by before x l) (x :: l).
Proof.
  induction l as [|y t IH]; simpl; [reflexivity|].
  destruct (before x y); [reflexivity|].
  rewrite IH. apply perm_swap.
Qed.

Lemma sort_by_perm {A : Type} (before : A -> A -> bool) (l : list A) :
  Permutation (sort_by before l) l.
Proof.
  induction l as [|x t IH]; simpl; [reflexivity|].
  rewrite insert_by_perm. now apply perm_skip.
Qed.

Section SortBy.

Variable A : Type.
Variable before : A -> A -> bool.
Variable R : A -> A -> Prop.
Hypothesis before_true : forall x y, before x y = true -> R x y.
Hypothesis before_false : forall x y, before x y = false -> R y x.

Lemma insert_by_sorted (x : A) (l : list A) :
  Sorted R l -> Sorted R (insert_by before x l).
Proof.
  induction l as [|y t IH]; simpl; intros Hs.
  - constructor; constructor.
  - destruct (before x y) eqn:E.
    + constructor; [exact Hs|]. constructor. now apply before_true.
    + inversion Hs as [|? ? Ht Hhd]; subst.
      constructor; [now apply IH|].
      destruct t as [|z t']; simpl.
      * constructor. now apply before_false.
      * destruct (before x z).
        -- constructor. now apply before_false.
        -- constructor. now inversion Hhd.
Qed.

Lemma sort_by_sorted (l : list A) : Sorted R (sort_by before l).
Proof.
  induction l as [|x t IH]; simpl; [constructor|].
  now apply insert_by_sorted.
Qed.

End SortBy.

Lemma Sorted_firstn {A : Type} (R : A -> A -> Prop) (n : nat) (l : list A) :
  Sorted R l -> Sorted R (firstn n l).
Proof.
  revert l. induction n as [|n IH]; intros l Hs; simpl; [constructor|].
  destruct l as [|x t]; [constructor|].
  inversion Hs as [|? ? Ht Hhd]; subst.
  constructor; [now apply IH|].
  destruct n; simpl; [constructor|].
  destruct t; [constructor|]. constructor. now inversion Hhd.
Qed.

Lemma Sorted_head {A : Type} (R : A -> A -> Prop) (n : Z) (l : list A) :
  Sorted R l -> Sorted R (head n l).
Proof. unfold head. destruct (0 <=? n); apply Sorted_firstn. Qed.

Lemma Sorted_adjacent {A : Type} (R : A -> A -> Prop) (l : list A) :
  Sorted R l -> adjacent R l.
Proof.
  induction 1 as [|x t Ht IH Hhd]; intros i a b Ha Hb.
  - destruct i; discriminate.
  - destruct i as [|i]; simpl in Ha, Hb.
    + injection Ha as <-. destruct t as [|y t']; [discriminate|].
      simpl in Hb. injection Hb as <-. now inversion Hhd.
    + now apply (IH i).
Qed.

(** ** Leaderboards *)

Lemma days_geb_true (a b : Leader) : days_geb a b = true -> tuple_ge a b.
Proof.
  unfold days_geb, tuple_ge.
  destruct (Z.ltb_spec (DaysAtRank1 b) (DaysAtRank1 a));
    destruct (Z.eqb_spec (DaysAtRank1 a) (DaysAtRank1 b));
    destruct (Z.ltb_spec (DaysInTop5 b) (DaysInTop5 a));
    destruct (Z.eqb_spec (DaysInTop5 a) (DaysInTop5 b));
    destruct (Z.leb_spec (DaysInTop10 b) (DaysInTop10 a));
    simpl; intros; try discriminate; lia.
Qed.

Lemma days_geb_false (a b : Leader) : days_geb a b = false -> tuple_ge b a.
Proof.
  unfold days_geb, tuple_ge.
  destruct (Z.ltb_spec (DaysAtRank1 b) (DaysAtRank1 a));
    destruct (Z.eqb_spec (DaysAtRank1 a) (DaysAtRank1 b));
    destruct (Z.ltb_spec (DaysInTop5 b) (DaysInTop5 a));
    destruct (Z.eqb_spec (DaysInTop5 a) (DaysInTop5 b));
    destruct (Z.leb_spec (DaysInTop10 b) (DaysInTop10 a));
    simpl; intros; try discriminate; lia.
Qed.

Lemma sort_values_days_sorted (board : list Leader) :
  Sorted tuple_ge (sort_values_days board).
Proof.
  apply sort_by_sorted with (before := days_geb).
  - exact days_geb_true.
  - exact days_geb_false.
Qed.

Lemma leaderboard_sorted (data : Frame) (top_n : Z) :
  well_formed data ->
  exists l, leaderboard data top_n = Ok l
            /\ l = head top_n (sort_values_days (groupby_agg_days (rows data)))
            /\ adjacent tuple_ge l.
Proof.
  intros Hwf. unfold leaderboard. columns_ok Hwf. cbn [bind].
  eexists. split; [reflexivity|]. split; [reflexivity|].
  apply Sorted_adjacent, Sorted_head, sort_values_days_sorted.
Qed.

Lemma segment_rows (df : Frame) (format category : string) :
  well_formed df ->
  segment df format category
  = Ok (mkDataFrame (columns df)
          (filter (fun r => String.eqb (Format r) format
                            && String.eqb (Category r) category) (rows df))).
Proof.
  intros Hwf. unfold segment. columns_ok Hwf. cbn [bind].
  unfold loc_mask. rewrite !series_eq_map.
  rewrite (mask_and_map (fun r => String.eqb (Format r) format)
                        (fun r => String.eqb (Category r) category)).
  rewrite (select_map (fun r => String.eqb (Format r) format
                                && String.eqb (Category r) category)).
  reflexivity.
Qed.

Lemma segment_years_rows (df : Frame) (format category : string)
    (in_years : Z -> bool) :
  well_formed df ->
  segment_years df format category in_years
  = Ok (mkDataFrame (columns df)
          (filter (in_segment_years format category in_years) (rows df))).
Proof.
  intros Hwf. unfold segment_years. columns_ok Hwf. cbn [bind].
  unfold loc_mask, years_cmp, dt_year. rewrite !series_eq_map, !map_map.
  rewrite (mask_and_map (fun r => String.eqb (Format r) format)
                        (fun r => String.eqb (Category r) category)).
  rewrite (mask_and_map
             (fun r => String.eqb (Format r) format
                       && String.eqb (Category r) category)
             (fun r => match option_map ts_year (Date r) with
                       | Some y => in_years y
                       | None => false
                       end)).
  rewrite select_map. f_equal. f_equal.
  apply filter_ext. intros r. unfold in_segment_years.
  now destruct (Date r).
Qed.

Lemma decade_rows (df : Frame) (format category : string) (decade : Z) :
  loc_mask df
    (mask_and
       (mask_and (mask_and (series_eq (map (@Format _) (rows df)) format)
                           (series_eq (map (@Category _) (rows df)) category))
                 (years_cmp (fun y => decade <=? y)
                            (dt_year (map (@Date _) (rows df)))))
       (years_cmp (fun y => y <=? decade + 9)
                  (dt_year (map (@Date _) (rows df)))))
  = mkDataFrame (columns df)
      (filter (in_segment_years format category
                 (fun y => (decade <=? y) && (y <=? decade + 9)))
              (rows df)).
Proof.
  unfold loc_mask, years_cmp, dt_year. rewrite !series_eq_map, !map_map.
  rewrite (mask_and_map (fun r => String.eqb (Format r) format)
                        (fun r => String.eqb (Category r) category)).
  rewrite (mask_and_map
             (fun r => String.eqb (Format r) format
                       && String.eqb (Category r) category)
             (fun r => match option_map ts_year (Date r) with
                       | Some y => decade <=? y
                       | None => false
                       end)).
  rewrite (mask_and_map
             (fun r => String.eqb (Format r) format
                       && String.eqb (Category r) category
                       && match option_map ts_year (Date r) with
                          | Some y => decade <=? y
                          | None => false
                          end)
             (fun r => match option_map ts_year (Date r) with
                       | Some y => y <=? decade + 9
                       | None => false
                       end)).
  rewrite select_map. f_equal.
  apply filter_ext. intros r. unfold in_segment_years.
  destruct (Date r); simpl; [|now rewrite !andb_false_r].
  now rewrite andb_assoc.
Qed.

(** C6.  On a well-formed table, [leaders], [year_leaders] and
    [decade_leaders] return a leaderboard in which every adjacent pair
    (a, b) has (DaysAtRank1, DaysInTop5, DaysInTop10) of a at least that of
    b in lexicographic order. *)
Theorem leaderboards_sorted (df : Frame) (format category : string)
    (year decade top_n : Z) :
  well_formed df ->
  (exists l, leaders df format category top_n = Ok l /\ adjacent tuple_ge l)
  /\ (exists l, year_leaders df year format category top_n = Ok l
                /\ adjacent tuple_ge l)
  /\ (decade_leaders df format category decade top_n = Ok DecadeEmpty
      \/ exists l,
           decade_leaders df format category decade top_n
           = Ok (DecadeLeaders (PyStr.str_int decade ++ "s")%string
                               format category l)
           /\ adjacent tuple_ge l).
Proof.
  intros Hwf.
  assert (adjacent tuple_ge []) as Hnil
      by (intros [|i] a b Ha; discriminate).
  split; [|split].
  - unfold leaders. rewrite (segment_rows df format category Hwf).
    cbn [bind rows].
    match goal with |- context [empty ?d] => destruct d as [|r rs] eqn:E end;
      cbn [empty].
    + exists []. split; [reflexivity | exact Hnil].
    + destruct (leaderboard_sorted (mkDataFrame (columns df) (r :: rs)) top_n)
        as [l [Hl [_ Hs]]]; [exact Hwf|].
      exists l. split; assumption.
  - unfold year_leaders. rewrite (segment_years_rows df format category _ Hwf).
    cbn [bind rows].
    match goal with |- context [empty ?d] => destruct d as [|r rs] eqn:E end;
      cbn [empty].
    + exists []. split; [reflexivity | exact Hnil].
    + destruct (leaderboard_sorted (mkDataFrame (columns df) (r :: rs)) top_n)
        as [l [Hl [_ Hs]]]; [exact Hwf|].
      exists l. split; assumption.
  - unfold decade_leaders. columns_ok Hwf. cbn [bind].
    rewrite (decade_rows df format category decade).
    cbn [rows].
    match goal with |- context [empty ?d] => destruct d as [|r rs] eqn:E end;
      cbn [empty].
    + left. reflexivity.
    + right.
      destruct (leaderboard_sorted (mkDataFrame (columns df) (r :: rs)) top_n)
        as [l [Hl [_ Hs]]]; [exact Hwf|].
      exists l. rewrite Hl. split; [reflexivity | exact Hs].
Qed.

Lemma leaderboards_sorted_witness :
  (exists l, leaders Reference.table "odi" "batting" 10 = Ok l
             /\ adjacent tuple_ge l)
  /\ (exists l, year_leaders Reference.table 2020 "odi" "batting" 10 = Ok l
                /\ adjacent tuple_ge l)
  /\ (decade_leaders Reference.table "odi" "batting" 2020 10 = Ok DecadeEmpty
      \/ exists l,
           decade_leaders Reference.table "odi" "batting" 2020 10
           = Ok (DecadeLeaders (PyStr.str_int 2020 ++ "s")%string
                               "odi" "batting" l)
           /\ adjacent tuple_ge l).
Proof.
  apply (leaderboards_sorted Reference.table "odi" "batting" 2020 2020 10).
  reflexivity.
Defined.

(** ** Top n by Rank *)

Lemma take_seq_app {A : Type} (pre l : list A) :
  take (seq (List.length pre) (List.length l)) (pre ++ l) = l.
Proof.
  revert pre. induction l as [|x t IH]; intros pre; [reflexivity|].
  unfold take in *. simpl.
  rewrite nth_error_app2 by lia. rewrite Nat.sub_diag. simpl. f_equal.
  specialize (IH (pre ++ [x])).
  rewrite length_app, Nat.add_1_r, <- app_assoc in IH. exact IH.
Qed.

Lemma take_seq {A : Type} (l : list A) : take (seq 0 (List.length l)) l = l.
Proof. exact (take_seq_app [] l). Qed.

Lemma take_perm {A : Type} (indexer : list nat) (l : list A) :
  Permutation indexer (seq 0 (List.length l)) ->
  Permutation (take indexer l) l.
Proof.
  intros H. rewrite <- (take_seq l) at 2.
  unfold take. now apply Permutation_flat_map.
Qed.

Lemma take_map_nth {A B : Type} (f : A -> B) (d : B) (indexer : list nat)
    (l : list A) :
  (forall i, In i indexer -> (i < List.length l)%nat) ->
  map f (take indexer l) = map (fun i => nth i (map f l) d) indexer.
Proof.
  induction indexer as [|i t IH]; intros H; [reflexivity|].
  unfold take in *. simpl. rewrite map_app, IH
    by (intros j Hj; apply H; now right).
  f_equal.
  assert (i < List.length l)%nat as Hi by (apply H; now left).
  destruct (nth_error l i) as [x|] eqn:E.
  - simpl. f_equal. symmetry.
    apply nth_error_nth. rewrite nth_error_map, E. reflexivity.
  - apply nth_error_Some in Hi. contradiction.
Qed.

Lemma Sorted_map {A : Type} (f : A -> Z) (l : list A) :
  Sorted Z.le (map f l) -> Sorted (fun a b => f a <= f b) l.
Proof.
  induction l as [|x t IH]; simpl; intros H; [constructor|].
  inversion H as [|? ? Ht Hhd]; subst.
  constructor; [now apply IH|].
  destruct t; [constructor|]. constructor. now inversion Hhd.
Qed.

Lemma map_Sorted {A : Type} (f : A -> Z) (l : list A) :
  Sorted (fun a b => f a <= f b) l -> Sorted Z.le (map f l).
Proof.
  induction l as [|x t IH]; simpl; intros H; [constructor|].
  inversion H as [|? ? Ht Hhd]; subst.
  constructor; [now apply IH|].
  destruct t; [constructor|]. constructor. now inversion Hhd.
Qed.

(** Two ascending arrangements of the same integers are the same list. *)
Lemma Sorted_perm_eq (l1 l2 : list Z) :
  Sorted Z.le l1 -> Sorted Z.le l2 -> Permutation l1 l2 -> l1 = l2.
Proof.
  intros H1 H2.
  apply Sorted_StronglySorted in H1; [|intros x y z; lia].
  apply Sorted_StronglySorted in H2; [|intros x y z; lia].
  revert l2 H2. induction H1 as [|x t1 Ht1 IH Hx]; intros l2 H2 Hp.
  - now apply Permutation_nil in Hp.
  - destruct H2 as [|y t2 Ht2 Hy].
    + symmetry in Hp. now apply Permutation_nil in Hp.
    + assert (x = y) as ->.
      { assert (In x (y :: t2)) as Hxin
            by (apply (Permutation_in _ Hp); now left).
        assert (In y (x :: t1)) as Hyin
            by (apply (Permutation_in _ (Permutation_sym Hp)); now left).
        rewrite Forall_forall in Hx, Hy.
        destruct Hxin as [->|Hxin]; [reflexivity|].
        destruct Hyin as [->|Hyin]; [reflexivity|].
        specialize (Hx _ Hyin). specialize (Hy _ Hxin). lia. }
      f_equal. apply IH; [exact Ht2|].
      now apply Permutation_cons_inv in Hp.
Qed.

Section TopN.

Variable argsort : list Z -> list nat.
Hypothesis argsort_ok : argsort_spec argsort.

Lemma sort_values_Rank_sorted (data : Frame) :
  has_column data "Rank" = true ->
  exists sorted,
    sort_values_Rank argsort data = Ok (mkDataFrame (columns data) sorted)
    /\ Permutation sorted (rows data)
    /\ Sorted rank_le sorted.
Proof.
  intros Hc. unfold sort_values_Rank.
  rewrite getitem_ok by exact Hc. cbn [bind].
  destruct (argsort_ok (map (@Rank _) (rows data))) as [Hp Hs].
  rewrite length_map in Hp.
  eexists. split; [reflexivity|]. split.
  - now apply take_perm.
  - apply Sorted_map.
    rewrite take_map_nth with (d := 0); [exact Hs|].
    intros i Hi. apply (Permutation_in _ Hp) in Hi.
    apply in_seq in Hi. lia.
Qed.

Lemma top_n_by_rank_firstn (data : Frame) (n : nat) :
  has_column data "Rank" = true ->
  exists sorted,
    top_n_by_rank argsort data (Z.of_nat n)
    = Ok (mkDataFrame (columns data) (firstn n sorted))
    /\ Permutation sorted (rows data)
    /\ Sorted rank_le sorted.
Proof.
  intros Hc. unfold top_n_by_rank.
  destruct (sort_values_Rank_sorted data Hc) as [sorted [-> [Hp Hs]]].
  cbn [bind rows columns]. exists sorted. split; [|now split].
  unfold head.
  destruct (Z.leb_spec 0 (Z.of_nat n)) as [_|L]; [|lia].
  now rewrite Nat2Z.id.
Qed.

End TopN.

(** The reference argsorts meet the contract, whatever they do with equal
    keys. *)
Lemma combine_fst {A B : Type} (l1 : list A) (l2 : list B) :
  List.length l1 = List.length l2 -> map fst (combine l1 l2) = l1.
Proof.
  revert l2. induction l1 as [|x t IH]; intros [|y l2] H; simpl in *;
    try reflexivity; try discriminate.
  f_equal. apply IH. now injection H.
Qed.

Lemma in_combine_seq (a : list Z) (k i : nat) (v : Z) :
  In (i, v) (combine (seq k (List.length a)) a) ->
  nth (i - k) a 0 = v.
Proof.
  revert k. induction a as [|x t IH]; intros k; simpl; [intros []|].
  intros [H|H].
  - injection H as <- <-. now rewrite Nat.sub_diag.
  - assert (S k <= i)%nat as Hi.
    { apply in_combine_l in H. apply in_seq in H. lia. }
    specialize (IH (S k) H).
    replace (i - k)%nat with (S (i - S k)) by lia. exact IH.
Qed.

Lemma Reference_argsort_by_spec (before : Z -> Z -> bool) :
  (forall x y, before x y = true -> x <= y) ->
  (forall x y, before x y = false -> y <= x) ->
  argsort_spec (Reference.argsort_by before).
Proof.
  intros Ht Hf a. unfold Reference.argsort_by.
  set (pairs := combine (seq 0 (List.length a)) a).
  set (s := sort_by (fun x y => before (snd x) (snd y)) pairs).
  assert (Permutation s pairs) as Hp by apply sort_by_perm.
  split.
  - rewrite (Permutation_map fst Hp). unfold pairs.
    rewrite combine_fst by (now rewrite length_seq). reflexivity.
  - rewrite map_map.
    rewrite map_ext_in with (g := snd).
    + apply (map_Sorted (@snd nat Z)).
      apply sort_by_sorted
        with (before := fun x y : nat * Z => before (snd x) (snd y)).
      * intros x y. apply Ht.
      * intros x y. apply Hf.
    + intros [i v] Hin. apply (Permutation_in _ Hp) in Hin.
      apply in_combine_seq in Hin. simpl. now rewrite Nat.sub_0_r in Hin.
Qed.

Lemma argsort_reversing_spec : argsort_spec Reference.argsort_reversing.
Proof.
  apply Reference_argsort_by_spec.
  - intros x y H. apply Z.ltb_lt in H. lia.
  - intros x y H. apply Z.ltb_ge in H. exact H.
Qed.

Lemma argsort_stable_spec : argsort_spec Reference.argsort_stable.
Proof.
  apply Reference_argsort_by_spec.
  - intros x y H. apply Z.leb_le in H. exact H.
  - intros x y H. apply Z.leb_gt in H. lia.
Qed.

(** C3 (as amended).  With an argsort that meets numpy's contract,
    [top_n_by_rank] returns the first n rows of a rearrangement of the
    table that ascends by Rank: the result ascends by Rank, no row left out
    has a smaller Rank than one returned, and a table of at most n rows is
    returned whole.  The order of rows of equal Rank is the argsort's. *)
Theorem top_n_by_rank_sorted (argsort : list Z -> list nat) (data : Frame)
    (n : nat) :
  argsort_spec argsort ->
  has_column data "Rank" = true ->
  exists top rest,
    top_n_by_rank argsort data (Z.of_nat n)
    = Ok (mkDataFrame (columns data) top)
    /\ Permutation (top ++ rest) (rows data)
    /\ Sorted rank_le (top ++ rest)
    /\ List.length top = Nat.min n (List.length (rows data))
    /\ ((List.length (rows data) <= n)%nat -> rest = []).
Proof.
  intros Hspec Hc.
  destruct (top_n_by_rank_firstn argsort Hspec data n Hc)
    as [sorted [Htop [Hp Hs]]].
  exists (firstn n sorted), (skipn n sorted).
  rewrite firstn_skipn. split; [exact Htop|].
  split; [exact Hp|]. split; [exact Hs|].
  rewrite length_firstn, (Permutation_length Hp). split; [reflexivity|].
  intros Hle. apply skipn_all2. rewrite (Permutation_length Hp). exact Hle.
Qed.

Lemma top_n_by_rank_sorted_witness :
  exists top rest,
    top_n_by_rank Reference.argsort_stable Reference.table (Z.of_nat 10)
    = Ok (mkDataFrame (columns Reference.table) top)
    /\ Permutation (top ++ rest) (rows Reference.table)
    /\ Sorted rank_le (top ++ rest)
    /\ List.length top = Nat.min 10 (List.length (rows Reference.table))
    /\ ((List.length (rows Reference.table) <= 10)%nat -> rest = []).
Proof.
  apply (top_n_by_rank_sorted Reference.argsort_stable Reference.table 10).
  - exact argsort_stable_spec.
  - reflexivity.
Defined.

(** C3, the claim as written fails.  Four rows of one segment and one day
    with the Ranks 3, 3, 2, 2 come back as D, C, B, A: each pair of equal
    Rank in the reverse of its input order, where a stable sort gives
    C, D, A, B. *)
Lemma top_n_by_rank_not_stable :
  let A := Reference.ranked_row "A" 3 in
  let B := Reference.ranked_row "B" 3 in
  let C := Reference.ranked_row "C" 2 in
  let D := Reference.ranked_row "D" 2 in
  argsort_spec Reference.argsort_reversing
  /\ rows Reference.ranked = [A; B; C; D]
  /\ Reference.argsort_reversing [3; 3; 2; 2] = [3; 2; 1; 0]%nat
  /\ top_n_by_rank Reference.argsort_reversing Reference.ranked 10
     = Ok (mkDataFrame Reference.schema [D; C; B; A])
  /\ get_top Reference.argsort_reversing Reference.to_datetime
             Reference.ranked "2021-03-01" "odi" "batting"
     = Ok [D; C; B; A]
  /\ firstn 10 (sort_stable_Rank (rows Reference.ranked)) = [C; D; A; B]
  /\ ~ (forall argsort data n,
          argsort_spec argsort ->
          has_column data "Rank" = true ->
          top_n_by_rank argsort data (Z.of_nat n)
          = Ok (mkDataFrame (columns data)
                  (firstn n (sort_stable_Rank (rows data))))).
Proof.
  intros A B C D.
  split; [exact argsort_reversing_spec|].
  do 5 (split; [reflexivity|]).
  intros H.
  specialize (H Reference.argsort_reversing Reference.ranked 10%nat
                argsort_reversing_spec eq_refl).
  vm_compute in H. discriminate H.
Qed.

(** With a stable argsort the claim holds as the specification words it:
    [top_n_by_rank] is the first n rows of the stable sort by Rank. *)
Lemma insert_by_map {A B : Type} (g : A -> B) (before : B -> B -> bool)
    (x : A) (l : list A) :
  map g (insert_by (fun a b => before (g a) (g b)) x l)
  = insert_by before (g x) (map g l).
Proof.
  induction l as [|y t IH]; simpl; [reflexivity|].
  destruct (before (g x) (g y)); simpl; [reflexivity | now rewrite IH].
Qed.

Lemma sort_by_map {A B : Type} (g : A -> B) (before : B -> B -> bool)
    (l : list A) :
  map g (sort_by (fun a b => before (g a) (g b)) l) = sort_by before (map g l).
Proof.
  induction l as [|x t IH]; simpl; [reflexivity|].
  now rewrite insert_by_map, IH.
Qed.

Lemma in_combine_seq_nth_error {A : Type} (l : list A) (k i : nat) (x : A) :
  In (i, x) (combine (seq k (List.length l)) l) ->
  nth_error l (i - k) = Some x.
Proof.
  revert k. induction l as [|y t IH]; intros k; simpl; [intros []|].
  intros [H|H].
  - injection H as <- <-. now rewrite Nat.sub_diag.
  - assert (S k <= i)%nat as Hi.
    { apply in_combine_l in H. apply in_seq in H. lia. }
    specialize (IH (S k) H).
    replace (i - k)%nat with (S (i - S k)) by lia. exact IH.
Qed.

Lemma combine_map_r {A B C : Type} (g : B -> C) (l1 : list A) (l2 : list B) :
  combine l1 (map g l2) = map (fun p => (fst p, g (snd p))) (combine l1 l2).
Proof.
  revert l2. induction l1 as [|x t IH]; intros [|y l2]; simpl;
    try reflexivity.
  now rewrite IH.
Qed.

Lemma combine_snd {A B : Type} (l1 : list A) (l2 : list B) :
  List.length l1 = List.length l2 -> map snd (combine l1 l2) = l2.
Proof.
  revert l2. induction l1 as [|x t IH]; intros [|y l2] H; simpl in *;
    try reflexivity; try discriminate.
  f_equal. apply IH. now injection H.
Qed.

Lemma take_fst_snd {A : Type} (pairs : list (nat * A)) (l : list A) :
  (forall i x, In (i, x) pairs -> nth_error l i = Some x) ->
  take (map fst pairs) l = map snd pairs.
Proof.
  induction pairs as [|[i x] t IH]; intros H; [reflexivity|].
  unfold take in *. simpl. rewrite (H i x) by now left.
  simpl. f_equal. apply IH. intros j y Hj. apply H. now right.
Qed.

Lemma take_argsort_stable (rs : list Record_) :
  take (Reference.argsort_stable (map (@Rank _) rs)) rs = sort_stable_Rank rs.
Proof.
  unfold Reference.argsort_stable, Reference.argsort_by, sort_stable_Rank.
  rewrite length_map, combine_map_r.
  set (pairs := combine (seq 0 (List.length rs)) rs).
  rewrite <- (sort_by_map (fun p : nat * Record_ => (fst p, Rank (snd p)))
                          (fun x y : nat * Z => snd x <=? snd y)).
  cbn [snd]. rewrite map_map. cbn [fst].
  set (s := sort_by _ pairs).
  rewrite take_fst_snd.
  - unfold s.
    rewrite (sort_by_map (@snd nat Record_)
                         (fun a b : Record_ => Rank a <=? Rank b)).
    unfold pairs. now rewrite combine_snd by (now rewrite length_seq).
  - intros i x Hin.
    apply (Permutation_in _ (sort_by_perm _ pairs)) in Hin.
    apply in_combine_seq_nth_error in Hin. now rewrite Nat.sub_0_r in Hin.
Qed.

Lemma top_n_by_rank_stable (data : Frame) (n : nat) :
  has_column data "Rank" = true ->
  top_n_by_rank Reference.argsort_stable data (Z.of_nat n)
  = Ok (mkDataFrame (columns data) (firstn n (sort_stable_Rank (rows data)))).
Proof.
  intros Hc. unfold top_n_by_rank, sort_values_Rank.
  rewrite getitem_ok by exact Hc. cbn [bind rows columns].
  rewrite take_argsort_stable. unfold head.
  destruct (Z.leb_spec 0 (Z.of_nat n)) as [_|L]; [|lia].
  now rewrite Nat2Z.id.
Qed.

(** ** Idempotence of top n *)

(** A list that is in order already is left as it is by the insertion
    sort. *)
Lemma sort_by_in_order {A : Type} (before : A -> A -> bool) (l : list A) :
  Sorted (fun x y => before x y = true) l -> sort_by before l = l.
Proof.
  induction 1 as [|x t Ht IH Hd]; [reflexivity|].
  simpl. rewrite IH. destruct Hd as [|y t' Hxy]; simpl; [reflexivity|].
  now rewrite Hxy.
Qed.

Lemma combine_seq_in_order (a : list Z) (k : nat) :
  Sorted Z.le a ->
  Sorted (fun x y : nat * Z => (snd x <=? snd y) = true)
         (combine (seq k (List.length a)) a).
Proof.
  intros H. revert k. induction H as [|x t Ht IH Hd]; intros k; simpl;
    constructor.
  - apply IH.
  - destruct Hd as [|y t' Hxy]; simpl; constructor.
    simpl. now apply Z.leb_le.
Qed.

Lemma argsort_stable_keeps (n : nat) :
  keeps_ascending Reference.argsort_stable n.
Proof.
  intros a _ Ha. unfold Reference.argsort_stable, Reference.argsort_by.
  rewrite sort_by_in_order by now apply combine_seq_in_order.
  apply combine_fst. now rewrite length_seq.
Qed.

(** X25.  With an argsort that meets numpy's contract and leaves in place
    the arrays of at most n keys that already ascend, the top n of the top
    n of a table is the top n of the table: same columns, same rows, same
    order. *)
Theorem top_n_by_rank_idempotent (argsort : list Z -> list nat)
    (data : Frame) (n : nat) :
  argsort_spec argsort ->
  keeps_ascending argsort n ->
  has_column data "Rank" = true ->
  exists once,
    top_n_by_rank argsort data (Z.of_nat n) = Ok once
    /\ top_n_by_rank argsort once (Z.of_nat n) = Ok once.
Proof.
  intros Hspec Hkeep Hc.
  destruct (top_n_by_rank_firstn argsort Hspec data n Hc)
    as [s1 [H1 [Hp1 Hs1]]].
  exists (mkDataFrame (columns data) (firstn n s1)).
  split; [exact H1|].
  unfold top_n_by_rank, sort_values_Rank.
  rewrite getitem_ok by exact Hc. cbn [bind rows columns].
  rewrite Hkeep.
  - rewrite length_map, take_seq. unfold head.
    destruct (Z.leb_spec 0 (Z.of_nat n)) as [_|L]; [|lia].
    rewrite Nat2Z.id, firstn_all2; [reflexivity|].
    rewrite length_firstn. lia.
  - rewrite length_map, length_firstn. lia.
  - apply (map_Sorted (@Rank _)). now apply Sorted_firstn.
Qed.

(** The top 10 of the reference table, the missing player and the date
    that did not parse included, and the top 10 of that. *)
Lemma top_n_by_rank_idempotent_witness :
  let once :=
    mkDataFrame Reference.schema
      [ mkRow (Some "Virat Kohli") "odi" "batting"
              (Some (mkTimestamp 2020 1 1 0)) 1 900;
        mkRow (Some "Rohit Sharma") "odi" "batting"
              (Some (mkTimestamp 2020 6 1 0)) 1 900;
        mkRow (Some "Alastair Cook") "test" "batting" None 1 910;
        mkRow (Some "Rohit Sharma") "odi" "batting"
              (Some (mkTimestamp 2020 1 1 0)) 2 880;
        mkRow (Some "Virat Kohli") "odi" "batting"
              (Some (mkTimestamp 2020 6 1 0)) 3 850;
        mkRow None "odi" "batting" (Some (mkTimestamp 2020 6 1 0)) 4 700 ] in
  top_n_by_rank Reference.argsort_stable Reference.table 10 = Ok once
  /\ top_n_by_rank Reference.argsort_stable once 10 = Ok once.
Proof.
  intros once.
  destruct (top_n_by_rank_idempotent Reference.argsort_stable
              Reference.table 10 argsort_stable_spec
              (argsort_stable_keeps 10) eq_refl) as (once' & H1 & H2).
  assert (once' = once) as ->.
  { vm_compute in H1. injection H1 as <-. reflexivity. }
  split; [exact H1 | exact H2].
Defined.

(** X24.  What the contract of the argsort alone gives: taking the top n of
    the top n succeeds and returns the same rows with the same sequence of
    Ranks; at most, rows of equal Rank change places. *)
Theorem top_n_by_rank_twice (argsort : list Z -> list nat) (data : Frame)
    (n : nat) :
  argsort_spec argsort ->
  has_column data "Rank" = true ->
  exists once twice,
    top_n_by_rank argsort data (Z.of_nat n) = Ok once
    /\ top_n_by_rank argsort once (Z.of_nat n) = Ok twice
    /\ columns twice = columns once
    /\ Permutation (rows twice) (rows once)
    /\ map (@Rank _) (rows twice) = map (@Rank _) (rows once).
Proof.
  intros Hspec Hc.
  destruct (top_n_by_rank_firstn argsort Hspec data n Hc)
    as [s1 [H1 [Hp1 Hs1]]].
  set (once := mkDataFrame (columns data) (firstn n s1)) in *.
  destruct (top_n_by_rank_firstn argsort Hspec once n Hc)
    as [s2 [H2 [Hp2 Hs2]]].
  assert (firstn n s2 = s2) as Hall.
  { apply firstn_all2. rewrite (Permutation_length Hp2).
    unfold once. cbn [rows]. rewrite length_firstn. lia. }
  rewrite Hall in H2.
  exists once, (mkDataFrame (columns once) s2).
  split; [exact H1|]. split; [exact H2|]. split; [reflexivity|].
  cbn [rows]. split; [exact Hp2|].
  apply Sorted_perm_eq.
  - now apply (map_Sorted (@Rank _)).
  - apply (map_Sorted (@Rank _)). unfold once. cbn [rows].
    now apply Sorted_firstn.
  - now apply Permutation_map.
Qed.

Lemma top_n_by_rank_twice_witness :
  exists once twice,
    top_n_by_rank Reference.argsort_stable Reference.table (Z.of_nat 10)
    = Ok once
    /\ top_n_by_rank Reference.argsort_stable once (Z.of_nat 10) = Ok twice
    /\ columns twice = columns once
    /\ Permutation (rows twice) (rows once)
    /\ map (@Rank _) (rows twice) = map (@Rank _) (rows once).
Proof.
  apply (top_n_by_rank_twice Reference.argsort_stable Reference.table 10).
  - exact argsort_stable_spec.
  - reflexivity.
Defined.

(** ** Dates that do not parse *)

Lemma In_head {A : Type} (n : Z) (l : list A) (x : A) :
  In x (head n l) -> In x l.
Proof.
  unfold head. destruct (0 <=? n); intros H;
    match type of H with
    | In _ (firstn ?k _) =>
        rewrite <- (firstn_skipn k l); apply in_or_app; left; exact H
    end.
Qed.

Lemma In_take {A : Type} (indexer : list nat) (l : list A) (x : A) :
  In x (take indexer l) -> In x l.
Proof.
  unfold take. intros H. apply in_flat_map in H. destruct H as [i [_ H]].
  destruct (nth_error l i) as [y|] eqn:E; [|destruct H].
  destruct H as [<-|[]]. now apply nth_error_In with i.
Qed.

Lemma date_eq_parsed (x d : option Timestamp) :
  date_eq x d = true -> x <> None.
Proof. destruct x; [discriminate | simpl; discriminate]. Qed.

Lemma series_min_dropna (dates : list (option Timestamp)) :
  series_min dates = series_min (filter is_parsed dates).
Proof.
  induction dates as [|[x|] t IH]; simpl; [reflexivity| |exact IH].
  now rewrite IH.
Qed.

Lemma series_max_dropna (dates : list (option Timestamp)) :
  series_max dates = series_max (filter is_parsed dates).
Proof.
  induction dates as [|[x|] t IH]; simpl; [reflexivity| |exact IH].
  now rewrite IH.
Qed.

Lemma filter_Date (data : list Record_) :
  filter is_parsed (map (@Date _) data)
  = map (@Date _) (filter (fun r => is_parsed (Date r)) data).
Proof.
  induction data as [|r t IH]; [reflexivity|].
  cbn [map filter]. destruct (is_parsed (Date r)); cbn [map]; now rewrite IH.
Qed.

Lemma get_top_rows (argsort : list Z -> list nat)
    (to_datetime : string -> option Timestamp) (df : Frame)
    (date format category : string) :
  well_formed df ->
  let data :=
    filter (fun r => String.eqb (Format r) format
                     && String.eqb (Category r) category
                     && date_eq (Date r) (to_datetime date)) (rows df) in
  get_top argsort to_datetime df date format category
  = Ok (head 10 (take (argsort (map (@Rank _) data)) data)).
Proof.
  intros Hwf data. unfold get_top. columns_ok Hwf. cbn [bind].
  unfold top_n_by_rank, sort_values_Rank, loc_mask, dates_eq.
  rewrite !series_eq_map.
  rewrite (mask_and_map (fun r => String.eqb (Format r) format)
                        (fun r => String.eqb (Category r) category)).
  rewrite map_map.
  rewrite (mask_and_map
             (fun r => String.eqb (Format r) format
                       && String.eqb (Category r) category)
             (fun r => date_eq (Date r) (to_datetime date))).
  rewrite select_map. fold data.
  rewrite getitem_ok
    by (apply well_formed_column; [exact Hwf | simpl; tauto]).
  reflexivity.
Qed.

(** C5.  Loading keeps every row and only replaces its Date by the outcome
    of [to_datetime], [NaT] where the text does not parse.  On the loaded
    table a row whose Date is [NaT] is never returned by the exact-date
    query [get_top], the minimum and maximum of a Date column are those of
    its parsed dates alone, and a query that does not look at dates
    ([get_player]) still returns such rows. *)
Theorem unparsed_dates_excluded
    (to_datetime_in : list (option string) -> string -> option Timestamp)
    (to_datetime : string -> option Timestamp)
    (argsort : list Z -> list nat)
    (re_compile : string -> option (string -> bool))
    (csv : RawFrame) (name : string) (search : string -> bool) :
  well_formed csv ->
  re_compile name = Some search ->
  let df := parse_dates to_datetime_in csv in
  let col := map (@Date _) (rows csv) in
  rows df
  = map (fun r => with_Date (to_datetime_cell to_datetime_in col (Date r)) r)
        (rows csv)
  /\ (forall r x, In r (rows csv) -> Date r = Some x ->
                  to_datetime_in col x = None ->
                  In (with_Date None r) (rows df))
  /\ (forall date format category,
        exists top,
          get_top argsort to_datetime df date format category = Ok top
          /\ forall r, In r top -> Date r <> None)
  /\ (forall data : list Record_,
        series_min (map (@Date _) data)
        = series_min (map (@Date _)
                          (filter (fun r => is_parsed (Date r)) data))
        /\ series_max (map (@Date _) data)
           = series_max (map (@Date _)
                             (filter (fun r => is_parsed (Date r)) data)))
  /\ (exists found,
        get_player re_compile df name None None = Ok found
        /\ forall r, In r (rows df) -> Date r = None ->
                     name_found search r = true -> In r found).
Proof.
  intros Hwf Hre df col.
  assert (well_formed df) as Hwf' by exact Hwf.
  split; [reflexivity|]. split; [|split; [|split]].
  - intros r x Hr Hx Hnone. unfold df, parse_dates. cbn [rows].
    apply in_map_iff. exists r. split; [|exact Hr].
    fold col. rewrite Hx. simpl. now rewrite Hnone.
  - intros date format category. eexists. split.
    + apply get_top_rows. exact Hwf'.
    + intros r Hr. apply In_head, In_take, filter_In in Hr.
      destruct Hr as [_ Hr]. apply andb_true_iff in Hr.
      now apply date_eq_parsed with (to_datetime date).
  - intros data. split.
    + rewrite series_min_dropna. f_equal. apply filter_Date.
    + rewrite series_max_dropna. f_equal. apply filter_Date.
  - unfold get_player.
    rewrite (player_data_rows re_compile df name None None search Hwf' Hre).
    cbn [bind rows]. eexists. split; [reflexivity|].
    intros r Hr _ Hf. unfold player_rows. cbn [lets_through].
    apply filter_In. split; [exact Hr|]. now rewrite Hf.
Qed.

Lemma unparsed_dates_excluded_witness :
  let df := parse_dates Reference.to_datetime_in Reference.csv in
  In (mkRow (Some "Alastair Cook") "test" "batting" None 1 910) (rows df)
  /\ (exists top,
        get_top Reference.argsort_stable Reference.to_datetime df
                "unknown" "test" "batting" = Ok top
        /\ forall r, In r top -> Date r <> None)
  /\ (exists found,
        get_player Reference.re_compile df "cook" None None = Ok found
        /\ In (mkRow (Some "Alastair Cook") "test" "batting" None 1 910)
              found).
Proof.
  destruct (unparsed_dates_excluded
              Reference.to_datetime_in Reference.to_datetime
              Reference.argsort_stable Reference.re_compile
              Reference.csv "cook" (Reference.search "cook")
              eq_refl eq_refl) as [_ [H1 [H2 [_ H3]]]].
  split; [|split].
  - apply (H1 (mkRow (Some "Alastair Cook") "test" "batting"
                     (Some "unknown") 1 910) "unknown").
    + simpl. tauto.
    + reflexivity.
    + reflexivity.
  - apply H2.
  - destruct H3 as [found [Hf Hin]]. exists found. split; [exact Hf|].
    apply Hin.
    + simpl. tauto.
    + reflexivity.
    + reflexivity.
Defined.

(** ** The Dataset Store *)

Lemma current_rebind (s : Store) (o : Object) : current (rebind s o) = Some o.
Proof.
  unfold current, rebind. cbn [df heap].
  rewrite nth_error_app2 by lia. now rewrite Nat.sub_diag.
Qed.

Lemma update_last {A : Type} (l : list A) (x y : A) :
  update (List.length l) y (l ++ [x]) = l ++ [y].
Proof. induction l as [|z t IH]; simpl; [reflexivity | now rewrite IH]. Qed.

Lemma setitem_Date_rebind
    (to_datetime_in : list (option string) -> string -> option Timestamp)
    (s : Store) (csv : RawFrame) :
  setitem_Date to_datetime_in (rebind s (Unparsed csv))
  = rebind s (Parsed (parse_dates to_datetime_in csv)).
Proof.
  unfold setitem_Date. rewrite current_rebind.
  unfold rebind. cbn [df heap]. now rewrite update_last.
Qed.

Lemma heap_rebind (s : Store) (o o' : Object) (a : nat) :
  nth_error (heap s) a = Some o -> nth_error (heap (rebind s o')) a = Some o.
Proof.
  intros H. unfold rebind. cbn [heap].
  rewrite nth_error_app1; [exact H|].
  apply nth_error_Some. now rewrite H.
Qed.

(** A load that succeeds leaves [df] bound to the fetched table with its
    dates parsed. *)
Lemma load_data_fetched
    (to_datetime_in : list (option string) -> string -> option Timestamp)
    (s : Store) (csv : RawFrame) :
  has_column csv "Date" = true ->
  current (load_data to_datetime_in s (Fetched csv))
  = Some (Parsed (parse_dates to_datetime_in csv)).
Proof.
  intros Hc. unfold load_data, load_data_trace. rewrite Hc. cbn [last].
  rewrite setitem_Date_rebind. apply current_rebind.
Qed.

(** A fetched file without a Date column ends like a failed fetch. *)
Lemma load_data_no_Date
    (to_datetime_in : list (option string) -> string -> option Timestamp)
    (s : Store) (csv : RawFrame) :
  has_column csv "Date" = false ->
  current (load_data to_datetime_in s (Fetched csv))
  = Some (Parsed pd_DataFrame).
Proof.
  intros Hc. unfold load_data, load_data_trace. rewrite Hc. cbn [last].
  apply current_rebind.
Qed.

(** C1.  When the fetch fails, [load_data] leaves [df] bound to
    [pd.DataFrame()], which has no rows, and no columns either: every
    endpoint that reads the table then raises [KeyError] on its first
    column lookup instead of answering with an empty result. *)
Theorem load_failure_breaks_queries
    (to_datetime_in : list (option string) -> string -> option Timestamp)
    (re_compile : string -> option (string -> bool))
    (argsort : list Z -> list nat)
    (to_datetime : string -> option Timestamp)
    (s : Store) (name query date players format category : string)
    (fmt cat : option string) (year decade top_n : Z) :
  let empty_frame : Frame := pd_DataFrame in
  current (load_data to_datetime_in s FetchFails) = Some (Parsed empty_frame)
  /\ rows empty_frame = []
  /\ get_player re_compile empty_frame name fmt cat = Raise (KeyError "Player")
  /\ search empty_frame query = Raise (KeyError "Player")
  /\ player_summary re_compile empty_frame name fmt cat
     = Raise (KeyError "Player")
  /\ dominance re_compile empty_frame name fmt cat = Raise (KeyError "Player")
  /\ get_top argsort to_datetime empty_frame date format category
     = Raise (KeyError "Format")
  /\ compare re_compile empty_frame players format category
     = Raise (KeyError "Format")
  /\ leaders empty_frame format category top_n = Raise (KeyError "Format")
  /\ yearly_top argsort empty_frame year format category
     = Raise (KeyError "Format")
  /\ year_leaders empty_frame year format category top_n
     = Raise (KeyError "Format")
  /\ decade_leaders empty_frame format category decade top_n
     = Raise (KeyError "Format")
  /\ latest argsort empty_frame = Raise (KeyError "Format")
  /\ leaders_summary argsort empty_frame top_n = Raise (KeyError "Format").
Proof.
  intros empty_frame.
  split; [apply current_rebind|].
  repeat (split; [reflexivity|]).
  split.
  - unfold compare.
    destruct (map PyStr.strip (PyStr.split_comma players)) as [|n t] eqn:E;
      [|reflexivity].
    apply map_eq_nil in E. destruct players as [|c p]; simpl in E;
      [discriminate|].
    destruct (Ascii.eqb c ","); [discriminate|].
    destruct (PyStr.split_comma p); discriminate.
  - repeat (split; [reflexivity|]). reflexivity.
Qed.

(** ** Refresh *)

(** C2 (as amended).  At every point of a refresh a reader of [df] sees
    one of: the fetched table with its dates still unparsed, the fetched
    table with its dates parsed, or the empty frame of the failure path;
    and no object that existed before the refresh, the old table among
    them, is ever modified. *)
Theorem refresh_observations
    (to_datetime_in : list (option string) -> string -> option Timestamp)
    (s s' : Store) (r : Fetch) :
  In s' (load_data_trace to_datetime_in s r) ->
  (forall a o, nth_error (heap s) a = Some o -> nth_error (heap s') a = Some o)
  /\ match r with
     | FetchFails => observes s' (Parsed pd_DataFrame)
     | Fetched csv =>
         observes s' (Unparsed csv)
         \/ observes s' (Parsed (parse_dates to_datetime_in csv))
         \/ observes s' (Parsed pd_DataFrame)
     end.
Proof.
  unfold load_data_trace, observes. destruct r as [|csv].
  - intros [<-|[]]. split; [|apply current_rebind].
    intros a o. apply heap_rebind.
  - destruct (has_column csv "Date"); rewrite ?setitem_Date_rebind;
      intros [<-|[<-|[]]]; (split; [|rewrite current_rebind; tauto]);
      intros a o H; repeat apply heap_rebind; exact H.
Qed.

Lemma refresh_observations_witness :
  let old := load_data Reference.to_datetime_in initial
                       (Fetched Reference.csv) in
  let during := rebind old (Unparsed Reference.csv) in
  (forall a o, nth_error (heap old) a = Some o ->
               nth_error (heap during) a = Some o)
  /\ (observes during (Unparsed Reference.csv)
      \/ observes during (Parsed (parse_dates Reference.to_datetime_in
                                              Reference.csv))
      \/ observes during (Parsed pd_DataFrame)).
Proof.
  intros old during.
  apply (refresh_observations Reference.to_datetime_in old during
           (Fetched Reference.csv)).
  simpl. left. reflexivity.
Defined.

(** C2, the claim as written fails: in the middle of a refresh the reader
    sees the fetched table with unparsed dates, which is neither the table
    before the refresh nor the table after it; and the object the reader
    got from [df] at that moment is changed under it by the next
    statement. *)
Lemma refresh_not_atomic :
  let old := load_data Reference.to_datetime_in initial
                       (Fetched Reference.csv) in
  let new := load_data Reference.to_datetime_in old (Fetched Reference.csv) in
  exists during a,
    In during (load_data_trace Reference.to_datetime_in old
                               (Fetched Reference.csv))
    /\ current during <> current old
    /\ current during <> current new
    /\ df during = Some a
    /\ nth_error (heap during) a <> nth_error (heap new) a.
Proof.
  intros old new.
  exists (rebind old (Unparsed Reference.csv)), 1%nat.
  split; [simpl; left; reflexivity|].
  repeat split; try reflexivity; vm_compute; discriminate.
Qed.

(** ** Filtering by name *)

(** What [filter_by_name] does: with a pattern that compiles, it keeps
    exactly the rows whose Player is not null and in which the regular
    expression finds a match. *)
Lemma filter_by_name_regex_sound_complete
    (re_compile : string -> option (string -> bool)) (df : Frame)
    (name : string) (search : string -> bool) :
  has_column df "Player" = true ->
  re_compile name = Some search ->
  exists found,
    filter_by_name re_compile df name = Ok found
    /\ forall r, In r (rows found)
                 <-> In r (rows df)
                     /\ exists p, Player r = Some p /\ search p = true.
Proof.
  intros Hc Hre. rewrite (filter_by_name_rows re_compile df name search Hc Hre).
  eexists. split; [reflexivity|]. intros r. cbn [rows].
  rewrite filter_In. unfold name_found. split.
  - intros [Hin H]. split; [exact Hin|].
    destruct (Player r) as [p|]; [|discriminate]. now exists p.
  - intros [Hin [p [Hp H]]]. split; [exact Hin|]. now rewrite Hp.
Qed.

(** A pattern that does not compile makes the request fail. *)
Lemma filter_by_name_bad_pattern
    (re_compile : string -> option (string -> bool)) (df : Frame)
    (name : string) :
  has_column df "Player" = true ->
  re_compile name = None ->
  filter_by_name re_compile df name = Raise (ReError name).
Proof.
  intros Hc Hre. unfold filter_by_name, str_contains.
  rewrite getitem_ok by exact Hc. cbn [bind]. now rewrite Hre.
Qed.

(** C8.  The name is handed to [str.contains] as a regular expression, so
    the filter is not the substring test of the claim: for the name "."
    the row of "Virat Kohli" is returned although "." does not occur in
    "Virat Kohli". *)
Theorem filter_by_name_is_regex
    (re_compile : string -> option (string -> bool))
    (search : string -> bool) :
  re_compile "." = Some search ->
  search "Virat Kohli" = true ->
  let T := mkDataFrame Reference.schema [Reference.kohli] in
  filter_by_name re_compile T "." = Ok T
  /\ Player Reference.kohli = Some "Virat Kohli"
  /\ contains_ci "." "Virat Kohli" = false.
Proof.
  intros Hre Hs T.
  rewrite (filter_by_name_rows re_compile T "." search eq_refl Hre).
  cbn [rows T filter name_found Player Reference.kohli]. rewrite Hs.
  repeat split.
Qed.

Lemma filter_by_name_is_regex_witness :
  let T := mkDataFrame Reference.schema [Reference.kohli] in
  filter_by_name Reference.re_compile T "." = Ok T
  /\ Player Reference.kohli = Some "Virat Kohli"
  /\ contains_ci "." "Virat Kohli" = false.
Proof.
  apply (filter_by_name_is_regex Reference.re_compile (Reference.search ".")).
  - reflexivity.
  - reflexivity.
Defined.

(** ** The empty name *)

Lemma dict_get_set_same {V : Type} (k : string) (v : V)
    (d : list (string * V)) :
  dict_get k (dict_set k v d) = Some v.
Proof.
  induction d as [|[k' v'] t IH]; simpl.
  - now rewrite String.eqb_refl.
  - destruct (String.eqb k' k) eqn:E; simpl.
    + now rewrite String.eqb_refl.
    + now rewrite E.
Qed.

Lemma dict_get_set_other {V : Type} (k k0 : string) (v : V)
    (d : list (string * V)) :
  k0 <> k -> dict_get k (dict_set k0 v d) = dict_get k d.
Proof.
  intros Hne. induction d as [|[k' v'] t IH]; simpl.
  - destruct (String.eqb_spec k0 k); [contradiction | reflexivity].
  - destruct (String.eqb_spec k' k0); simpl.
    + subst k'. destruct (String.eqb_spec k0 k); [contradiction | reflexivity].
    + destruct (String.eqb_spec k' k); [reflexivity | exact IH].
Qed.

Lemma dict_get_fold {V : Type} (g : string -> V) (names : list string)
    (k : string) (d : list (string * V)) :
  In k names \/ dict_get k d = Some (g k) ->
  dict_get k (fold_left (fun d name => dict_set name (g name) d) names d)
  = Some (g k).
Proof.
  revert d. induction names as [|n t IH]; intros d H; simpl.
  - destruct H as [[]|H]. exact H.
  - apply IH. destruct (string_dec n k) as [->|Hne].
    + right. apply dict_get_set_same.
    + destruct H as [[H|H]|H]; [contradiction | now left |].
      right. now rewrite dict_get_set_other.
Qed.

Lemma compare_loop_fold
    (re_compile : string -> option (string -> bool)) (df : Frame)
    (format category : string) (names : list string)
    (res : list (string * list Record_)) :
  well_formed df ->
  (forall name, In name names -> re_compile name <> None) ->
  compare_loop re_compile df format category names res
  = Ok (fold_left
          (fun d name =>
             dict_set name (compared re_compile format category name (rows df))
                      d)
          names res).
Proof.
  intros Hwf. revert res.
  induction names as [|name t IH]; intros res Hall; [reflexivity|].
  cbn [compare_loop fold_left]. columns_ok Hwf. cbn [bind].
  unfold str_contains.
  destruct (re_compile name) as [search|] eqn:Hre;
    [|exfalso; apply (Hall name); [now left | exact Hre]].
  cbn [bind]. rewrite IH by (intros n Hn; apply Hall; now right).
  f_equal. f_equal. f_equal.
  unfold loc_mask, compared. cbn [rows]. rewrite Hre.
  rewrite !series_eq_map, map_map.
  rewrite (mask_and_map (fun r => String.eqb (Format r) format)
                        (fun r => String.eqb (Category r) category)).
  rewrite (mask_and_map
             (fun r => String.eqb (Format r) format
                       && String.eqb (Category r) category)
             (fun r => match Player r with
                       | Some x => search x
                       | None => false
                       end)).
  now rewrite select_map.
Qed.

(** C10.  When the empty pattern compiles to the test that finds a match
    in every string (as it does in [re]), filtering by the empty name
    keeps every row whose Player is not null, so the result is not empty
    when there is such a row; and an empty entry of the list given to
    [compare] is answered with every such row of the segment. *)
Theorem empty_name_matches_all
    (re_compile : string -> option (string -> bool))
    (search : string -> bool) (df : Frame)
    (players format category : string) :
  well_formed df ->
  re_compile "" = Some search ->
  (forall x, search x = true) ->
  filter_by_name re_compile df ""
  = Ok (mkDataFrame (columns df) (filter has_player (rows df)))
  /\ (forall r, In r (rows df) -> Player r <> None ->
                filter has_player (rows df) <> [])
  /\ (In "" (map PyStr.strip (PyStr.split_comma players)) ->
      (forall name, In name (map PyStr.strip (PyStr.split_comma players)) ->
                    re_compile name <> None) ->
      exists result,
        compare re_compile df players format category = Ok result
        /\ dict_get "" result
           = Some (filter (fun r => String.eqb (Format r) format
                                    && String.eqb (Category r) category
                                    && has_player r) (rows df))).
Proof.
  intros Hwf Hre Hall.
  assert (forall rs : list Record_,
             filter (name_found search) rs = filter has_player rs) as Hf.
  { intros rs. apply filter_ext. intros r. unfold name_found, has_player.
    destruct (Player r); [apply Hall | reflexivity]. }
  split; [|split].
  - rewrite (filter_by_name_rows re_compile df "" search)
      by (first [exact Hre
                | apply well_formed_column; [exact Hwf | simpl; tauto]]).
    now rewrite Hf.
  - intros r Hin Hp E.
    assert (In r (filter has_player (rows df))) as H.
    { apply filter_In. split; [exact Hin|]. unfold has_player.
      destruct (Player r); [reflexivity | contradiction]. }
    rewrite E in H. destruct H.
  - intros Hin Hcompile. unfold compare.
    rewrite (compare_loop_fold re_compile df format category _ [] Hwf Hcompile).
    eexists. split; [reflexivity|].
    rewrite (dict_get_fold
               (fun name => compared re_compile format category name (rows df)))
      by (now left).
    f_equal. unfold compared. rewrite Hre.
    apply filter_ext. intros r. f_equal. unfold name_found, has_player.
    destruct (Player r); [apply Hall | reflexivity].
Qed.

Lemma Reference_search_empty (x : string) : Reference.search "" x = true.
Proof. destruct x; reflexivity. Qed.

Lemma empty_name_matches_all_witness :
  filter_by_name Reference.re_compile Reference.table ""
  = Ok (mkDataFrame (columns Reference.table)
                    (filter has_player (rows Reference.table)))
  /\ filter has_player (rows Reference.table) <> []
  /\ exists result,
       compare Reference.re_compile Reference.table "kohli, ,cook"
               "odi" "batting" = Ok result
       /\ dict_get "" result
          = Some (filter (fun r => String.eqb (Format r) "odi"
                                   && String.eqb (Category r) "batting"
                                   && has_player r) (rows Reference.table)).
Proof.
  destruct (empty_name_matches_all
              Reference.re_compile (Reference.search "") Reference.table
              "kohli, ,cook" "odi" "batting"
              eq_refl eq_refl Reference_search_empty) as [H1 [H2 H3]].
  split; [exact H1|]. split.
  - apply (H2 (mkRow (Some "Virat Kohli") "odi" "batting"
                     (Some (mkTimestamp 2020 1 1 0)) 1 900)).
    + simpl. tauto.
    + discriminate.
  - apply H3.
    + simpl. tauto.
    + intros name Hn. simpl in Hn.
      destruct Hn as [<-|[<-|[<-|[]]]]; discriminate.
Defined.

(** ** Scenarios of the specification, run on the reference instances *)

Example player_summary_scenario :
  player_summary Reference.re_compile Reference.table "Kohli"
                 (Some "odi") (Some "batting")
  = Ok (Stats (mkPlayerSummary "Kohli" "odi" "batting" 900 1 1
                               "2020-01-01" "2020-06-01")).
Proof. vm_compute. reflexivity. Qed.

Example summary_of_unknown_player :
  player_summary Reference.re_compile Reference.table "Tendulkar" None None
  = Ok (Message "Tendulkar" "No data found").
Proof. vm_compute. reflexivity. Qed.

Example search_scenario :
  search Reference.table "koh" = Ok ["Virat Kohli"].
Proof. vm_compute. reflexivity. Qed.

Example leaders_of_empty_segment :
  leaders Reference.table "t20" "batting" 20 = Ok [].
Proof. vm_compute. reflexivity. Qed.

Example decade_leaders_outside :
  decade_leaders Reference.table "odi" "batting" 2010 10 = Ok DecadeEmpty.
Proof. vm_compute. reflexivity. Qed.

Example get_top_unparseable_date :
  get_top Reference.argsort_stable Reference.to_datetime Reference.table
          "yesterday" "odi" "batting" = Ok [].
Proof. vm_compute. reflexivity. Qed.

Example bad_pattern_fails :
  get_player Reference.re_compile Reference.table "(" None None
  = Raise (ReError "(").
Proof. vm_compute. reflexivity. Qed.

(** * Further properties of the endpoints *)

(** ** Lists of players *)

Lemma dropna_In {A : Type} (l : list (option A)) (x : A) :
  In x (dropna l) <-> In (Some x) l.
Proof.
  induction l as [|[y|] t IH]; simpl.
  - tauto.
  - rewrite IH. split; intros [H|H]; auto.
    + left. now f_equal.
    + left. now injection H.
  - rewrite IH. split; [auto|]. intros [H|H]; [discriminate | exact H].
Qed.

Lemma unique_In (l : list string) (x : string) : In x (unique l) <-> In x l.
Proof.
  induction l as [|y t IH]; simpl; [tauto|].
  rewrite filter_In, IH. destruct (String.eqb_spec x y) as [->|Hne].
  - tauto.
  - split.
    + intros [H|[H _]]; auto.
    + intros [H|H]; [now left | right]. split; [exact H | reflexivity].
Qed.

Lemma unique_NoDup (l : list string) : NoDup (unique l).
Proof.
  induction l as [|y t IH]; simpl; constructor.
  - rewrite filter_In. intros [_ H]. now rewrite String.eqb_refl in H.
  - now apply NoDup_filter.
Qed.

Lemma NoDup_firstn {A : Type} (n : nat) (l : list A) :
  NoDup l -> NoDup (firstn n l).
Proof.
  intros H. rewrite <- (firstn_skipn n l) in H.
  now apply NoDup_app_remove_r in H.
Qed.

Lemma In_firstn {A : Type} (n : nat) (l : list A) (x : A) :
  In x (firstn n l) -> In x l.
Proof.
  intros H. rewrite <- (firstn_skipn n l). apply in_or_app. now left.
Qed.

Lemma distinct_players_In {D : Type} (rs : list (Row D)) (p : string) :
  In p (distinct_players rs) <-> exists r, In r rs /\ Player r = Some p.
Proof.
  unfold distinct_players. rewrite unique_In, dropna_In, in_map_iff.
  split; intros [r [H1 H2]]; exists r; tauto.
Qed.

(** ** Search *)

Lemma all_ascii_In (c : ascii) : In c all_ascii.
Proof.
  unfold all_ascii. rewrite <- (ascii_nat_embedding c).
  apply in_map, in_seq. pose proof (nat_ascii_bounded c). lia.
Qed.

(** [str.lower()] sends two characters to the same one exactly when they
    are the same letter. *)
Lemma lower_ascii_same_letter (a b : ascii) :
  Ascii.eqb (PyStr.lower_ascii a) (PyStr.lower_ascii b) = same_letter a b.
Proof.
  assert (forallb (fun a =>
            forallb (fun b =>
              Bool.eqb (Ascii.eqb (PyStr.lower_ascii a) (PyStr.lower_ascii b))
                       (same_letter a b)) all_ascii) all_ascii = true) as H
    by (vm_compute; reflexivity).
  rewrite forallb_forall in H. specialize (H a (all_ascii_In a)).
  rewrite forallb_forall in H. specialize (H b (all_ascii_In b)).
  now apply Bool.eqb_prop in H.
Qed.

Lemma lower_same_text (s1 s2 : string) :
  PyStr.lower s1 = PyStr.lower s2 <-> same_text s1 s2 = true.
Proof.
  revert s2. induction s1 as [|a t1 IH]; intros [|b t2]; simpl;
    try (split; [discriminate | discriminate]); [tauto|].
  rewrite andb_true_iff, <- IH, <- lower_ascii_same_letter, Ascii.eqb_eq.
  split.
  - intros H. injection H as H1 H2. now split.
  - intros [H1 H2]. now rewrite H1, H2.
Qed.

Lemma lower_app (s1 s2 : string) :
  PyStr.lower (s1 ++ s2) = (PyStr.lower s1 ++ PyStr.lower s2)%string.
Proof. induction s1 as [|c t IH]; simpl; [reflexivity | now rewrite IH]. Qed.

Lemma lower_split (p x y : string) :
  PyStr.lower p = (x ++ y)%string ->
  exists p1 p2, p = (p1 ++ p2)%string
                /\ PyStr.lower p1 = x /\ PyStr.lower p2 = y.
Proof.
  revert p. induction x as [|c x IH]; intros p H.
  - exists EmptyString, p. repeat split. exact H.
  - destruct p as [|d p]; simpl in H; [discriminate|].
    injection H as Hc Ht. destruct (IH p Ht) as (p1 & p2 & -> & H1 & H2).
    exists (String d p1), p2. simpl. now rewrite Hc, H1.
Qed.

Lemma prefix_app (a b : string) :
  String.prefix a b = true <-> exists post, b = (a ++ post)%string.
Proof.
  revert b. induction a as [|c a IH]; intros b.
  - split; [intros _; now exists b | intros _; now destruct b].
  - destruct b as [|d b]; cbn [String.prefix append].
    + split; [discriminate | intros [post H]; discriminate].
    + destruct (Ascii.ascii_dec c d) as [E|Hne].
      * rewrite IH. subst d. split; intros [post H]; exists post.
        -- now rewrite H.
        -- now injection H.
      * split; [discriminate|]. intros [post H]. injection H as H _.
        congruence.
Qed.

Lemma contains_app (a b : string) :
  PyStr.contains a b = true
  <-> exists pre post, b = (pre ++ a ++ post)%string.
Proof.
  induction b as [|d b IH].
  - cbn [PyStr.contains]. rewrite orb_false_r, prefix_app. split.
    + intros [post H]. now exists EmptyString, post.
    + intros (pre & post & H). destruct pre as [|c pre]; [|discriminate].
      now exists post.
  - cbn [PyStr.contains]. rewrite orb_true_iff, prefix_app, IH. split.
    + intros [[post H]|(pre & post & H)].
      * now exists EmptyString, post.
      * exists (String d pre), post. simpl. now rewrite H.
    + intros (pre & post & H). destruct pre as [|c pre].
      * left. now exists post.
      * right. injection H as _ H. now exists pre, post.
Qed.

(** The test [search] makes, [query.lower() in player.lower()], is the
    occurrence of the query up to case. *)
Lemma contains_ci_occurs (q p : string) :
  contains_ci q p = true <-> occurs_ci q p.
Proof.
  unfold contains_ci, occurs_ci. rewrite contains_app. split.
  - intros (pre' & post' & H).
    destruct (lower_split _ _ _ H) as (pre & rest & -> & _ & H').
    destruct (lower_split _ _ _ H') as (mid & post & -> & Hm & _).
    exists pre, mid, post. split; [reflexivity|].
    now apply lower_same_text.
  - intros (pre & mid & post & -> & H). apply lower_same_text in H.
    exists (PyStr.lower pre), (PyStr.lower post).
    now rewrite !lower_app, H.
Qed.

(** X1.  On a table with a Player column, whose players are ASCII text, and
    for an ASCII query, [search] returns at most 20 names without
    repetition; each is the Player of some row and has the query in it when
    case is ignored; and when fewer than 20 names come back, every such
    player is among them. *)
Theorem search_sound_complete (df : Frame) (query : string) :
  has_column df "Player" = true ->
  ascii_only query = true ->
  ascii_players (rows df) = true ->
  exists matches,
    search df query = Ok matches
    /\ (List.length matches <= 20)%nat
    /\ NoDup matches
    /\ (forall p, In p matches ->
                  (exists r, In r (rows df) /\ Player r = Some p)
                  /\ occurs_ci query p)
    /\ ((List.length matches < 20)%nat ->
        forall r p, In r (rows df) -> Player r = Some p ->
                    occurs_ci query p -> In p matches).
Proof.
  intros Hc _ _. unfold search. rewrite getitem_ok by exact Hc. cbn [bind].
  fold (distinct_players (rows df)).
  set (all := filter (fun p => PyStr.contains (PyStr.lower query)
                                              (PyStr.lower p))
                     (distinct_players (rows df))).
  exists (firstn 20 all). split; [reflexivity|].
  split; [apply firstn_le_length|]. split.
  - apply NoDup_firstn, NoDup_filter, unique_NoDup.
  - split.
    + intros p Hp. apply In_firstn in Hp. unfold all in Hp.
      apply filter_In in Hp. destruct Hp as [Hp Hq].
      split; [now apply distinct_players_In |].
      now apply contains_ci_occurs.
    + intros Hlt r p Hr Hp Hq.
      rewrite firstn_all2.
      * unfold all. apply filter_In. split.
        -- apply distinct_players_In. now exists r.
        -- now apply contains_ci_occurs.
      * rewrite length_firstn in Hlt. lia.
Qed.

(** The query "KOH" finds Virat Kohli and nobody else. *)
Lemma search_sound_complete_witness :
  search Reference.table "KOH" = Ok ["Virat Kohli"]
  /\ occurs_ci "KOH" "Virat Kohli"
  /\ ~ occurs_ci "KOH" "Rohit Sharma".
Proof.
  destruct (search_sound_complete Reference.table "KOH"
              eq_refl eq_refl eq_refl)
    as (matches & Hs & _ & _ & Hsound & Hcomplete).
  vm_compute in Hs. injection Hs as <-.
  split; [reflexivity|]. split.
  - apply (Hsound "Virat Kohli"). now left.
  - intros H.
    assert (In "Rohit Sharma" ["Virat Kohli"]) as [E|[]].
    { apply Hcomplete
        with (r := mkRow (Some "Rohit Sharma") "odi" "batting"
                         (Some (mkTimestamp 2020 1 1 0)) 2 880).
      - simpl. lia.
      - simpl. tauto.
      - reflexivity.
      - exact H. }
    discriminate E.
Defined.

(** ** Top 10 on a date *)

Lemma ts_eqb_eq (a b : Timestamp) : ts_eqb a b = true -> a = b.
Proof.
  destruct a as [y1 m1 d1 n1], b as [y2 m2 d2 n2].
  unfold ts_eqb, ts_compare. cbn [ts_year ts_month ts_day ts_nanos].
  destruct (Z.compare_spec y1 y2); try discriminate.
  destruct (Z.compare_spec m1 m2); try discriminate.
  destruct (Z.compare_spec d1 d2); try discriminate.
  destruct (Z.compare_spec n1 n2); try discriminate.
  intros _. now subst.
Qed.

Lemma date_eq_eq (x d : option Timestamp) :
  date_eq x d = true -> exists t, x = Some t /\ d = Some t.
Proof.
  destruct x as [a|], d as [b|]; simpl; try discriminate.
  intros H. apply ts_eqb_eq in H. subst. now exists b.
Qed.

Lemma take_nil {A : Type} (indexer : list nat) : take indexer (@nil A) = [].
Proof.
  unfold take. induction indexer as [|i t IH]; simpl; [reflexivity|].
  rewrite IH. now destruct i.
Qed.

Lemma head_nil {A : Type} (n : Z) : head n (@nil A) = [].
Proof. unfold head. destruct (0 <=? n); apply firstn_nil. Qed.

(** X2.  On a well-formed table and with an argsort that meets numpy's
    contract, [get_top] returns min(10, number of matching rows) rows in
    ascending Rank; each of them is a row of the table with the asked
    Format and Category whose Date is the parsed query date. *)
Theorem get_top_result (argsort : list Z -> list nat)
    (to_datetime : string -> option Timestamp) (df : Frame)
    (date format category : string) :
  argsort_spec argsort ->
  well_formed df ->
  let matching :=
    filter (fun r => in_segment format category r
                     && date_eq (Date r) (to_datetime date)) (rows df) in
  exists top,
    get_top argsort to_datetime df date format category = Ok top
    /\ List.length top = Nat.min 10 (List.length matching)
    /\ Sorted rank_le top
    /\ (forall r, In r top ->
                  In r (rows df) /\ Format r = format /\ Category r = category
                  /\ exists t, Date r = Some t /\ to_datetime date = Some t)
    /\ ((List.length matching <= 10)%nat -> Permutation top matching).
Proof.
  intros Hspec Hwf matching.
  rewrite (get_top_rows argsort to_datetime df date format category Hwf).
  fold (in_segment (D := option Timestamp) format category).
  change (filter _ (rows df)) with matching.
  destruct (Hspec (map (@Rank _) matching)) as [Hp Hs].
  rewrite length_map in Hp.
  set (sorted := take (argsort (map (@Rank _) matching)) matching).
  assert (Permutation sorted matching) as Hperm by now apply take_perm.
  assert (Sorted rank_le sorted) as Hsorted.
  { apply Sorted_map. unfold sorted.
    rewrite take_map_nth with (d := 0); [exact Hs|].
    intros i Hi. apply (Permutation_in _ Hp) in Hi.
    apply in_seq in Hi. lia. }
  exists (head 10 sorted). split; [reflexivity|].
  change (head 10 sorted) with (firstn 10 sorted).
  split; [now rewrite length_firstn, (Permutation_length Hperm)|].
  split; [now apply Sorted_firstn|]. split.
  - intros r Hr. apply In_firstn in Hr.
    apply (Permutation_in _ Hperm) in Hr. unfold matching in Hr.
    apply filter_In in Hr. destruct Hr as [Hin Hr].
    apply andb_true_iff in Hr. destruct Hr as [Hseg Hd].
    apply andb_true_iff in Hseg. destruct Hseg as [Hf Hcat].
    apply String.eqb_eq in Hf, Hcat.
    repeat (split; [assumption|]). now apply date_eq_eq.
  - intros Hle. rewrite firstn_all2; [exact Hperm|].
    now rewrite (Permutation_length Hperm).
Qed.

Lemma get_top_result_witness :
  let matching :=
    filter (fun r => in_segment "odi" "batting" r
                     && date_eq (Date r) (Reference.to_datetime "2020-06-01"))
           (rows Reference.table) in
  exists top,
    get_top Reference.argsort_stable Reference.to_datetime Reference.table
            "2020-06-01" "odi" "batting" = Ok top
    /\ List.length top = Nat.min 10 (List.length matching)
    /\ Sorted rank_le top
    /\ (forall r, In r top ->
                  In r (rows Reference.table)
                  /\ Format r = "odi" /\ Category r = "batting"
                  /\ exists t, Date r = Some t
                               /\ Reference.to_datetime "2020-06-01" = Some t)
    /\ ((List.length matching <= 10)%nat -> Permutation top matching).
Proof.
  apply (get_top_result Reference.argsort_stable Reference.to_datetime
           Reference.table "2020-06-01" "odi" "batting").
  - exact argsort_stable_spec.
  - reflexivity.
Defined.

(** X3.  A query date that does not parse matches nothing: on a
    well-formed table [get_top] answers with the empty list, whatever the
    argsort. *)
Theorem get_top_unparseable (argsort : list Z -> list nat)
    (to_datetime : string -> option Timestamp) (df : Frame)
    (date format category : string) :
  well_formed df ->
  to_datetime date = None ->
  get_top argsort to_datetime df date format category = Ok [].
Proof.
  intros Hwf Hd.
  rewrite (get_top_rows argsort to_datetime df date format category Hwf).
  rewrite Hd.
  assert (filter (fun r : Record_ =>
                    String.eqb (Format r) format
                    && String.eqb (Category r) category
                    && date_eq (Date r) None) (rows df) = []) as ->.
  { induction (rows df) as [|r t IH]; [reflexivity|]. simpl.
    replace (date_eq (Date r) None) with false by (now destruct (Date r)).
    now rewrite andb_false_r. }
  now rewrite take_nil, head_nil.
Qed.

Lemma get_top_unparseable_witness :
  get_top Reference.argsort_reversing Reference.to_datetime Reference.table
          "last week" "odi" "batting" = Ok [].
Proof.
  apply (get_top_unparseable Reference.argsort_reversing
           Reference.to_datetime Reference.table "last week" "odi" "batting").
  - reflexivity.
  - reflexivity.
Defined.

(** ** Compare *)

Lemma dict_set_keys {V : Type} (k k' : string) (v : V)
    (d : list (string * V)) :
  In k' (map fst (dict_set k v d)) <-> k' = k \/ In k' (map fst d).
Proof.
  induction d as [|[k0 v0] t IH]; simpl.
  - intuition congruence.
  - destruct (String.eqb_spec k0 k) as [->|Hne]; simpl.
    + intuition congruence.
    + rewrite IH. tauto.
Qed.

Lemma dict_set_NoDup {V : Type} (k : string) (v : V) (d : list (string * V)) :
  NoDup (map fst d) -> NoDup (map fst (dict_set k v d)).
Proof.
  induction d as [|[k0 v0] t IH]; simpl; intros H.
  - constructor; [intros [] | constructor].
  - destruct (String.eqb_spec k0 k) as [->|Hne]; simpl; [exact H|].
    inversion H as [|? ? Hnotin Ht]; subst.
    constructor; [|now apply IH].
    rewrite dict_set_keys. intros [E|E]; [now subst | contradiction].
Qed.

Lemma dict_fold_keys {V : Type} (g : string -> V) (names : list string)
    (d : list (string * V)) :
  NoDup (map fst d) ->
  let d' := fold_left (fun d name => dict_set name (g name) d) names d in
  NoDup (map fst d')
  /\ forall k, In k (map fst d') <-> In k names \/ In k (map fst d).
Proof.
  revert d. induction names as [|n t IH]; intros d Hd; simpl.
  - split; [exact Hd | tauto].
  - destruct (IH (dict_set n (g n) d) (dict_set_NoDup n (g n) d Hd))
      as [H1 H2].
    split; [exact H1|]. intros k. rewrite H2, dict_set_keys.
    split; intros H; intuition (subst; auto).
Qed.



(** ** Patterns that do not compile *)

(** X5.  The name is compiled as a regular expression before any row is
    looked at: on a table with a Player column, a name that does not
    compile makes [get_player], [player_summary] and [dominance] raise
    instead of answering that nothing was found. *)
Theorem bad_pattern_raises (re_compile : string -> option (string -> bool))
    (df : Frame) (name : string) (format category : option string) :
  has_column df "Player" = true ->
  re_compile name = None ->
  get_player re_compile df name format category = Raise (ReError name)
  /\ player_summary re_compile df name format category
     = Raise (ReError name)
  /\ dominance re_compile df name format category = Raise (ReError name).
Proof.
  intros Hc Hre.
  unfold get_player, player_summary, dominance, player_data.
  rewrite (filter_by_name_bad_pattern re_compile df name Hc Hre).
  repeat split.
Qed.

Lemma bad_pattern_raises_witness :
  get_player Reference.re_compile Reference.table "Smith (c" None None
  = Raise (ReError "Smith (c")
  /\ player_summary Reference.re_compile Reference.table "Smith (c" None None
     = Raise (ReError "Smith (c")
  /\ dominance Reference.re_compile Reference.table "Smith (c" None None
     = Raise (ReError "Smith (c").
Proof.
  apply (bad_pattern_raises Reference.re_compile Reference.table
           "Smith (c" None None).
  - reflexivity.
  - reflexivity.
Defined.

Lemma compare_loop_prefix
    (re_compile : string -> option (string -> bool)) (df : Frame)
    (format category : string) (pre rest : list string)
    (res : list (string * list Record_)) :
  well_formed df ->
  (forall name, In name pre -> re_compile name <> None) ->
  compare_loop re_compile df format category (pre ++ rest) res
  = compare_loop re_compile df format category rest
      (fold_left
         (fun d name =>
            dict_set name (compared re_compile format category name (rows df))
                     d)
         pre res).
Proof.
  intros Hwf. revert res.
  induction pre as [|name t IH]; intros res Hall; [reflexivity|].
  cbn [app compare_loop fold_left]. columns_ok Hwf. cbn [bind].
  unfold str_contains.
  destruct (re_compile name) as [search|] eqn:Hre;
    [|exfalso; apply (Hall name); [now left | exact Hre]].
  cbn [bind]. rewrite IH by (intros n Hn; apply Hall; now right).
  f_equal. f_equal.
  unfold loc_mask, compared. cbn [rows]. rewrite Hre.
  rewrite !series_eq_map, map_map.
  rewrite (mask_and_map (fun r => String.eqb (Format r) format)
                        (fun r => String.eqb (Category r) category)).
  rewrite (mask_and_map
             (fun r => String.eqb (Format r) format
                       && String.eqb (Category r) category)
             (fun r => match Player r with
                       | Some x => search x
                       | None => false
                       end)).
  now rewrite select_map.
Qed.

(** X6.  [compare] answers all names or none: on a well-formed table, the
    first name of the list that does not compile makes the whole request
    raise, and the rows found for the names before it are lost. *)
Theorem compare_bad_pattern (re_compile : string -> option (string -> bool))
    (df : Frame) (players format category : string)
    (pre post : list string) (bad : string) :
  well_formed df ->
  map PyStr.strip (PyStr.split_comma players) = pre ++ bad :: post ->
  (forall name, In name pre -> re_compile name <> None) ->
  re_compile bad = None ->
  compare re_compile df players format category = Raise (ReError bad).
Proof.
  intros Hwf Hnames Hpre Hbad. unfold compare. rewrite Hnames.
  rewrite (compare_loop_prefix re_compile df format category pre
                               (bad :: post) [] Hwf Hpre).
  cbn [compare_loop]. columns_ok Hwf. cbn [bind].
  unfold str_contains. now rewrite Hbad.
Qed.

Lemma compare_bad_pattern_witness :
  compare Reference.re_compile Reference.table "kohli,sharma (,cook"
          "odi" "batting" = Raise (ReError "sharma (").
Proof.
  apply (compare_bad_pattern Reference.re_compile Reference.table
           "kohli,sharma (,cook" "odi" "batting" ["kohli"] ["cook"]
           "sharma (").
  - reflexivity.
  - reflexivity.
  - intros name [<-|[]]. discriminate.
  - reflexivity.
Defined.

(** ** The three player endpoints together *)

Lemma count_where_bounds {A : Type} (p : A -> bool) (l : list A) :
  0 <= count_where p l <= Z.of_nat (List.length l).
Proof.
  unfold count_where. split; [lia|].
  apply Nat2Z.inj_le. induction l as [|x t IH]; simpl; [lia|].
  destruct (p x); simpl; lia.
Qed.

Lemma count_where_filter {A : Type} (p q : A -> bool) (l : list A) :
  count_where p (filter q l) = count_where (fun x => q x && p x) l.
Proof.
  unfold count_where. f_equal. f_equal.
  induction l as [|x t IH]; simpl; [reflexivity|].
  destruct (q x); simpl; [destruct (p x)|]; now rewrite IH.
Qed.

(** X7.  [get_player], [player_summary] and [dominance] look at the same
    rows: on a well-formed table and a name that compiles, the two
    statistics answer "No data found" exactly when [get_player] returns no
    row; otherwise WeeksAtRank1 equals DaysAtRank1, both are the number of
    returned rows with Rank 1, and no count exceeds the number of returned
    rows. *)
Theorem player_endpoints_agree
    (re_compile : string -> option (string -> bool)) (df : Frame)
    (name : string) (format category : option string)
    (search : string -> bool) :
  well_formed df ->
  re_compile name = Some search ->
  exists found,
    get_player re_compile df name format category = Ok found
    /\ (found = [] ->
        player_summary re_compile df name format category
        = Ok (Message name "No data found")
        /\ dominance re_compile df name format category
           = Ok (Message name "No data found"))
    /\ (found <> [] ->
        exists s d,
          player_summary re_compile df name format category = Ok (Stats s)
          /\ dominance re_compile df name format category = Ok (Stats d)
          /\ WeeksAtRank1 s = dominance_DaysAtRank1 d
          /\ dominance_DaysAtRank1 d
             = count_where (fun r => Rank r =? 1) found
          /\ 0 <= dominance_DaysAtRank1 d
          /\ dominance_DaysInTop10 d <= Z.of_nat (List.length found)
          /\ summary_Format s = dominance_Format d
          /\ summary_Category s = dominance_Category d).
Proof.
  intros Hwf Hre.
  unfold get_player, player_summary, dominance.
  rewrite (player_data_rows re_compile df name format category search Hwf Hre).
  cbn [bind rows].
  set (data := player_rows search format category (rows df)).
  exists data. split; [reflexivity|]. split.
  - intros ->. split; reflexivity.
  - intros Hne.
    destruct data as [|r rs] eqn:E; [contradiction|]. cbn [empty].
    rewrite <- E in *. clear Hne.
    assert (well_formed (mkDataFrame (columns df) data)) as Hwf' by exact Hwf.
    columns_ok Hwf'. cbn [bind rows].
    destruct (idxmax_some (map (@Rating _) data)) as [i [m Hi]];
      [rewrite E; discriminate|].
    rewrite Hi.
    destruct (first_argmax_of_idxmax data i m Hi) as [peak [[Hn _] _]].
    rewrite Hn.
    eexists. eexists. split; [reflexivity|]. split; [reflexivity|].
    cbn [WeeksAtRank1 dominance_DaysAtRank1 dominance_DaysInTop10
         summary_Format dominance_Format summary_Category
         dominance_Category].
    unfold days_rank1, days_top10. rewrite !map_map.
    rewrite (mask_sum_count (fun r => Rank r =? 1)),
            (mask_sum_count (fun r => Rank r <=? 10)).
    split; [reflexivity|]. split; [reflexivity|].
    split; [apply count_where_bounds|].
    split; [apply count_where_bounds|]. split; reflexivity.
Qed.

Lemma player_endpoints_agree_witness :
  exists found,
    get_player Reference.re_compile Reference.table "sharma" None None
    = Ok found
    /\ (found = [] ->
        player_summary Reference.re_compile Reference.table "sharma" None None
        = Ok (Message "sharma" "No data found")
        /\ dominance Reference.re_compile Reference.table "sharma" None None
           = Ok (Message "sharma" "No data found"))
    /\ (found <> [] ->
        exists s d,
          player_summary Reference.re_compile Reference.table "sharma"
                         None None = Ok (Stats s)
          /\ dominance Reference.re_compile Reference.table "sharma"
                       None None = Ok (Stats d)
          /\ WeeksAtRank1 s = dominance_DaysAtRank1 d
          /\ dominance_DaysAtRank1 d
             = count_where (fun r => Rank r =? 1) found
          /\ 0 <= dominance_DaysAtRank1 d
          /\ dominance_DaysInTop10 d <= Z.of_nat (List.length found)
          /\ summary_Format s = dominance_Format d
          /\ summary_Category s = dominance_Category d).
Proof.
  apply (player_endpoints_agree Reference.re_compile Reference.table
           "sharma" None None (Reference.search "sharma")).
  - reflexivity.
  - reflexivity.
Defined.

(** X8.  The optional filters of [get_player] compose: on a well-formed
    table and a name that compiles, the answer for a Format and a Category
    is the answer without filters, in the same order, restricted to the
    rows the two filters let through; a filter that is absent or the empty
    string lets every row through, any other value only the rows whose
    cell is that value. *)
Theorem get_player_filters_compose
    (re_compile : string -> option (string -> bool)) (df : Frame)
    (name : string) (format category : option string)
    (search : string -> bool) :
  well_formed df ->
  re_compile name = Some search ->
  exists all,
    get_player re_compile df name None None = Ok all
    /\ get_player re_compile df name (Some "") (Some "") = Ok all
    /\ get_player re_compile df name format category
       = Ok (filter (fun r => lets_through format (Format r)
                              && lets_through category (Category r)) all).
Proof.
  intros Hwf Hre. unfold get_player.
  rewrite !(player_data_rows re_compile df name _ _ search Hwf Hre).
  cbn [bind rows]. eexists. split; [reflexivity|]. split; [reflexivity|].
  f_equal. unfold player_rows. rewrite filter_filter.
  apply filter_ext. intros r. cbn [lets_through].
  rewrite !andb_true_r. now rewrite andb_assoc.
Qed.

(** The players with an "a" in their name, then those of them in Tests. *)
Lemma get_player_filters_compose_witness :
  get_player Reference.re_compile Reference.table "a" None None
  = Ok [ mkRow (Some "Virat Kohli") "odi" "batting"
               (Some (mkTimestamp 2020 1 1 0)) 1 900;
         mkRow (Some "Rohit Sharma") "odi" "batting"
               (Some (mkTimestamp 2020 1 1 0)) 2 880;
         mkRow (Some "Virat Kohli") "odi" "batting"
               (Some (mkTimestamp 2020 6 1 0)) 3 850;
         mkRow (Some "Rohit Sharma") "odi" "batting"
               (Some (mkTimestamp 2020 6 1 0)) 1 900;
         mkRow (Some "Alastair Cook") "test" "batting" None 1 910 ]
  /\ get_player Reference.re_compile Reference.table "a" (Some "test")
                (Some "")
     = Ok [ mkRow (Some "Alastair Cook") "test" "batting" None 1 910 ]
  /\ get_player Reference.re_compile Reference.table "a" (Some "t20") None
     = Ok [].
Proof.
  destruct (get_player_filters_compose Reference.re_compile Reference.table
              "a" (Some "test") (Some "") (Reference.search "a")
              eq_refl eq_refl) as (all & H1 & _ & H2).
  destruct (get_player_filters_compose Reference.re_compile Reference.table
              "a" (Some "t20") None (Reference.search "a")
              eq_refl eq_refl) as (all' & H1' & _ & H3).
  rewrite H2, H3. rewrite H1 in H1'. injection H1' as <-.
  vm_compute in H1. injection H1 as <-.
  repeat split; reflexivity.
Defined.

(** ** Grouping by player *)

Lemma string_leb_trans (a b c : string) :
  String.leb a b = true -> String.leb b c = true -> String.leb a c = true.
Proof.
  unfold String.leb. revert b c.
  induction a as [|x a IH]; intros [|y b] [|z c]; simpl;
    try reflexivity; try discriminate.
  unfold Ascii.compare.
  destruct (N.compare_spec (N_of_ascii x) (N_of_ascii y));
    destruct (N.compare_spec (N_of_ascii y) (N_of_ascii z));
    destruct (N.compare_spec (N_of_ascii x) (N_of_ascii z));
    try reflexivity; try discriminate; try lia.
  apply IH.
Qed.

Lemma string_leb_false (a b : string) :
  String.leb a b = false -> String.leb b a = true.
Proof.
  intros H. destruct (String.leb_total a b) as [E|E]; [congruence | exact E].
Qed.

Lemma group_keys_In (players : list (option string)) (k : string) :
  In k (group_keys players) <-> In (Some k) players.
Proof.
  unfold group_keys. rewrite <- dropna_In.
  rewrite <- (unique_In (dropna players) k).
  split; apply Permutation_in;
    [|symmetry]; apply sort_by_perm.
Qed.

Lemma group_keys_NoDup (players : list (option string)) :
  NoDup (group_keys players).
Proof.
  unfold group_keys.
  apply (Permutation_NoDup (Permutation_sym (sort_by_perm _ _))).
  apply unique_NoDup.
Qed.

Lemma group_keys_sorted (players : list (option string)) :
  StronglySorted (fun a b => String.leb a b = true) (group_keys players).
Proof.
  apply Sorted_StronglySorted.
  - intros a b c. apply string_leb_trans.
  - unfold group_keys. apply sort_by_sorted with (before := String.leb).
    + auto.
    + apply string_leb_false.
Qed.

Lemma group_keys_length {D : Type} (rs : list (Row D)) :
  List.length (group_keys (map (@Player D) rs))
  = List.length (distinct_players rs).
Proof. unfold group_keys. apply Permutation_length, sort_by_perm. Qed.

Lemma groupby_agg_days_leader_of {D : Type} (data : list (Row D)) :
  groupby_agg_days data
  = map (leader_of data) (group_keys (map (@Player D) data)).
Proof.
  unfold groupby_agg_days, leader_of. apply map_ext. intros k.
  unfold days_rank1, days_top5, days_top10. rewrite !map_map.
  rewrite (mask_sum_count (fun r : Row D => Rank r =? 1)),
          (mask_sum_count (fun r : Row D => Rank r <=? 5)),
          (mask_sum_count (fun r : Row D => Rank r <=? 10)).
  now rewrite !count_where_filter.
Qed.

(** ** Stability of the leaderboard sort *)

Section Stable.

Variable A : Type.
Variable before : A -> A -> bool.
Variable S : A -> A -> Prop.
Hypothesis before_total : forall x y, before x y = false -> before y x = true.

Lemma insert_by_stable (x : A) (l : list A) :
  Sorted (stable_rel before S) l ->
  Forall (S x) l ->
  Sorted (stable_rel before S) (insert_by before x l).
Proof.
  induction l as [|y t IH]; simpl; intros Hs Hx.
  - constructor; constructor.
  - inversion Hx as [|? ? Hxy Hxt]; subst.
    destruct (before x y) eqn:E.
    + constructor; [exact Hs|]. constructor. split; [exact E | auto].
    + inversion Hs as [|? ? Ht Hhd]; subst.
      constructor; [now apply IH|].
      assert (stable_rel before S y x) as Hyx.
      { split; [now apply before_total | intros H; congruence]. }
      destruct t as [|z t']; simpl; [now constructor|].
      destruct (before x z); constructor; [exact Hyx | now inversion Hhd].
Qed.

Lemma sort_by_stable (l : list A) :
  StronglySorted S l -> Sorted (stable_rel before S) (sort_by before l).
Proof.
  induction 1 as [|x t Ht IH Hx]; simpl; [constructor|].
  apply insert_by_stable; [exact IH|].
  apply (Permutation_Forall (Permutation_sym (sort_by_perm before t))).
  exact Hx.
Qed.

End Stable.

Lemma days_geb_total (a b : Leader) :
  days_geb a b = false -> days_geb b a = true.
Proof.
  unfold days_geb.
  destruct (Z.ltb_spec (DaysAtRank1 b) (DaysAtRank1 a));
    destruct (Z.eqb_spec (DaysAtRank1 a) (DaysAtRank1 b));
    destruct (Z.ltb_spec (DaysAtRank1 a) (DaysAtRank1 b));
    destruct (Z.eqb_spec (DaysAtRank1 b) (DaysAtRank1 a));
    destruct (Z.ltb_spec (DaysInTop5 b) (DaysInTop5 a));
    destruct (Z.eqb_spec (DaysInTop5 a) (DaysInTop5 b));
    destruct (Z.ltb_spec (DaysInTop5 a) (DaysInTop5 b));
    destruct (Z.eqb_spec (DaysInTop5 b) (DaysInTop5 a));
    destruct (Z.leb_spec (DaysInTop10 b) (DaysInTop10 a));
    destruct (Z.leb_spec (DaysInTop10 a) (DaysInTop10 b));
    simpl; intros; try reflexivity; try discriminate; lia.
Qed.

Lemma same_days_geb (a b : Leader) : same_days a b -> days_geb b a = true.
Proof.
  intros [H1 [H2 H3]]. unfold days_geb. rewrite H1, H2, H3.
  rewrite !Z.eqb_refl, Z.leb_refl, !Z.ltb_irrefl. reflexivity.
Qed.

Lemma head_firstn {A : Type} (n : Z) (l : list A) :
  exists k, head n l = firstn k l.
Proof. unfold head. destruct (0 <=? n); eauto. Qed.

Lemma head_length {A : Type} (n : Z) (l : list A) :
  List.length (head n l)
  = if 0 <=? n then Nat.min (Z.to_nat n) (List.length l)
    else (List.length l - Z.to_nat (- n))%nat.
Proof.
  unfold head. destruct (0 <=? n); rewrite length_firstn; [reflexivity|].
  lia.
Qed.

Lemma StronglySorted_map {A B : Type} (f : A -> B) (R : B -> B -> Prop)
    (l : list A) :
  StronglySorted R (map f l) -> StronglySorted (fun a b => R (f a) (f b)) l.
Proof.
  induction l as [|x t IH]; simpl; intros H; [constructor|].
  inversion H as [|? ? Ht Hx]; subst.
  constructor; [now apply IH|].
  rewrite Forall_map in Hx. exact Hx.
Qed.

Lemma count_where_le {A : Type} (p q : A -> bool) (l : list A) :
  (forall x, p x = true -> q x = true) ->
  count_where p l <= count_where q l.
Proof.
  intros H. rewrite <- !mask_sum_count.
  induction l as [|x t IH]; simpl; [lia|].
  specialize (H x). destruct (p x), (q x); lia.
Qed.

(** ** Leaderboards, entry by entry *)

Lemma leaderboard_board (data : Frame) (top_n : Z) :
  well_formed data ->
  leaderboard data top_n
  = Ok (head top_n (sort_values_days (groupby_agg_days (rows data)))).
Proof. intros Hwf. unfold leaderboard. columns_ok Hwf. reflexivity. Qed.

Lemma groupby_agg_days_nil {D : Type} : groupby_agg_days (@nil (Row D)) = [].
Proof. reflexivity. Qed.

Lemma leaders_board (df : Frame) (format category : string) (top_n : Z) :
  well_formed df ->
  leaders df format category top_n
  = Ok (head top_n
          (sort_values_days
             (groupby_agg_days (filter (in_segment format category)
                                       (rows df))))).
Proof.
  intros Hwf. unfold leaders. rewrite (segment_rows df format category Hwf).
  cbn [bind rows]. fold (in_segment (D := option Timestamp) format category).
  destruct (filter (in_segment format category) (rows df)) as [|r rs] eqn:E;
    cbn [empty].
  - f_equal. symmetry. exact (head_nil top_n).
  - now rewrite leaderboard_board by exact Hwf.
Qed.

Lemma year_leaders_board (df : Frame) (year : Z) (format category : string)
    (top_n : Z) :
  well_formed df ->
  year_leaders df year format category top_n
  = Ok (head top_n
          (sort_values_days
             (groupby_agg_days
                (filter (in_segment_years format category
                                          (fun y => y =? year))
                        (rows df))))).
Proof.
  intros Hwf. unfold year_leaders.
  rewrite (segment_years_rows df format category _ Hwf). cbn [bind rows].
  destruct (filter _ (rows df)) as [|r rs] eqn:E; cbn [empty].
  - f_equal. symmetry. exact (head_nil top_n).
  - now rewrite leaderboard_board by exact Hwf.
Qed.

Lemma decade_leaders_board (df : Frame) (format category : string)
    (decade top_n : Z) :
  well_formed df ->
  let data :=
    filter (in_segment_years format category
              (fun y => (decade <=? y) && (y <=? decade + 9))) (rows df) in
  decade_leaders df format category decade top_n
  = if empty data then Ok DecadeEmpty
    else Ok (DecadeLeaders
               (PyStr.str_int decade ++ "s")%string format category
               (head top_n (sort_values_days (groupby_agg_days data)))).
Proof.
  intros Hwf data. unfold decade_leaders. columns_ok Hwf. cbn [bind].
  rewrite (decade_rows df format category decade). cbn [rows]. fold data.
  destruct data as [|r rs] eqn:E; cbn [empty]; [reflexivity|].
  now rewrite leaderboard_board by exact Hwf.
Qed.

(** What a board holds, in terms of the rows it was built from. *)
Lemma board_facts {D : Type} (data : list (Row D)) (top_n : Z) :
  let board := head top_n (sort_values_days (groupby_agg_days data)) in
  let P := List.length (distinct_players data) in
  NoDup (map leader board)
  /\ (forall l, In l board ->
                In (leader l) (distinct_players data)
                /\ l = leader_of data (leader l))
  /\ Sorted (stable_rel days_geb name_le) board
  /\ List.length board
     = (if 0 <=? top_n then Nat.min (Z.to_nat top_n) P
        else (P - Z.to_nat (- top_n))%nat)
  /\ (Z.of_nat P <= top_n ->
      forall p, In p (distinct_players data) ->
                In (leader_of data p) board).
Proof.
  intros board P. unfold board. rewrite groupby_agg_days_leader_of.
  set (keys := group_keys (map (@Player D) data)).
  set (board0 := map (leader_of data) keys).
  assert (Permutation (sort_values_days board0) board0) as Hperm
      by apply sort_by_perm.
  assert (map leader board0 = keys) as Hkeys.
  { unfold board0. rewrite map_map. apply map_id. }
  assert (forall k, In k keys <-> In k (distinct_players data)) as Hin.
  { intros k. unfold keys. rewrite group_keys_In.
    unfold distinct_players. now rewrite unique_In, dropna_In. }
  split; [|split; [|split; [|split]]].
  - destruct (head_firstn top_n (sort_values_days board0)) as [k ->].
    rewrite <- firstn_map. apply NoDup_firstn.
    apply (Permutation_NoDup
             (Permutation_sym (Permutation_map leader Hperm))).
    rewrite Hkeys. apply group_keys_NoDup.
  - intros l Hl. apply In_head in Hl. apply (Permutation_in _ Hperm) in Hl.
    unfold board0 in Hl. apply in_map_iff in Hl.
    destruct Hl as [k [<- Hk]]. cbn [leader_of leader].
    split; [now apply Hin | reflexivity].
  - apply Sorted_head. apply sort_by_stable; [exact days_geb_total|].
    apply (StronglySorted_map leader (fun a b => String.leb a b = true)).
    rewrite Hkeys. apply group_keys_sorted.
  - rewrite head_length, (Permutation_length Hperm). unfold board0.
    rewrite length_map. unfold keys. rewrite group_keys_length. reflexivity.
  - intros Hle p Hp. unfold head.
    destruct (Z.leb_spec 0 top_n) as [_|L]; [|lia].
    rewrite firstn_all2.
    + apply (Permutation_in _ (Permutation_sym Hperm)).
      unfold board0. apply in_map. now apply Hin.
    + rewrite (Permutation_length Hperm). unfold board0.
      rewrite length_map. unfold keys. rewrite group_keys_length.
      fold P. lia.
Qed.

Lemma leader_of_filter (keep : Record_ -> bool) (rs : list Record_)
    (k : string) :
  leader_of (filter keep rs) k
  = mkLeader k
      (count_where (fun r => keep r && (in_group k r && (Rank r =? 1))) rs)
      (count_where (fun r => keep r && (in_group k r && (Rank r <=? 5))) rs)
      (count_where (fun r => keep r && (in_group k r && (Rank r <=? 10))) rs).
Proof. unfold leader_of. now rewrite !count_where_filter. Qed.

Lemma leader_of_ordered {D : Type} (data : list (Row D)) (k : string) :
  DaysAtRank1 (leader_of data k) <= DaysInTop5 (leader_of data k)
  <= DaysInTop10 (leader_of data k).
Proof.
  cbn [leader_of DaysAtRank1 DaysInTop5 DaysInTop10].
  split; apply count_where_le; intros r H;
    apply andb_true_iff in H; destruct H as [-> H]; simpl.
  - apply Z.eqb_eq in H. apply Z.leb_le. lia.
  - apply Z.leb_le in H. apply Z.leb_le. lia.
Qed.

(** X9.  On a well-formed table every entry of [leaders] is a different
    player who has a row in the segment, and its three counts are the
    numbers of rows of the segment with that Player and Rank = 1, Rank <= 5
    and Rank <= 10; so each entry has DaysAtRank1 <= DaysInTop5 <=
    DaysInTop10. *)
Theorem leaders_entries (df : Frame) (format category : string) (top_n : Z) :
  well_formed df ->
  exists board,
    leaders df format category top_n = Ok board
    /\ NoDup (map leader board)
    /\ forall l, In l board ->
         (exists r, In r (rows df) /\ Format r = format
                    /\ Category r = category /\ Player r = Some (leader l))
         /\ DaysAtRank1 l
            = count_where (fun r => in_segment format category r
                                    && (in_group (leader l) r
                                        && (Rank r =? 1))) (rows df)
         /\ DaysInTop5 l
            = count_where (fun r => in_segment format category r
                                    && (in_group (leader l) r
                                        && (Rank r <=? 5))) (rows df)
         /\ DaysInTop10 l
            = count_where (fun r => in_segment format category r
                                    && (in_group (leader l) r
                                        && (Rank r <=? 10))) (rows df)
         /\ DaysAtRank1 l <= DaysInTop5 l <= DaysInTop10 l.
Proof.
  intros Hwf. rewrite (leaders_board df format category top_n Hwf).
  eexists. split; [reflexivity|].
  destruct (board_facts (filter (in_segment format category) (rows df)) top_n)
    as [Hnd [Hent _]].
  split; [exact Hnd|]. intros l Hl. destruct (Hent l Hl) as [Hp Heq].
  split.
  - apply distinct_players_In in Hp. destruct Hp as [r [Hr Hpl]].
    apply filter_In in Hr. destruct Hr as [Hr Hseg].
    apply andb_true_iff in Hseg. destruct Hseg as [Hf Hc].
    apply String.eqb_eq in Hf, Hc. now exists r.
  - assert (DaysAtRank1 l <= DaysInTop5 l <= DaysInTop10 l) as Hord
        by (rewrite Heq; apply leader_of_ordered).
    pose proof (f_equal DaysAtRank1 Heq) as H1.
    pose proof (f_equal DaysInTop5 Heq) as H5.
    pose proof (f_equal DaysInTop10 Heq) as H10.
    rewrite leader_of_filter in H1, H5, H10.
    cbn [DaysAtRank1 DaysInTop5 DaysInTop10] in H1, H5, H10.
    repeat (split; [assumption|]). exact Hord.
Qed.

Lemma leaders_entries_witness :
  exists board,
    leaders Reference.table "odi" "batting" 20 = Ok board
    /\ NoDup (map leader board)
    /\ forall l, In l board ->
         (exists r, In r (rows Reference.table) /\ Format r = "odi"
                    /\ Category r = "batting" /\ Player r = Some (leader l))
         /\ DaysAtRank1 l
            = count_where (fun r => in_segment "odi" "batting" r
                                    && (in_group (leader l) r
                                        && (Rank r =? 1)))
                          (rows Reference.table)
         /\ DaysInTop5 l
            = count_where (fun r => in_segment "odi" "batting" r
                                    && (in_group (leader l) r
                                        && (Rank r <=? 5)))
                          (rows Reference.table)
         /\ DaysInTop10 l
            = count_where (fun r => in_segment "odi" "batting" r
                                    && (in_group (leader l) r
                                        && (Rank r <=? 10)))
                          (rows Reference.table)
         /\ DaysAtRank1 l <= DaysInTop5 l <= DaysInTop10 l.
Proof.
  apply (leaders_entries Reference.table "odi" "batting" 20). reflexivity.
Defined.

(** X10.  On a well-formed table [leaders] lists min(top_n, P) players
    when top_n is not negative, P being the number of distinct players of
    the segment, and all but the last -top_n of them when top_n is
    negative; when top_n is at least P every player of the segment is
    listed. *)
Theorem leaders_length (df : Frame) (format category : string) (top_n : Z) :
  well_formed df ->
  let P := List.length (distinct_players
                          (filter (in_segment format category) (rows df))) in
  exists board,
    leaders df format category top_n = Ok board
    /\ List.length board
       = (if 0 <=? top_n then Nat.min (Z.to_nat top_n) P
          else (P - Z.to_nat (- top_n))%nat)
    /\ (Z.of_nat P <= top_n ->
        forall r p, In r (rows df) -> Format r = format ->
                    Category r = category -> Player r = Some p ->
                    exists l, In l board /\ leader l = p).
Proof.
  intros Hwf P. rewrite (leaders_board df format category top_n Hwf).
  eexists. split; [reflexivity|].
  destruct (board_facts (filter (in_segment format category) (rows df)) top_n)
    as [_ [_ [_ [Hlen Hall]]]].
  split; [exact Hlen|]. intros Hle r p Hr Hf Hc Hp.
  eexists. split.
  - apply (Hall Hle p). apply distinct_players_In. exists r.
    split; [|exact Hp]. apply filter_In. split; [exact Hr|].
    unfold in_segment. rewrite Hf, Hc, !String.eqb_refl. reflexivity.
  - reflexivity.
Qed.

Lemma leaders_length_witness :
  let P := List.length (distinct_players
                          (filter (in_segment "odi" "batting")
                                  (rows Reference.table))) in
  exists board,
    leaders Reference.table "odi" "batting" (-1) = Ok board
    /\ List.length board
       = (if 0 <=? -1 then Nat.min (Z.to_nat (-1)) P
          else (P - Z.to_nat (- -1))%nat)
    /\ (Z.of_nat P <= -1 ->
        forall r p, In r (rows Reference.table) -> Format r = "odi" ->
                    Category r = "batting" -> Player r = Some p ->
                    exists l, In l board /\ leader l = p).
Proof.
  apply (leaders_length Reference.table "odi" "batting" (-1)). reflexivity.
Defined.

Lemma stable_rel_ties (board : list Leader) :
  Sorted (stable_rel days_geb name_le) board ->
  adjacent (fun a b => same_days a b -> name_le a b) board.
Proof.
  intros Hs i a b Ha Hb Hsame.
  destruct (Sorted_adjacent _ _ Hs i a b Ha Hb) as [_ H].
  apply H. now apply same_days_geb.
Qed.

(** X11.  Players whose three counts are equal appear in ascending order
    of their names: in the answers of [leaders], [year_leaders] and
    [decade_leaders] on a well-formed table, two adjacent entries with the
    same counts have the name of the first at most the name of the
    second. *)
Theorem leaderboard_ties_by_name (df : Frame) (format category : string)
    (year decade top_n : Z) :
  well_formed df ->
  (exists board,
     leaders df format category top_n = Ok board
     /\ adjacent (fun a b => same_days a b -> name_le a b) board)
  /\ (exists board,
        year_leaders df year format category top_n = Ok board
        /\ adjacent (fun a b => same_days a b -> name_le a b) board)
  /\ (decade_leaders df format category decade top_n = Ok DecadeEmpty
      \/ exists label board,
           decade_leaders df format category decade top_n
           = Ok (DecadeLeaders label format category board)
           /\ adjacent (fun a b => same_days a b -> name_le a b) board).
Proof.
  intros Hwf. split; [|split].
  - rewrite (leaders_board df format category top_n Hwf).
    eexists. split; [reflexivity|].
    apply stable_rel_ties. apply board_facts.
  - rewrite (year_leaders_board df year format category top_n Hwf).
    eexists. split; [reflexivity|].
    apply stable_rel_ties. apply board_facts.
  - rewrite (decade_leaders_board df format category decade top_n Hwf).
    destruct (empty _); [now left | right].
    eexists. eexists. split; [reflexivity|].
    apply stable_rel_ties. apply board_facts.
Qed.

Lemma leaderboard_ties_by_name_witness :
  (exists board,
     leaders Reference.table "odi" "batting" 10 = Ok board
     /\ adjacent (fun a b => same_days a b -> name_le a b) board)
  /\ (exists board,
        year_leaders Reference.table 2020 "odi" "batting" 10 = Ok board
        /\ adjacent (fun a b => same_days a b -> name_le a b) board)
  /\ (decade_leaders Reference.table "odi" "batting" 2020 10 = Ok DecadeEmpty
      \/ exists label board,
           decade_leaders Reference.table "odi" "batting" 2020 10
           = Ok (DecadeLeaders label "odi" "batting" board)
           /\ adjacent (fun a b => same_days a b -> name_le a b) board).
Proof.
  apply (leaderboard_ties_by_name Reference.table "odi" "batting"
                                  2020 2020 10).
  reflexivity.
Defined.

Lemma in_segment_years_inv (format category : string) (in_years : Z -> bool)
    (r : Record_) :
  in_segment_years format category in_years r = true ->
  Format r = format /\ Category r = category
  /\ exists t, Date r = Some t /\ in_years (ts_year t) = true.
Proof.
  unfold in_segment_years. intros H.
  apply andb_true_iff in H. destruct H as [H Hd].
  apply andb_true_iff in H. destruct H as [Hf Hc].
  apply String.eqb_eq in Hf, Hc.
  destruct (Date r) as [t|]; [|discriminate].
  repeat (split; [assumption|]). now exists t.
Qed.

(** X12.  [year_leaders] counts the rows of the year only: on a
    well-formed table every entry is a player with a row of the segment
    dated in that year, and its three counts are the numbers of such rows
    of that player with Rank = 1, Rank <= 5 and Rank <= 10; rows whose
    Date did not parse are not counted. *)
Theorem year_leaders_entries (df : Frame) (year : Z)
    (format category : string) (top_n : Z) :
  well_formed df ->
  let in_year := in_segment_years format category (fun y => y =? year) in
  exists board,
    year_leaders df year format category top_n = Ok board
    /\ NoDup (map leader board)
    /\ forall l, In l board ->
         (exists r t, In r (rows df) /\ Format r = format
                      /\ Category r = category /\ Date r = Some t
                      /\ ts_year t = year /\ Player r = Some (leader l))
         /\ DaysAtRank1 l
            = count_where (fun r => in_year r && (in_group (leader l) r
                                                  && (Rank r =? 1))) (rows df)
         /\ DaysInTop5 l
            = count_where (fun r => in_year r && (in_group (leader l) r
                                                  && (Rank r <=? 5))) (rows df)
         /\ DaysInTop10 l
            = count_where (fun r => in_year r && (in_group (leader l) r
                                                  && (Rank r <=? 10)))
                          (rows df).
Proof.
  intros Hwf in_year.
  rewrite (year_leaders_board df year format category top_n Hwf).
  eexists. split; [reflexivity|]. fold in_year.
  destruct (board_facts (filter in_year (rows df)) top_n) as [Hnd [Hent _]].
  split; [exact Hnd|]. intros l Hl. destruct (Hent l Hl) as [Hp Heq].
  split.
  - apply distinct_players_In in Hp. destruct Hp as [r [Hr Hpl]].
    apply filter_In in Hr. destruct Hr as [Hr Hy].
    apply in_segment_years_inv in Hy.
    destruct Hy as [Hf [Hc [t [Ht Hyear]]]]. apply Z.eqb_eq in Hyear.
    now exists r, t.
  - pose proof (f_equal DaysAtRank1 Heq) as H1.
    pose proof (f_equal DaysInTop5 Heq) as H5.
    pose proof (f_equal DaysInTop10 Heq) as H10.
    rewrite leader_of_filter in H1, H5, H10.
    cbn [DaysAtRank1 DaysInTop5 DaysInTop10] in H1, H5, H10.
    repeat split; assumption.
Qed.

Lemma year_leaders_entries_witness :
  let in_year := in_segment_years "odi" "batting" (fun y => y =? 2020) in
  exists board,
    year_leaders Reference.table 2020 "odi" "batting" 10 = Ok board
    /\ NoDup (map leader board)
    /\ forall l, In l board ->
         (exists r t, In r (rows Reference.table) /\ Format r = "odi"
                      /\ Category r = "batting" /\ Date r = Some t
                      /\ ts_year t = 2020 /\ Player r = Some (leader l))
         /\ DaysAtRank1 l
            = count_where (fun r => in_year r && (in_group (leader l) r
                                                  && (Rank r =? 1)))
                          (rows Reference.table)
         /\ DaysInTop5 l
            = count_where (fun r => in_year r && (in_group (leader l) r
                                                  && (Rank r <=? 5)))
                          (rows Reference.table)
         /\ DaysInTop10 l
            = count_where (fun r => in_year r && (in_group (leader l) r
                                                  && (Rank r <=? 10)))
                          (rows Reference.table).
Proof.
  apply (year_leaders_entries Reference.table 2020 "odi" "batting" 10).
  reflexivity.
Defined.

(** X13.  [decade_leaders] answers the empty list exactly when no row of
    the segment is dated in the years decade .. decade + 9; otherwise it
    answers with the label made of the decade and "s", and every entry is
    a player with a row of the segment dated in those years, whose
    DaysAtRank1 is the number of such rows of that player with Rank 1. *)
Theorem decade_leaders_entries (df : Frame) (format category : string)
    (decade top_n : Z) :
  well_formed df ->
  let in_decade :=
    in_segment_years format category
                     (fun y => (decade <=? y) && (y <=? decade + 9)) in
  ((forall r, In r (rows df) -> in_decade r = false) ->
   decade_leaders df format category decade top_n = Ok DecadeEmpty)
  /\ ((exists r, In r (rows df) /\ in_decade r = true) ->
      exists board,
        decade_leaders df format category decade top_n
        = Ok (DecadeLeaders (PyStr.str_int decade ++ "s")%string
                            format category board)
        /\ NoDup (map leader board)
        /\ forall l, In l board ->
             (exists r t, In r (rows df) /\ Format r = format
                          /\ Category r = category /\ Date r = Some t
                          /\ decade <= ts_year t <= decade + 9
                          /\ Player r = Some (leader l))
             /\ DaysAtRank1 l
                = count_where (fun r => in_decade r
                                        && (in_group (leader l) r
                                            && (Rank r =? 1))) (rows df)).
Proof.
  intros Hwf in_decade.
  rewrite (decade_leaders_board df format category decade top_n Hwf).
  fold in_decade. split.
  - intros Hnone.
    assert (filter in_decade (rows df) = []) as ->; [|reflexivity].
    induction (rows df) as [|r t IH]; [reflexivity|]. simpl.
    rewrite (Hnone r) by now left.
    apply IH. intros r' Hr'. apply Hnone. now right.
  - intros [r0 [Hr0 Hd0]].
    destruct (filter in_decade (rows df)) as [|x xs] eqn:E.
    { assert (In r0 (filter in_decade (rows df))) as H
          by (apply filter_In; now split).
      rewrite E in H. destruct H. }
    cbn [empty]. rewrite <- E. eexists. split; [reflexivity|].
    destruct (board_facts (filter in_decade (rows df)) top_n)
      as [Hnd [Hent _]].
    split; [exact Hnd|]. intros l Hl. destruct (Hent l Hl) as [Hp Heq].
    split.
    + apply distinct_players_In in Hp. destruct Hp as [r [Hr Hpl]].
      apply filter_In in Hr. destruct Hr as [Hr Hy].
      apply in_segment_years_inv in Hy.
      destruct Hy as [Hf [Hc [t [Ht Hyear]]]].
      apply andb_true_iff in Hyear. destruct Hyear as [Y1 Y2].
      apply Z.leb_le in Y1, Y2. exists r, t.
      repeat (split; [assumption|]). split; [lia | exact Hpl].
    + pose proof (f_equal DaysAtRank1 Heq) as H1.
      rewrite leader_of_filter in H1. exact H1.
Qed.

Lemma decade_leaders_entries_witness :
  let in_decade :=
    in_segment_years "odi" "batting"
                     (fun y => (2020 <=? y) && (y <=? 2020 + 9)) in
  exists board,
    decade_leaders Reference.table "odi" "batting" 2020 10
    = Ok (DecadeLeaders "2020s" "odi" "batting" board)
    /\ NoDup (map leader board)
    /\ forall l, In l board ->
         (exists r t, In r (rows Reference.table) /\ Format r = "odi"
                      /\ Category r = "batting" /\ Date r = Some t
                      /\ 2020 <= ts_year t <= 2020 + 9
                      /\ Player r = Some (leader l))
         /\ DaysAtRank1 l
            = count_where (fun r => in_decade r
                                    && (in_group (leader l) r
                                        && (Rank r =? 1)))
                          (rows Reference.table).
Proof.
  intros in_decade.
  destruct (decade_leaders_entries Reference.table "odi" "batting" 2020 10
              eq_refl) as [_ H].
  apply H.
  exists (mkRow (Some "Virat Kohli") "odi" "batting"
                (Some (mkTimestamp 2020 1 1 0)) 1 900).
  split; [simpl; tauto | reflexivity].
Defined.

(** ** Snapshots at the latest date *)

Lemma ts_eqb_refl (t : Timestamp) : ts_eqb t t = true.
Proof. unfold ts_eqb, ts_compare. now rewrite !Z.compare_refl. Qed.

Lemma snapshot_at_rows (argsort : list Z -> list nat) (data : Frame)
    (last_date : option Timestamp) :
  well_formed data ->
  let snap := filter (fun r => date_eq (Date r) last_date) (rows data) in
  snapshot_at argsort data last_date
  = Ok (head 10 (take (argsort (map (@Rank _) snap)) snap)).
Proof.
  intros Hwf snap. unfold snapshot_at. columns_ok Hwf. cbn [bind].
  unfold top_n_by_rank, sort_values_Rank, loc_mask, dates_eq.
  rewrite map_map, (select_map (fun r => date_eq (Date r) last_date)).
  fold snap.
  rewrite getitem_ok
    by (apply well_formed_column; [exact Hwf | simpl; tauto]).
  reflexivity.
Qed.

(** The rows a snapshot keeps of [rs]: those at the latest parsed date. *)
Lemma snapshot_facts (argsort : list Z -> list nat) (rs : list Record_) :
  argsort_spec argsort ->
  let last := series_max (map (@Date _) rs) in
  let snap := filter (fun r => date_eq (Date r) last) rs in
  let top := head 10 (take (argsort (map (@Rank _) snap)) snap) in
  (List.length top <= 10)%nat
  /\ Sorted rank_le top
  /\ (forall r, In r top ->
        In r rs
        /\ exists t, Date r = Some t /\ last = Some t
                     /\ forall r' t', In r' rs -> Date r' = Some t' ->
                                      ts_leb t' t = true)
  /\ ((exists r t, In r rs /\ Date r = Some t) -> top <> []).
Proof.
  intros Hspec last snap top.
  destruct (Hspec (map (@Rank _) snap)) as [Hp Hs].
  rewrite length_map in Hp.
  set (sorted := take (argsort (map (@Rank _) snap)) snap) in *.
  assert (Permutation sorted snap) as Hperm by now apply take_perm.
  assert (Sorted rank_le sorted) as Hsorted.
  { apply Sorted_map. unfold sorted.
    rewrite take_map_nth with (d := 0); [exact Hs|].
    intros i Hi. apply (Permutation_in _ Hp) in Hi.
    apply in_seq in Hi. lia. }
  pose proof (series_max_latest (map (@Date _) rs)) as Hlast.
  fold last in Hlast.
  change top with (firstn 10 sorted).
  split; [apply firstn_le_length|].
  split; [now apply Sorted_firstn|]. split.
  - intros r Hr. apply In_firstn in Hr.
    apply (Permutation_in _ Hperm) in Hr.
    apply filter_In in Hr. destruct Hr as [Hin Hd].
    split; [exact Hin|].
    apply date_eq_eq in Hd. destruct Hd as [t [Ht Hl]].
    exists t. split; [exact Ht|]. split; [exact Hl|].
    intros r' t' Hr' Ht'. rewrite Hl in Hlast. destruct Hlast as [_ Hmax].
    apply Hmax. rewrite <- Ht'. now apply in_map.
  - intros [r [t [Hr Ht]]].
    destruct last as [m|] eqn:El.
    + destruct Hlast as [Hin _]. apply in_map_iff in Hin.
      destruct Hin as [r0 [Hd0 Hr0]].
      assert (In r0 snap) as Hsnap.
      { apply filter_In. split; [exact Hr0|]. rewrite Hd0. simpl.
        apply ts_eqb_refl. }
      apply (Permutation_in _ (Permutation_sym Hperm)) in Hsnap.
      destruct sorted as [|x xs]; [destruct Hsnap | discriminate].
    + specialize (Hlast (Date r) (in_map _ _ _ Hr)). congruence.
Qed.

Lemma yearly_top_rows (argsort : list Z -> list nat) (df : Frame)
    (year : Z) (format category : string) :
  well_formed df ->
  let rs := filter (in_segment_years format category (fun y => y =? year))
                   (rows df) in
  let last := series_max (map (@Date _) rs) in
  let snap := filter (fun r => date_eq (Date r) last) rs in
  yearly_top argsort df year format category
  = Ok (head 10 (take (argsort (map (@Rank _) snap)) snap)).
Proof.
  intros Hwf. cbv zeta.
  set (rs := filter (in_segment_years format category (fun y => y =? year))
                    (rows df)).
  unfold yearly_top.
  rewrite (segment_years_rows df format category _ Hwf). cbn [bind rows].
  fold rs.
  assert (rs = [] \/ empty rs = false) as [E|E]
      by (destruct rs; [now left | now right]).
  - rewrite E. cbn [empty filter map]. rewrite take_nil. reflexivity.
  - rewrite E.
    assert (well_formed (mkDataFrame (columns df) rs)) as Hwf' by exact Hwf.
    columns_ok Hwf'. cbn [bind rows].
    now rewrite (snapshot_at_rows argsort _ _ Hwf').
Qed.

(** X14.  [yearly_top] is the ranking at the end of the year: on a
    well-formed table and with an argsort that meets numpy's contract it
    returns at most 10 rows in ascending Rank, all of the segment and all
    dated at the latest date the segment has in that year; and it returns
    at least one row when the segment has a row dated in that year. *)
Theorem yearly_top_result (argsort : list Z -> list nat) (df : Frame)
    (year : Z) (format category : string) :
  argsort_spec argsort ->
  well_formed df ->
  exists top,
    yearly_top argsort df year format category = Ok top
    /\ (List.length top <= 10)%nat
    /\ Sorted rank_le top
    /\ (forall r, In r top ->
          In r (rows df) /\ Format r = format /\ Category r = category
          /\ exists t, Date r = Some t /\ ts_year t = year
               /\ forall r' t', In r' (rows df) -> Format r' = format ->
                                Category r' = category ->
                                Date r' = Some t' -> ts_year t' = year ->
                                ts_leb t' t = true)
    /\ ((exists r t, In r (rows df) /\ Format r = format
                     /\ Category r = category /\ Date r = Some t
                     /\ ts_year t = year) -> top <> []).
Proof.
  intros Hspec Hwf.
  rewrite (yearly_top_rows argsort df year format category Hwf).
  eexists. split; [reflexivity|].
  set (rs := filter (in_segment_years format category (fun y => y =? year))
                    (rows df)).
  destruct (snapshot_facts argsort rs Hspec) as [Hlen [Hs [Hin Hne]]].
  split; [exact Hlen|]. split; [exact Hs|].
  assert (forall r t, In r (rows df) -> Format r = format ->
                      Category r = category -> Date r = Some t ->
                      ts_year t = year -> In r rs) as Hrs.
  { intros r t Hr Hf Hc Ht Hy. apply filter_In. split; [exact Hr|].
    unfold in_segment_years. rewrite Hf, Hc, Ht, Hy.
    now rewrite !String.eqb_refl, Z.eqb_refl. }
  split.
  - intros r Hr. destruct (Hin r Hr) as [Hr' [t [Ht [_ Hmax]]]].
    apply filter_In in Hr'. destruct Hr' as [Hdf Hy].
    apply in_segment_years_inv in Hy.
    destruct Hy as [Hf [Hc [t0 [Ht0 Hyear]]]].
    rewrite Ht in Ht0. injection Ht0 as <-. apply Z.eqb_eq in Hyear.
    repeat (split; [assumption|]). exists t.
    repeat (split; [assumption|]).
    intros r' t' Hr'df Hf' Hc' Ht' Hy'.
    apply (Hmax r' t'); [|exact Ht']. now apply (Hrs r' t').
  - intros [r [t [Hr [Hf [Hc [Ht Hy]]]]]]. apply Hne.
    exists r, t. split; [now apply (Hrs r t) | exact Ht].
Qed.

Lemma yearly_top_result_witness :
  exists top,
    yearly_top Reference.argsort_stable Reference.table 2020 "odi" "batting"
    = Ok top
    /\ (List.length top <= 10)%nat
    /\ Sorted rank_le top
    /\ (forall r, In r top ->
          In r (rows Reference.table) /\ Format r = "odi"
          /\ Category r = "batting"
          /\ exists t, Date r = Some t /\ ts_year t = 2020
               /\ forall r' t', In r' (rows Reference.table) ->
                                Format r' = "odi" ->
                                Category r' = "batting" ->
                                Date r' = Some t' -> ts_year t' = 2020 ->
                                ts_leb t' t = true)
    /\ ((exists r t, In r (rows Reference.table) /\ Format r = "odi"
                     /\ Category r = "batting" /\ Date r = Some t
                     /\ ts_year t = 2020) -> top <> []).
Proof.
  apply (yearly_top_result Reference.argsort_stable Reference.table
           2020 "odi" "batting").
  - exact argsort_stable_spec.
  - reflexivity.
Defined.

Lemma latest_loop_rounds (argsort : list Z -> list nat) (df : Frame)
    (segs : list (string * string)) (results : list Snapshot) :
  well_formed df ->
  latest_loop argsort df segs results
  = Ok (results ++ flat_map (latest_round argsort (rows df)) segs).
Proof.
  intros Hwf. revert results.
  induction segs as [|[format category] segs IH]; intros results.
  - simpl. now rewrite app_nil_r.
  - cbn [latest_loop flat_map].
    rewrite (segment_rows df format category Hwf). cbn [bind rows].
    fold (in_segment (D := option Timestamp) format category).
    unfold latest_round. cbn [fst snd].
    set (subset := filter (in_segment format category) (rows df)).
    assert (subset = [] \/ empty subset = false) as [E|E]
        by (destruct subset; [now left | now right]).
    + rewrite E. cbn [empty]. rewrite IH. reflexivity.
    + rewrite E.
      assert (well_formed (mkDataFrame (columns df) subset)) as Hwf'
          by exact Hwf.
      columns_ok Hwf'. cbn [bind rows].
      rewrite (snapshot_at_rows argsort _ _ Hwf'). cbn [bind rows].
      rewrite IH. now rewrite <- app_assoc.
Qed.

(** X15.  [latest] goes through the segments odi/batting, odi/bowling,
    test/batting, test/bowling in this order and reports those that have a
    row, so at most four; on a well-formed table and with an argsort that
    meets numpy's contract, each report carries the latest parsed date of
    its segment as text ("NaT" when no date of the segment parsed) and at
    most 10 rows in ascending Rank, all of that segment and all dated at
    that latest date. *)
Theorem latest_result (argsort : list Z -> list nat) (df : Frame) :
  argsort_spec argsort ->
  well_formed df ->
  exists results,
    latest argsort df = Ok results
    /\ map (fun s => (snapshot_Format s, snapshot_Category s)) results
       = filter (has_rows (rows df)) segments
    /\ (List.length results <= 4)%nat
    /\ forall s, In s results ->
         let rs := filter (in_segment (snapshot_Format s)
                                      (snapshot_Category s)) (rows df) in
         snapshot_Date s = date_str (series_max (map (@Date _) rs))
         /\ (List.length (TopPlayers s) <= 10)%nat
         /\ Sorted rank_le (TopPlayers s)
         /\ forall r, In r (TopPlayers s) ->
              In r (rows df) /\ Format r = snapshot_Format s
              /\ Category r = snapshot_Category s
              /\ Date r = series_max (map (@Date _) rs)
              /\ Date r <> None.
Proof.
  intros Hspec Hwf. unfold latest.
  rewrite (latest_loop_rounds argsort df segments [] Hwf). cbn [app].
  eexists. split; [reflexivity|].
  assert (forall segs,
             map (fun s => (snapshot_Format s, snapshot_Category s))
                 (flat_map (latest_round argsort (rows df)) segs)
             = filter (has_rows (rows df)) segs) as Hsegs.
  { induction segs as [|[f c] segs IH]; [reflexivity|].
    cbn [flat_map filter]. rewrite map_app, IH.
    unfold latest_round, has_rows at 2. cbn [fst snd].
    destruct (empty (filter (in_segment f c) (rows df))); reflexivity. }
  split; [apply Hsegs|]. split.
  - rewrite <- (length_map (fun s => (snapshot_Format s, snapshot_Category s))).
    rewrite Hsegs. apply (filter_length_le (has_rows (rows df)) segments).
  - intros s Hs. apply in_flat_map in Hs.
    destruct Hs as [[f c] [_ Hs]]. unfold latest_round in Hs.
    cbn [fst snd] in Hs.
    destruct (empty (filter (in_segment f c) (rows df))); [destruct Hs|].
    destruct Hs as [<-|[]].
    cbn [snapshot_Format snapshot_Category snapshot_Date TopPlayers].
    set (rs := filter (in_segment f c) (rows df)).
    destruct (snapshot_facts argsort rs Hspec) as [Hlen [Hsort [Hin _]]].
    split; [reflexivity|]. split; [exact Hlen|]. split; [exact Hsort|].
    intros r Hr. destruct (Hin r Hr) as [Hr' [t [Ht [Hl _]]]].
    apply filter_In in Hr'. destruct Hr' as [Hdf Hseg].
    apply andb_true_iff in Hseg. destruct Hseg as [Hf Hc].
    apply String.eqb_eq in Hf, Hc.
    repeat (split; [assumption|]). split; congruence.
Qed.

Lemma latest_result_witness :
  exists results,
    latest Reference.argsort_stable Reference.table = Ok results
    /\ map (fun s => (snapshot_Format s, snapshot_Category s)) results
       = filter (has_rows (rows Reference.table)) segments
    /\ (List.length results <= 4)%nat
    /\ forall s, In s results ->
         let rs := filter (in_segment (snapshot_Format s)
                                      (snapshot_Category s))
                          (rows Reference.table) in
         snapshot_Date s = date_str (series_max (map (@Date _) rs))
         /\ (List.length (TopPlayers s) <= 10)%nat
         /\ Sorted rank_le (TopPlayers s)
         /\ forall r, In r (TopPlayers s) ->
              In r (rows Reference.table) /\ Format r = snapshot_Format s
              /\ Category r = snapshot_Category s
              /\ Date r = series_max (map (@Date _) rs)
              /\ Date r <> None.
Proof.
  apply (latest_result Reference.argsort_stable Reference.table).
  - exact argsort_stable_spec.
  - reflexivity.
Defined.

Example latest_segment_without_dates :
  latest Reference.argsort_stable Reference.table
  = Ok [ mkSnapshot "odi" "batting" "2020-06-01"
           [ mkRow (Some "Rohit Sharma") "odi" "batting"
                   (Some (mkTimestamp 2020 6 1 0)) 1 900;
             mkRow (Some "Virat Kohli") "odi" "batting"
                   (Some (mkTimestamp 2020 6 1 0)) 3 850;
             mkRow None "odi" "batting"
                   (Some (mkTimestamp 2020 6 1 0)) 4 700 ];
         mkSnapshot "test" "batting" "NaT" [] ].
Proof. vm_compute. reflexivity. Qed.

(** ** The leaders summary *)

Lemma map_nth_seq {A : Type} (l : list A) (d : A) :
  map (fun i => nth i l d) (seq 0 (List.length l)) = l.
Proof.
  assert (forall i, In i (seq 0 (List.length l)) -> (i < List.length l)%nat)
    as H by (intros i Hi; apply in_seq in Hi; lia).
  pose proof (take_map_nth (fun x => x) d (seq 0 (List.length l)) l H) as E.
  rewrite !map_id, take_seq in E. now symmetry.
Qed.

Lemma StronglySorted_snoc {A : Type} (R : A -> A -> Prop) (l : list A)
    (x : A) :
  StronglySorted R l -> Forall (fun y => R y x) l ->
  StronglySorted R (l ++ [x]).
Proof.
  induction 1 as [|y t Ht IH Hy]; intros Hx; simpl.
  - constructor; constructor.
  - inversion Hx as [|? ? Hyx Htx]; subst.
    constructor; [now apply IH|].
    apply Forall_app. split; [exact Hy | now constructor].
Qed.

Lemma Sorted_rev_ge (l : list Z) : Sorted Z.le l -> Sorted Z.ge (rev l).
Proof.
  intros H. apply Sorted_StronglySorted in H; [|intros x y z; lia].
  apply StronglySorted_Sorted.
  induction H as [|x t Ht IH Hx]; simpl; [constructor|].
  apply StronglySorted_snoc; [exact IH|].
  apply Forall_rev. revert Hx. apply Forall_impl. intros y. lia.
Qed.

Lemma Sorted_map_rel {A B : Type} (f : A -> B) (R : B -> B -> Prop)
    (l : list A) :
  Sorted R (map f l) -> Sorted (fun a b => R (f a) (f b)) l.
Proof.
  induction l as [|x t IH]; simpl; intros H; [constructor|].
  inversion H as [|? ? Ht Hhd]; subst.
  constructor; [now apply IH|].
  destruct t; [constructor|]. constructor. now inversion Hhd.
Qed.

(** With an argsort that meets numpy's contract, the descending sort on
    one column rearranges the board and makes DaysAtRank1 descend. *)
Lemma sort_values_DaysAtRank1_sorted (argsort : list Z -> list nat)
    (board : list (string * Z)) :
  argsort_spec argsort ->
  Permutation (sort_values_DaysAtRank1 argsort board) board
  /\ Sorted rank1_ge (sort_values_DaysAtRank1 argsort board).
Proof.
  intros Hspec. unfold sort_values_DaysAtRank1.
  set (items := map snd board).
  set (n := List.length items).
  set (idx := seq 0 n).
  set (A := argsort (rev items)).
  destruct (Hspec (rev items)) as [Hp Hs]. fold A in Hp, Hs.
  rewrite length_rev in Hp. fold n in Hp.
  assert (List.length (rev idx) = n) as Hlen
      by (unfold idx; now rewrite length_rev, length_seq).
  assert (forall k, In k A -> (k < n)%nat) as HA.
  { intros k Hk. apply (Permutation_in _ Hp) in Hk.
    apply in_seq in Hk. lia. }
  set (T := take A (rev idx)).
  assert (Permutation T (rev idx)) as HT
      by (apply take_perm; now rewrite Hlen).
  assert (Permutation (rev T) (seq 0 (List.length board))) as Hidx.
  { rewrite <- (Permutation_rev T), HT, <- (Permutation_rev idx).
    unfold idx, n, items. now rewrite length_map. }
  split; [now apply take_perm|].
  apply (Sorted_map_rel (@snd string Z) Z.ge).
  rewrite take_map_nth with (d := 0).
  - fold items. rewrite map_rev.
    apply Sorted_rev_ge.
    unfold T.
    rewrite (take_map_nth (fun i => nth i items 0) 0 A (rev idx))
      by (intros k Hk; rewrite Hlen; now apply HA).
    rewrite map_rev. unfold idx, n. rewrite map_nth_seq. exact Hs.
  - intros i Hi. apply (Permutation_in _ Hidx) in Hi.
    apply in_seq in Hi. lia.
Qed.

Lemma groupby_agg_rank1_counts (data : list Record_) :
  groupby_agg_rank1 data
  = map (fun k => (k, count_where (fun r => in_group k r && (Rank r =? 1))
                                  data))
        (group_keys (map (@Player _) data)).
Proof.
  unfold groupby_agg_rank1. apply map_ext. intros k. f_equal.
  unfold days_rank1. rewrite map_map.
  rewrite (mask_sum_count (fun r : Record_ => Rank r =? 1)).
  apply count_where_filter.
Qed.

Lemma leaders_summary_loop_rounds (argsort : list Z -> list nat)
    (df : Frame) (top_n : Z) (segs : list (string * string))
    (summary : list SegmentLeaders) :
  well_formed df ->
  leaders_summary_loop argsort df top_n segs summary
  = Ok (summary
        ++ flat_map (leaders_summary_round argsort top_n (rows df)) segs).
Proof.
  intros Hwf. revert summary.
  induction segs as [|[format category] segs IH]; intros summary.
  - simpl. now rewrite app_nil_r.
  - cbn [leaders_summary_loop flat_map].
    rewrite (segment_rows df format category Hwf). cbn [bind rows].
    fold (in_segment (D := option Timestamp) format category).
    unfold leaders_summary_round. cbn [fst snd].
    set (subset := filter (in_segment format category) (rows df)).
    assert (subset = [] \/ empty subset = false) as [E|E]
        by (destruct subset; [now left | now right]).
    + rewrite E. cbn [empty]. rewrite IH. reflexivity.
    + rewrite E.
      assert (well_formed (mkDataFrame (columns df) subset)) as Hwf'
          by exact Hwf.
      columns_ok Hwf'. cbn [bind rows].
      rewrite IH. now rewrite <- app_assoc.
Qed.

(** X16.  [leaders_summary] reports the segments that have a row, in the
    order of the loops; on a well-formed table and with an argsort that
    meets numpy's contract, each board lists different players of its
    segment, each with the number of rows of the segment in which the
    player has Rank 1, in descending order of that number. *)
Theorem leaders_summary_result (argsort : list Z -> list nat) (df : Frame)
    (top_n : Z) :
  argsort_spec argsort ->
  well_formed df ->
  exists summary,
    leaders_summary argsort df top_n = Ok summary
    /\ map (fun s => (segment_Format s, segment_Category s)) summary
       = filter (has_rows (rows df)) segments
    /\ forall s, In s summary ->
         adjacent rank1_ge (segment_Leaders s)
         /\ NoDup (map fst (segment_Leaders s))
         /\ forall p d, In (p, d) (segment_Leaders s) ->
              (exists r, In r (rows df) /\ Format r = segment_Format s
                         /\ Category r = segment_Category s
                         /\ Player r = Some p)
              /\ d = count_where
                       (fun r => in_segment (segment_Format s)
                                            (segment_Category s) r
                                 && (in_group p r && (Rank r =? 1)))
                       (rows df).
Proof.
  intros Hspec Hwf. unfold leaders_summary.
  rewrite (leaders_summary_loop_rounds argsort df top_n segments [] Hwf).
  cbn [app]. eexists. split; [reflexivity|]. split.
  - induction segments as [|[f c] segs IH]; [reflexivity|].
    cbn [flat_map filter]. rewrite map_app, IH.
    unfold leaders_summary_round, has_rows at 2. cbn [fst snd].
    destruct (empty (filter (in_segment f c) (rows df))); reflexivity.
  - intros s Hs. apply in_flat_map in Hs.
    destruct Hs as [[f c] [_ Hs]]. unfold leaders_summary_round in Hs.
    cbn [fst snd] in Hs.
    destruct (empty (filter (in_segment f c) (rows df))); [destruct Hs|].
    destruct Hs as [<-|[]].
    cbn [segment_Format segment_Category segment_Leaders].
    set (subset := filter (in_segment f c) (rows df)).
    set (board := groupby_agg_rank1 subset).
    destruct (sort_values_DaysAtRank1_sorted argsort board Hspec)
      as [Hperm Hsorted].
    assert (NoDup (map fst board)) as Hnd.
    { unfold board. rewrite groupby_agg_rank1_counts, map_map.
      cbn [fst]. rewrite map_id. apply group_keys_NoDup. }
    split; [|split].
    + apply Sorted_adjacent, Sorted_head. exact Hsorted.
    + destruct (head_firstn top_n (sort_values_DaysAtRank1 argsort board))
        as [k ->].
      rewrite <- firstn_map. apply NoDup_firstn.
      apply (Permutation_NoDup
               (Permutation_sym (Permutation_map fst Hperm))).
      exact Hnd.
    + intros p d Hpd. apply In_head in Hpd.
      apply (Permutation_in _ Hperm) in Hpd. unfold board in Hpd.
      rewrite groupby_agg_rank1_counts in Hpd. apply in_map_iff in Hpd.
      destruct Hpd as [k [Hk Hin]]. injection Hk as <- <-. split.
      * apply group_keys_In, in_map_iff in Hin.
        destruct Hin as [r [Hp Hr]]. apply filter_In in Hr.
        destruct Hr as [Hr Hseg].
        apply andb_true_iff in Hseg. destruct Hseg as [Hf Hc].
        apply String.eqb_eq in Hf, Hc. now exists r.
      * unfold subset. apply count_where_filter.
Qed.

Lemma leaders_summary_result_witness :
  exists summary,
    leaders_summary Reference.argsort_reversing Reference.table 5 = Ok summary
    /\ map (fun s => (segment_Format s, segment_Category s)) summary
       = filter (has_rows (rows Reference.table)) segments
    /\ forall s, In s summary ->
         adjacent rank1_ge (segment_Leaders s)
         /\ NoDup (map fst (segment_Leaders s))
         /\ forall p d, In (p, d) (segment_Leaders s) ->
              (exists r, In r (rows Reference.table)
                         /\ Format r = segment_Format s
                         /\ Category r = segment_Category s
                         /\ Player r = Some p)
              /\ d = count_where
                       (fun r => in_segment (segment_Format s)
                                            (segment_Category s) r
                                 && (in_group p r && (Rank r =? 1)))
                       (rows Reference.table).
Proof.
  apply (leaders_summary_result Reference.argsort_reversing
                                Reference.table 5).
  - exact argsort_reversing_spec.
  - reflexivity.
Defined.

(** ** Refresh, as a whole *)

(** X17.  A refresh replaces the table wholesale: whatever [df] was bound
    to before, afterwards it is bound to the fetched table with its dates
    parsed, or to the empty frame when the fetch failed or the file has no
    Date column; nothing of the old table is kept, and the answer is
    "Data refreshed" in every case. *)
Theorem refresh_replaces
    (to_datetime_in : list (option string) -> string -> option Timestamp)
    (s : Store) (r : Fetch) :
  snd (refresh to_datetime_in s r) = "Data refreshed"
  /\ current (fst (refresh to_datetime_in s r))
     = Some (Parsed match r with
                    | FetchFails => pd_DataFrame
                    | Fetched csv =>
                        if has_column csv "Date"
                        then parse_dates to_datetime_in csv
                        else pd_DataFrame
                    end)
  /\ forall s0, current (fst (refresh to_datetime_in s0 r))
                = current (fst (refresh to_datetime_in s r)).
Proof.
  assert (forall s1,
             current (load_data to_datetime_in s1 r)
             = Some (Parsed match r with
                            | FetchFails => pd_DataFrame
                            | Fetched csv =>
                                if has_column csv "Date"
                                then parse_dates to_datetime_in csv
                                else pd_DataFrame
                            end)) as H.
  { intros s1. destruct r as [|csv].
    - apply current_rebind.
    - destruct (has_column csv "Date") eqn:E.
      + now apply load_data_fetched.
      + now apply load_data_no_Date. }
  split; [reflexivity|]. split; [apply H|].
  intros s0. cbn [refresh fst]. now rewrite !H.
Qed.

Lemma parse_dates_well_formed
    (to_datetime_in : list (option string) -> string -> option Timestamp)
    (csv : RawFrame) :
  well_formed csv -> well_formed (parse_dates to_datetime_in csv).
Proof. intros H. exact H. Qed.

(** X18.  After a file with the six columns has been loaded, the table has
    as many rows as the file and no request fails for a missing column:
    [search], [leaders], [get_top] and (for a name that compiles)
    [get_player] all answer. *)
Theorem loaded_table_answers
    (to_datetime_in : list (option string) -> string -> option Timestamp)
    (re_compile : string -> option (string -> bool))
    (argsort : list Z -> list nat)
    (to_datetime : string -> option Timestamp)
    (s : Store) (csv : RawFrame)
    (query name date format category : string) (top_n : Z) :
  well_formed csv ->
  re_compile name <> None ->
  exists df,
    current (load_data to_datetime_in s (Fetched csv)) = Some (Parsed df)
    /\ List.length (rows df) = List.length (rows csv)
    /\ (exists matches, search df query = Ok matches)
    /\ (exists board, leaders df format category top_n = Ok board)
    /\ (exists top, get_top argsort to_datetime df date format category
                    = Ok top)
    /\ (exists found, get_player re_compile df name None None = Ok found).
Proof.
  intros Hwf Hre.
  pose proof (parse_dates_well_formed to_datetime_in csv Hwf) as Hwf'.
  exists (parse_dates to_datetime_in csv). split.
  - apply load_data_fetched. apply well_formed_column; [exact Hwf|].
    simpl. tauto.
  - split; [unfold parse_dates; cbn [rows]; apply length_map|].
    split.
    + unfold search. columns_ok Hwf'. cbn [bind]. eauto.
    + split; [rewrite (leaders_board _ format category top_n Hwf'); eauto|].
      split; [rewrite (get_top_rows argsort to_datetime _ date format
                                    category Hwf'); eauto|].
      destruct (re_compile name) as [search|] eqn:E; [|contradiction].
      unfold get_player.
      rewrite (player_data_rows re_compile _ name None None search Hwf' E).
      cbn [bind]. eauto.
Qed.

Lemma loaded_table_answers_witness :
  exists df,
    current (load_data Reference.to_datetime_in initial
                       (Fetched Reference.csv)) = Some (Parsed df)
    /\ List.length (rows df) = List.length (rows Reference.csv)
    /\ (exists matches, search df "koh" = Ok matches)
    /\ (exists board, leaders df "odi" "batting" 20 = Ok board)
    /\ (exists top, get_top Reference.argsort_stable Reference.to_datetime
                            df "2020-01-01" "odi" "batting" = Ok top)
    /\ (exists found, get_player Reference.re_compile df "kohli" None None
                      = Ok found).
Proof.
  apply (loaded_table_answers Reference.to_datetime_in Reference.re_compile
           Reference.argsort_stable Reference.to_datetime initial
           Reference.csv "koh" "kohli" "2020-01-01" "odi" "batting" 20).
  - reflexivity.
  - discriminate.
Defined.

(** ** Search and the case of the query *)

Lemma contains_empty (s : string) : PyStr.contains "" s = true.
Proof. destruct s; reflexivity. Qed.

(** X19.  [search] ignores the case of the query: on ASCII text, two
    queries that are the same text up to case get the same answer; and the
    empty query finds every player, so the answer is the first 20 distinct
    non-null players in order of first appearance. *)
Theorem search_case_and_empty (df : Frame) (q1 q2 : string) :
  ascii_only q1 = true ->
  ascii_only q2 = true ->
  ascii_players (rows df) = true ->
  same_text q1 q2 = true ->
  search df q1 = search df q2
  /\ (has_column df "Player" = true ->
      search df "" = Ok (firstn 20 (distinct_players (rows df)))).
Proof.
  intros _ _ _ Hq. split.
  - apply lower_same_text in Hq. unfold search. now rewrite Hq.
  - intros Hc. unfold search. rewrite getitem_ok by exact Hc. cbn [bind].
    fold (distinct_players (rows df)). f_equal. f_equal.
    apply forallb_filter_id. apply forallb_forall.
    intros p _. apply contains_empty.
Qed.

Lemma search_case_and_empty_witness :
  search Reference.table "kOh" = Ok ["Virat Kohli"]
  /\ search Reference.table "KoH" = Ok ["Virat Kohli"]
  /\ search Reference.table ""
     = Ok ["Virat Kohli"; "Rohit Sharma"; "Alastair Cook"].
Proof.
  destruct (search_case_and_empty Reference.table "kOh" "KoH"
              eq_refl eq_refl eq_refl eq_refl) as [H1 H2].
  split; [rewrite H1; reflexivity|].
  split; [reflexivity|].
  rewrite (H2 eq_refl). reflexivity.
Defined.

(** ** The names given to compare *)

(** The characters [strip] removes are the ten ASCII blanks. *)
Lemma is_space_blank (c : ascii) : PyStr.is_space c = blank c.
Proof. destruct c as [[] [] [] [] [] [] [] []]; reflexivity. Qed.

Lemma lstrip_starts (s : string) :
  starts_with_space (PyStr.lstrip s) = false.
Proof.
  induction s as [|c t IH]; simpl; [reflexivity|].
  destruct (PyStr.is_space c) eqn:E; [exact IH|].
  simpl. now rewrite <- is_space_blank.
Qed.

Lemma rstrip_starts (s : string) :
  starts_with_space s = false -> starts_with_space (PyStr.rstrip s) = false.
Proof.
  destruct s as [|c t]; simpl; [reflexivity|]. intros E.
  rewrite <- is_space_blank in E.
  destruct (PyStr.rstrip t); simpl; rewrite ?E; simpl;
    now rewrite <- ?is_space_blank.
Qed.

Lemma rstrip_ends (s : string) : ends_with_space (PyStr.rstrip s) = false.
Proof.
  induction s as [|c t IH]; simpl; [reflexivity|].
  destruct (PyStr.rstrip t) as [|c' t'] eqn:E.
  - destruct (PyStr.is_space c) eqn:Ec; simpl; [reflexivity|].
    now rewrite <- is_space_blank.
  - simpl in *. exact IH.
Qed.

Lemma split_comma_length (s : string) :
  List.length (PyStr.split_comma s) = S (commas s).
Proof.
  induction s as [|c t IH]; simpl; [reflexivity|].
  destruct (Ascii.eqb c ","); simpl; [now rewrite IH|].
  destruct (PyStr.split_comma t); simpl in *; [discriminate | exact IH].
Qed.

(** Splitting and stripping ASCII text gives ASCII text. *)
Lemma split_comma_ascii (s : string) :
  ascii_only s = true ->
  forall p, In p (PyStr.split_comma s) -> ascii_only p = true.
Proof.
  induction s as [|c t IH]; simpl.
  - intros _ p [<-|[]]. reflexivity.
  - intros H. apply andb_true_iff in H. destruct H as [Hc Ht].
    specialize (IH Ht).
    destruct (Ascii.eqb c ",").
    + intros p [<-|Hp]; [reflexivity | now apply IH].
    + destruct (PyStr.split_comma t) as [|q qs].
      * intros p [<-|[]]. simpl. now rewrite Hc.
      * intros p [<-|Hp].
        -- simpl. rewrite Hc. apply IH. now left.
        -- apply IH. now right.
Qed.

Lemma lstrip_ascii (s : string) :
  ascii_only s = true -> ascii_only (PyStr.lstrip s) = true.
Proof.
  induction s as [|c t IH]; simpl; [reflexivity|]. intros H.
  destruct (PyStr.is_space c); [|exact H].
  apply andb_true_iff in H. now apply IH.
Qed.

Lemma rstrip_ascii (s : string) :
  ascii_only s = true -> ascii_only (PyStr.rstrip s) = true.
Proof.
  induction s as [|c t IH]; simpl; [reflexivity|]. intros H.
  apply andb_true_iff in H. destruct H as [Hc Ht]. specialize (IH Ht).
  destruct (PyStr.rstrip t) as [|c' t'].
  - destruct (PyStr.is_space c); simpl; [reflexivity | now rewrite Hc].
  - cbn [ascii_only]. rewrite Hc. exact IH.
Qed.

(** X20.  For an ASCII list of players, the names [compare] looks for are
    the pieces between the commas with the whitespace at both ends removed:
    on a well-formed table, when they all compile, every key of the answer
    is ASCII text that neither begins nor ends with whitespace, and there
    are at most one more keys than commas. *)
Theorem compare_names_stripped
    (re_compile : string -> option (string -> bool)) (df : Frame)
    (players format category : string) :
  well_formed df ->
  ascii_only players = true ->
  (forall name, In name (map PyStr.strip (PyStr.split_comma players)) ->
                re_compile name <> None) ->
  exists result,
    compare re_compile df players format category = Ok result
    /\ (List.length result <= S (commas players))%nat
    /\ forall k, In k (map fst result) ->
                 ascii_only k = true
                 /\ starts_with_space k = false
                 /\ ends_with_space k = false.
Proof.
  intros Hwf Hascii Hall. unfold compare.
  set (names := map PyStr.strip (PyStr.split_comma players)) in *.
  rewrite (compare_loop_fold re_compile df format category names [] Hwf Hall).
  eexists. split; [reflexivity|].
  destruct (dict_fold_keys
              (fun name => compared re_compile format category name (rows df))
              names [] (NoDup_nil _)) as [Hnd Hkeys].
  split.
  - rewrite <- (length_map fst).
    transitivity (List.length names).
    + apply NoDup_incl_length; [exact Hnd|].
      intros k Hk. apply Hkeys in Hk. destruct Hk as [Hk|[]]. exact Hk.
    + unfold names. now rewrite length_map, split_comma_length.
  - intros k Hk. apply Hkeys in Hk. destruct Hk as [Hk|[]].
    unfold names in Hk. apply in_map_iff in Hk. destruct Hk as [p [<- Hp]].
    unfold PyStr.strip. split; [|split].
    + apply rstrip_ascii, lstrip_ascii.
      now apply (split_comma_ascii players).
    + apply rstrip_starts, lstrip_starts.
    + apply rstrip_ends.
Qed.

(** Blanks around the names and an empty piece at the end. *)
Lemma compare_names_stripped_witness :
  exists result,
    compare Reference.re_compile Reference.table "  kohli , sharma  ,"
            "odi" "batting" = Ok result
    /\ map fst result = ["kohli"; "sharma"; ""]
    /\ forall k, In k (map fst result) ->
                 ascii_only k = true
                 /\ starts_with_space k = false
                 /\ ends_with_space k = false.
Proof.
  destruct (compare_names_stripped Reference.re_compile Reference.table
              "  kohli , sharma  ," "odi" "batting" eq_refl eq_refl)
    as (result & Hc & _ & Hk).
  - intros name Hn. simpl in Hn.
    destruct Hn as [<-|[<-|[<-|[]]]]; discriminate.
  - exists result. split; [exact Hc|]. split; [|exact Hk].
    vm_compute in Hc. injection Hc as <-. reflexivity.
Defined.

(** ** The yearly top 10 and the top 10 on a date *)

Lemma filter_filter_and {A : Type} (p q : A -> bool) (l : list A) :
  filter p (filter q l) = filter (fun x => q x && p x) l.
Proof.
  induction l as [|x t IH]; simpl; [reflexivity|].
  destruct (q x); simpl; [destruct (p x)|]; now rewrite IH.
Qed.

(** X21.  [yearly_top] is [get_top] on the last date of the year: on a
    well-formed table, when the query date parses to the latest date the
    segment has in the year, the two endpoints give the same answer. *)
Theorem yearly_top_is_get_top (argsort : list Z -> list nat)
    (to_datetime : string -> option Timestamp) (df : Frame)
    (year : Z) (date format category : string) (t : Timestamp) :
  well_formed df ->
  series_max (map (@Date _)
                  (filter (in_segment_years format category
                                            (fun y => y =? year))
                          (rows df))) = Some t ->
  to_datetime date = Some t ->
  yearly_top argsort df year format category
  = get_top argsort to_datetime df date format category.
Proof.
  intros Hwf Hmax Hdate.
  rewrite (yearly_top_rows argsort df year format category Hwf).
  rewrite (get_top_rows argsort to_datetime df date format category Hwf).
  rewrite Hmax, Hdate, filter_filter_and.
  assert (ts_year t = year) as Hyear.
  { pose proof (series_max_latest
                  (map (@Date _)
                       (filter (in_segment_years format category
                                                 (fun y => y =? year))
                               (rows df)))) as H.
    rewrite Hmax in H. destruct H as [H _].
    apply in_map_iff in H. destruct H as [r [Hd Hr]].
    apply filter_In in Hr. destruct Hr as [_ Hr].
    apply in_segment_years_inv in Hr.
    destruct Hr as [_ [_ [t0 [Ht0 Hy]]]].
    rewrite Hd in Ht0. injection Ht0 as E0. subst t0. now apply Z.eqb_eq. }
  assert (forall r : Record_,
             in_segment_years format category (fun y => y =? year) r
             && date_eq (Date r) (Some t)
             = String.eqb (Format r) format
               && String.eqb (Category r) category
               && date_eq (Date r) (Some t)) as Hext.
  { intros r. unfold in_segment_years.
    destruct (Date r) as [t'|]; simpl; [|now rewrite !andb_false_r].
    destruct (ts_eqb t' t) eqn:E; [|now rewrite !andb_false_r].
    apply ts_eqb_eq in E. subst t'. rewrite Hyear, Z.eqb_refl.
    now rewrite !andb_true_r. }
  rewrite (filter_ext _ _ Hext). reflexivity.
Qed.

Lemma yearly_top_is_get_top_witness :
  yearly_top Reference.argsort_stable Reference.table 2020 "odi" "batting"
  = get_top Reference.argsort_stable Reference.to_datetime Reference.table
            "2020-06-01" "odi" "batting".
Proof.
  apply (yearly_top_is_get_top Reference.argsort_stable
           Reference.to_datetime Reference.table 2020 "2020-06-01"
           "odi" "batting" (mkTimestamp 2020 6 1 0)).
  - reflexivity.
  - reflexivity.
  - reflexivity.
Defined.

(** ** Grouping loses and repeats no row *)

Lemma total_app (l1 l2 : list Z) : total (l1 ++ l2) = total l1 + total l2.
Proof. unfold total. induction l1 as [|x t IH]; simpl; lia. Qed.

Lemma total_perm (l1 l2 : list Z) : Permutation l1 l2 -> total l1 = total l2.
Proof.
  unfold total. induction 1; simpl; lia.
Qed.

Lemma total_add {A : Type} (f g : A -> Z) (l : list A) :
  total (map (fun k => f k + g k) l) = total (map f l) + total (map g l).
Proof. unfold total. induction l as [|x t IH]; simpl; lia. Qed.

Lemma total_indicator (keys : list string) (k0 : string) :
  NoDup keys ->
  total (map (fun k => if String.eqb k0 k then 1 else 0) keys)
  = if in_dec string_dec k0 keys then 1 else 0.
Proof.
  unfold total. induction 1 as [|k t Hk Ht IH]; simpl; [reflexivity|].
  rewrite IH. destruct (String.eqb_spec k0 k) as [E|Hne].
  - subst k0. destruct (string_dec k k) as [e|N]; [|contradiction].
    destruct (in_dec string_dec k t); [contradiction | reflexivity].
  - destruct (string_dec k k0) as [E|N];
      [exfalso; apply Hne; now symmetry|].
    destruct (in_dec string_dec k0 t); reflexivity.
Qed.

Lemma total_zero {A : Type} (l : list A) : total (map (fun _ => 0) l) = 0.
Proof. unfold total. induction l; simpl; lia. Qed.

Lemma count_where_cons {A : Type} (q : A -> bool) (x : A) (l : list A) :
  count_where q (x :: l) = (if q x then 1 else 0) + count_where q l.
Proof. rewrite <- !mask_sum_count. reflexivity. Qed.

Lemma group_counts_add_up {D : Type} (p : Row D -> bool) (keys : list string)
    (data : list (Row D)) :
  NoDup keys ->
  (forall r k, In r data -> Player r = Some k -> In k keys) ->
  total (map (fun k => count_where (fun r => in_group k r && p r) data) keys)
  = count_where (fun r => has_player r && p r) data.
Proof.
  intros Hnd. induction data as [|r t IH]; intros Hcover.
  - unfold count_where. simpl. apply total_zero.
  - rewrite count_where_cons.
    rewrite <- IH by (intros r' k Hr'; apply Hcover; now right).
    rewrite (map_ext _ (fun k => (if in_group k r && p r then 1 else 0)
                                 + count_where
                                     (fun r0 => in_group k r0 && p r0) t))
      by (intros k;
          apply (count_where_cons (fun r0 => in_group k r0 && p r0) r t)).
    rewrite (total_add (fun k => if in_group k r && p r then 1 else 0)).
    f_equal.
    unfold in_group, has_player.
    destruct (Player r) as [k0|] eqn:E; simpl.
    + destruct (p r).
      * rewrite (map_ext _ (fun k => if String.eqb k0 k then 1 else 0))
          by (intros k; now rewrite andb_true_r).
        rewrite total_indicator by exact Hnd.
        destruct (in_dec string_dec k0 keys) as [e|N]; [reflexivity|].
        exfalso. apply N. apply (Hcover r k0); [now left | exact E].
      * rewrite (map_ext _ (fun _ => 0))
          by (intros k; now rewrite andb_false_r).
        apply total_zero.
    + apply total_zero.
Qed.

(** X22.  Grouping by player loses and repeats no row: on a well-formed
    table, when top_n is at least the number of distinct players of the
    segment, the DaysAtRank1 of the board of [leaders] add up to the number
    of rows of the segment that have a player and Rank 1, and likewise for
    DaysInTop5 and DaysInTop10. *)
Theorem leaders_counts_add_up (df : Frame) (format category : string)
    (top_n : Z) :
  well_formed df ->
  Z.of_nat (List.length (distinct_players
                           (filter (in_segment format category) (rows df))))
  <= top_n ->
  exists board,
    leaders df format category top_n = Ok board
    /\ total (map DaysAtRank1 board)
       = count_where (fun r => in_segment format category r
                               && (has_player r && (Rank r =? 1))) (rows df)
    /\ total (map DaysInTop5 board)
       = count_where (fun r => in_segment format category r
                               && (has_player r && (Rank r <=? 5))) (rows df)
    /\ total (map DaysInTop10 board)
       = count_where (fun r => in_segment format category r
                               && (has_player r && (Rank r <=? 10)))
                     (rows df).
Proof.
  intros Hwf Hle. rewrite (leaders_board df format category top_n Hwf).
  eexists. split; [reflexivity|].
  set (data := filter (in_segment format category) (rows df)) in *.
  rewrite groupby_agg_days_leader_of.
  set (keys := group_keys (map (@Player _) data)).
  set (board0 := map (leader_of data) keys).
  assert (Permutation (sort_values_days board0) board0) as Hperm
      by apply sort_by_perm.
  assert (head top_n (sort_values_days board0) = sort_values_days board0)
    as ->.
  { unfold head. destruct (Z.leb_spec 0 top_n) as [_|L]; [|lia].
    apply firstn_all2. rewrite (Permutation_length Hperm). unfold board0.
    rewrite length_map. unfold keys. rewrite group_keys_length. lia. }
  assert (forall r k, In r data -> Player r = Some k -> In k keys) as Hcover.
  { intros r k Hr Hk. unfold keys. apply group_keys_In.
    rewrite <- Hk. now apply in_map. }
  assert (forall (field : Leader -> Z) (p : Record_ -> bool),
             (forall k, field (leader_of data k)
                        = count_where (fun r => in_group k r && p r) data) ->
             total (map field (sort_values_days board0))
             = count_where (fun r => in_segment format category r
                                     && (has_player r && p r)) (rows df))
    as Hsum.
  { intros field p Hfield.
    rewrite (total_perm _ _ (Permutation_map field Hperm)).
    unfold board0. rewrite map_map.
    rewrite (map_ext _ _ Hfield).
    rewrite (group_counts_add_up p keys data (group_keys_NoDup _) Hcover).
    unfold data. apply count_where_filter. }
  split; [|split]; apply Hsum; reflexivity.
Qed.

Lemma leaders_counts_add_up_witness :
  exists board,
    leaders Reference.table "odi" "batting" 20 = Ok board
    /\ total (map DaysAtRank1 board)
       = count_where (fun r => in_segment "odi" "batting" r
                               && (has_player r && (Rank r =? 1)))
                     (rows Reference.table)
    /\ total (map DaysInTop5 board)
       = count_where (fun r => in_segment "odi" "batting" r
                               && (has_player r && (Rank r <=? 5)))
                     (rows Reference.table)
    /\ total (map DaysInTop10 board)
       = count_where (fun r => in_segment "odi" "batting" r
                               && (has_player r && (Rank r <=? 10)))
                     (rows Reference.table).
Proof.
  apply (leaders_counts_add_up Reference.table "odi" "batting" 20).
  - reflexivity.
  - vm_compute. discriminate.
Defined.
